(** * QCLineSimulator: the cosmetics QC line of [wash_process/app.js]

    A shallow embedding of the simulation core of [class QCLineSimulator]:
    profiles, belts, items, sensors, the classification [evaluateQC], the
    per-frame loop ([spawnItems], [updateItems]) and the control handlers
    ([toggleBelt], [toggleEmergencyStop], [saveProfileChanges],
    [resetConfiguration]).

    JavaScript numbers are IEEE 754 doubles and are modelled by Rocq's
    primitive [float]; the integer counters, which the code only ever
    increments by one, are modelled in [Z].  The three.js scene, the chart
    and the sound are presentation and are left out; where a handler reads
    the document (buttons, form fields) the value read is an explicit
    argument.

    The loop of [start] with the trends, and the sequencer of the ten
    stations of [class LinearFilamentSimulator] of the same file (module
    [Filament]), follow the QC line. *)

From Stdlib Require Import Floats ZArith List String Bool Lia DecimalString.
Import ListNotations.

Set Warnings "-inexact-float".

Local Open Scope string_scope.
Local Open Scope list_scope.

(** ** JavaScript numbers *)

Module JS.

(** [Math.abs]. *)
Definition Math_abs (x : float) : float := PrimFloat.abs x.

(** [Math.sqrt]. *)
Definition Math_sqrt (x : float) : float := PrimFloat.sqrt x.

(** [Math.max(a, b)]: NaN when either argument is NaN, otherwise the
    larger one, with +0 larger than -0. *)
Definition Math_max (a b : float) : float :=
  if is_nan a || is_nan b then nan
  else if (a <? b)%float then b
  else if (b <? a)%float then a
  else if get_sign a then b else a.

(** [a > b] and [a >= b] written with the primitive comparisons. *)
Definition gt (a b : float) : bool := (b <? a)%float.
Definition ge (a b : float) : bool := (b <=? a)%float.

(** [Number.isFinite]. *)
Definition isFinite (x : float) : bool := PrimFloat.is_finite x.

(** [Math.PI]. *)
Definition Math_PI : float := 3.141592653589793%float.

(** [Math.floor(x)] as an integer; [None] when [x] is NaN or infinite. *)
Definition Math_floor (x : float) : option Z :=
  match Prim2SF x with
  | S754_zero _ => Some 0%Z
  | S754_finite s m e =>
      let v := if s then Z.neg m else Z.pos m in
      Some (if (0 <=? e)%Z then v * 2 ^ e else Z.shiftr v (- e))%Z
  | _ => None
  end.

(** [arr[i]] for a number [i]: [undefined] outside the array. *)
Definition index {A} (arr : list A) (i : option Z) : option A :=
  match i with
  | Some z => if (z <? 0)%Z then None else nth_error arr (Z.to_nat z)
  | None => None
  end.

(** Truthiness of a value that is [undefined] or a boolean. *)
Definition truthy (b : option bool) : bool :=
  match b with Some true => true | _ => false end.

(** [s.slice(-1)]: the last character of [s], or the empty string. *)
Fixpoint slice_last (s : string) : string :=
  match s with
  | EmptyString => EmptyString
  | String c EmptyString => String c EmptyString
  | String _ rest => slice_last rest
  end.

End JS.

(** ** [Map]: insertion-ordered association of string keys

    [Map.prototype.set] on a key already present replaces the value in place;
    on a new key it appends.  [forEach] visits the entries in insertion
    order. *)

Module JSMap.

Definition t (V : Type) : Type := list (string * V).

Definition empty {V} : t V := [].

Fixpoint get {V} (m : t V) (k : string) : option V :=
  match m with
  | [] => None
  | (k', v) :: rest => if String.eqb k' k then Some v else get rest k
  end.

Fixpoint set {V} (m : t V) (k : string) (v : V) : t V :=
  match m with
  | [] => [(k, v)]
  | (k', v') :: rest =>
      if String.eqb k' k then (k', v) :: rest else (k', v') :: set rest k v
  end.

Fixpoint delete {V} (m : t V) (k : string) : t V :=
  match m with
  | [] => []
  | (k', v') :: rest =>
      if String.eqb k' k then rest else (k', v') :: delete rest k
  end.

Definition keys {V} (m : t V) : list string := map fst m.
Definition values {V} (m : t V) : list V := map snd m.

(** Update every value in place, as a [forEach] that mutates each entry. *)
Definition map_values {V} (f : string -> V -> V) (m : t V) : t V :=
  map (fun kv => (fst kv, f (fst kv) (snd kv))) m.

(** [m.set(k, g(k, m.get(k)))] when [k] is a key of [m]. *)
Definition update_key {V} (g : string -> V -> V) (m : t V) (k : string) : t V :=
  match get m k with
  | Some v => set m k (g k v)
  | None => m
  end.

(** The map seen through [f]: the same keys, each with the [f] of its
    value. *)
Definition view {V W} (f : V -> W) (m : t V) : t W :=
  map (fun kv => (fst kv, f (snd kv))) m.

End JSMap.


(** ** Data model (the objects built by [initData], [createSensors] and
       [createBrushItem]) *)

Record Vec3 := mkVec3 { vx : float; vy : float; vz : float }.

Record Profile := mkProfile {
  p_name : string;
  p_diameter_mm : float;
  p_target_height_mm : float;
  p_height_tol_mm : float;
  p_softness_range_N : float * float
}.

Record Counters := mkCounters {
  c_ok : Z;
  c_red : Z;
  c_green : Z;
  c_yellow : Z
}.

(** [wasRunning] is [undefined] until the first emergency stop. *)
Record Belt := mkBelt {
  b_id : string;
  b_name : string;
  speed_mps : float;
  spawn_per_min : float;
  b_profile : string;
  b_position : Vec3;
  enabled : bool;
  lastSpawn : float;
  b_items : list string;
  counters : Counters;
  wasRunning : option bool
}.

Inductive SensorType := softness | height | size.

Record Sensor := mkSensor {
  s_id : string;
  s_type : SensorType;
  s_beltId : string;
  s_position : Vec3;
  s_active : bool;
  lastReading : float
}.

Record Bin := mkBin {
  bin_id : string;
  bin_name : string;
  bin_color : string;
  bin_position : Vec3;
  bin_items : list string;
  fillLevel : Z
}.

(** The placeholders of a [reason] template literal; rendering them with
    [toFixed] is presentation. *)
Inductive Reason :=
| ReasonUnknownProfile
| ReasonSoftness (softness minSoftness maxSoftness : float)
| ReasonOver (measured heightDiff : float)
| ReasonUnder (measured absDiff : float)
| ReasonDiameter (diameter profileDiameter : float)
| ReasonOk.

Record SensorReading := mkReading {
  r_sensorId : string;
  r_timestamp : float;
  r_value : float;
  r_type : SensorType
}.

(** [diameter_mm] is [NaN] where the code leaves it [undefined] (an index
    outside [wrongDiameters]): every use of it in the code is arithmetic. *)
Record Item := mkItem {
  id : string;
  beltId : string;
  profile : string;
  diameter_mm : float;
  target_height_mm : float;
  measured_height_mm : float;
  softness_N : float;
  status : string;
  bucket : option string;
  qcReason : option Reason;
  position : Vec3;
  velocity : float;
  timestampIn : float;
  sensorReadings : list SensorReading
}.

Record QCResult := mkQC {
  qc_status : string;
  qc_bucket : string;
  qc_reason : Reason
}.

Record Alarm := mkAlarm {
  a_id : float;
  a_timestamp : float;
  a_beltId : string;
  a_itemId : string;
  a_type : string;
  a_message : string * Reason;
  a_severity : string
}.

Record Statistics := mkStatistics {
  totalItems : Z;
  okCount : Z;
  redCount : Z;
  greenCount : Z;
  yellowCount : Z
}.

Record Scenarios := mkScenarios {
  spikeHeight : bool;
  softnessDrift : bool;
  wrongProduct : bool
}.

Record Config := mkConfig {
  height_sigma_mm : float;
  softness_sigma_N : float;
  sensorLatency : float;
  rate_overHeight : float;
  rate_underHeight : float;
  rate_softnessNail : float
}.

(** The outputs [Math.random()] is going to return: first those of
    [pending], in order, then [tail] for ever. *)
Record Rng := mkRng { pending : list float; tail : float }.

(** The simulator object.  [dom_belts] lists the belts for which the page
    has the controls (toggle button, status light, speed display);
    [animations] lists the move-to-bin animations started and not yet
    finished: the id of the item, and the bin that the animation holds and
    fills at its end, which is [Some] of its id as long as that bin is the
    one of [this.bins], and [None] once [initData] has put a new bin in its
    place. *)
Record Sim := mkSim {
  isPaused : bool;
  simulationSpeed : float;
  soundEnabled : bool;
  emergencyStop : bool;
  belts : JSMap.t Belt;
  items : JSMap.t Item;
  sensors : JSMap.t Sensor;
  bins : JSMap.t Bin;
  profiles : JSMap.t Profile;
  alarms : list Alarm;
  statistics : Statistics;
  scenarios : Scenarios;
  config : Config;
  random : Rng;
  dom_belts : list string;
  animations : list (string * option string)
}.

(** *** Field updates *)

Definition with_isPaused (s : Sim) v :=
  mkSim v (simulationSpeed s) (soundEnabled s) (emergencyStop s) (belts s)
        (items s) (sensors s) (bins s) (profiles s) (alarms s) (statistics s)
        (scenarios s) (config s) (random s) (dom_belts s) (animations s).
Definition with_soundEnabled (s : Sim) v :=
  mkSim (isPaused s) (simulationSpeed s) v (emergencyStop s) (belts s)
        (items s) (sensors s) (bins s) (profiles s) (alarms s) (statistics s)
        (scenarios s) (config s) (random s) (dom_belts s) (animations s).
Definition with_emergencyStop (s : Sim) v :=
  mkSim (isPaused s) (simulationSpeed s) (soundEnabled s) v (belts s)
        (items s) (sensors s) (bins s) (profiles s) (alarms s) (statistics s)
        (scenarios s) (config s) (random s) (dom_belts s) (animations s).
Definition with_belts (s : Sim) v :=
  mkSim (isPaused s) (simulationSpeed s) (soundEnabled s) (emergencyStop s) v
        (items s) (sensors s) (bins s) (profiles s) (alarms s) (statistics s)
        (scenarios s) (config s) (random s) (dom_belts s) (animations s).
Definition with_items (s : Sim) v :=
  mkSim (isPaused s) (simulationSpeed s) (soundEnabled s) (emergencyStop s)
        (belts s) v (sensors s) (bins s) (profiles s) (alarms s) (statistics s)
        (scenarios s) (config s) (random s) (dom_belts s) (animations s).
Definition with_sensors (s : Sim) v :=
  mkSim (isPaused s) (simulationSpeed s) (soundEnabled s) (emergencyStop s)
        (belts s) (items s) v (bins s) (profiles s) (alarms s) (statistics s)
        (scenarios s) (config s) (random s) (dom_belts s) (animations s).
Definition with_bins (s : Sim) v :=
  mkSim (isPaused s) (simulationSpeed s) (soundEnabled s) (emergencyStop s)
        (belts s) (items s) (sensors s) v (profiles s) (alarms s) (statistics s)
        (scenarios s) (config s) (random s) (dom_belts s) (animations s).
Definition with_profiles (s : Sim) v :=
  mkSim (isPaused s) (simulationSpeed s) (soundEnabled s) (emergencyStop s)
        (belts s) (items s) (sensors s) (bins s) v (alarms s) (statistics s)
        (scenarios s) (config s) (random s) (dom_belts s) (animations s).
Definition with_alarms (s : Sim) v :=
  mkSim (isPaused s) (simulationSpeed s) (soundEnabled s) (emergencyStop s)
        (belts s) (items s) (sensors s) (bins s) (profiles s) v (statistics s)
        (scenarios s) (config s) (random s) (dom_belts s) (animations s).
Definition with_statistics (s : Sim) v :=
  mkSim (isPaused s) (simulationSpeed s) (soundEnabled s) (emergencyStop s)
        (belts s) (items s) (sensors s) (bins s) (profiles s) (alarms s) v
        (scenarios s) (config s) (random s) (dom_belts s) (animations s).
Definition with_scenarios (s : Sim) v :=
  mkSim (isPaused s) (simulationSpeed s) (soundEnabled s) (emergencyStop s)
        (belts s) (items s) (sensors s) (bins s) (profiles s) (alarms s)
        (statistics s) v (config s) (random s) (dom_belts s) (animations s).
Definition with_config (s : Sim) v :=
  mkSim (isPaused s) (simulationSpeed s) (soundEnabled s) (emergencyStop s)
        (belts s) (items s) (sensors s) (bins s) (profiles s) (alarms s)
        (statistics s) (scenarios s) v (random s) (dom_belts s) (animations s).
Definition with_random (s : Sim) v :=
  mkSim (isPaused s) (simulationSpeed s) (soundEnabled s) (emergencyStop s)
        (belts s) (items s) (sensors s) (bins s) (profiles s) (alarms s)
        (statistics s) (scenarios s) (config s) v (dom_belts s) (animations s).
Definition with_animations (s : Sim) v :=
  mkSim (isPaused s) (simulationSpeed s) (soundEnabled s) (emergencyStop s)
        (belts s) (items s) (sensors s) (bins s) (profiles s) (alarms s)
        (statistics s) (scenarios s) (config s) (random s) (dom_belts s) v.

Definition belt_with_enabled (b : Belt) v :=
  mkBelt (b_id b) (b_name b) (speed_mps b) (spawn_per_min b) (b_profile b)
         (b_position b) v (lastSpawn b) (b_items b) (counters b) (wasRunning b).
Definition belt_with_speed (b : Belt) v :=
  mkBelt (b_id b) (b_name b) v (spawn_per_min b) (b_profile b)
         (b_position b) (enabled b) (lastSpawn b) (b_items b) (counters b)
         (wasRunning b).
Definition belt_with_profile (b : Belt) v :=
  mkBelt (b_id b) (b_name b) (speed_mps b) (spawn_per_min b) v
         (b_position b) (enabled b) (lastSpawn b) (b_items b) (counters b)
         (wasRunning b).
Definition belt_with_lastSpawn (b : Belt) v :=
  mkBelt (b_id b) (b_name b) (speed_mps b) (spawn_per_min b) (b_profile b)
         (b_position b) (enabled b) v (b_items b) (counters b) (wasRunning b).
Definition belt_with_items (b : Belt) v :=
  mkBelt (b_id b) (b_name b) (speed_mps b) (spawn_per_min b) (b_profile b)
         (b_position b) (enabled b) (lastSpawn b) v (counters b) (wasRunning b).
Definition belt_with_counters (b : Belt) v :=
  mkBelt (b_id b) (b_name b) (speed_mps b) (spawn_per_min b) (b_profile b)
         (b_position b) (enabled b) (lastSpawn b) (b_items b) v (wasRunning b).
Definition belt_with_wasRunning (b : Belt) v :=
  mkBelt (b_id b) (b_name b) (speed_mps b) (spawn_per_min b) (b_profile b)
         (b_position b) (enabled b) (lastSpawn b) (b_items b) (counters b) v.

Definition item_with_position_x (it : Item) (x : float) :=
  mkItem (id it) (beltId it) (profile it) (diameter_mm it)
         (target_height_mm it) (measured_height_mm it) (softness_N it)
         (status it) (bucket it) (qcReason it)
         (mkVec3 x (vy (position it)) (vz (position it)))
         (velocity it) (timestampIn it) (sensorReadings it).
Definition item_with_velocity (it : Item) v :=
  mkItem (id it) (beltId it) (profile it) (diameter_mm it)
         (target_height_mm it) (measured_height_mm it) (softness_N it)
         (status it) (bucket it) (qcReason it) (position it)
         v (timestampIn it) (sensorReadings it).
Definition item_with_status (it : Item) v :=
  mkItem (id it) (beltId it) (profile it) (diameter_mm it)
         (target_height_mm it) (measured_height_mm it) (softness_N it)
         v (bucket it) (qcReason it) (position it)
         (velocity it) (timestampIn it) (sensorReadings it).
Definition item_with_qc (it : Item) (r : QCResult) :=
  mkItem (id it) (beltId it) (profile it) (diameter_mm it)
         (target_height_mm it) (measured_height_mm it) (softness_N it)
         (qc_status r) (Some (qc_bucket r)) (Some (qc_reason r)) (position it)
         (velocity it) (timestampIn it) (sensorReadings it).
Definition item_with_readings (it : Item) v :=
  mkItem (id it) (beltId it) (profile it) (diameter_mm it)
         (target_height_mm it) (measured_height_mm it) (softness_N it)
         (status it) (bucket it) (qcReason it) (position it)
         (velocity it) (timestampIn it) v.
Definition sensor_with_lastReading (sn : Sensor) v :=
  mkSensor (s_id sn) (s_type sn) (s_beltId sn) (s_position sn) (s_active sn) v.

Definition stats_with_total (st : Statistics) v :=
  mkStatistics v (okCount st) (redCount st) (greenCount st) (yellowCount st).

(** ** [constructor], [initData], [createSensors] *)

Definition profilesData : list Profile :=
  [ mkProfile "Brush-64" 64 45 1.0 (2.0, 3.5)%float;
    mkProfile "Brush-95" 95 50 1.0 (2.2, 3.2)%float;
    mkProfile "Brush-121" 121 55 1.0 (2.5, 3.0)%float ].

Definition zero_counters : Counters := mkCounters 0 0 0 0.

(** [{...belt, lastSpawn: 0, items: [], counters: {...}}] for each entry of
    [beltsData]. *)
Definition beltsData : list Belt :=
  [ mkBelt "B1" "Belt 1 (64mm)" 0.3 18 "Brush-64" (mkVec3 (-2) 0 (-1))
           false 0 [] zero_counters None;
    mkBelt "B2" "Belt 2 (95mm)" 0.25 14 "Brush-95" (mkVec3 (-2) 0 0)
           false 0 [] zero_counters None;
    mkBelt "B3" "Belt 3 (121mm)" 0.35 22 "Brush-121" (mkVec3 (-2) 0 1)
           false 0 [] zero_counters None ].

Definition binsData : list Bin :=
  [ mkBin "OK_BIN" "OK Bin" "#ffffff" (mkVec3 3 0 0) [] 0;
    mkBin "RED_BIN" "Under-Height/Size" "#ff4444" (mkVec3 2.5 0 (-1)) [] 0;
    mkBin "GREEN_BIN" "Over-Height" "#44ff44" (mkVec3 2.5 0 0) [] 0;
    mkBin "YELLOW_BIN" "Softness Fail" "#ffff44" (mkVec3 2.5 0 1) [] 0 ].

Definition initData (s : Sim) : Sim :=
  let s := with_profiles s
             (fold_left (fun m p => JSMap.set m (p_name p) p)
                        profilesData (profiles s)) in
  let s := with_belts s
             (fold_left (fun m b => JSMap.set m (b_id b) b)
                        beltsData (belts s)) in
  let s := with_bins s
             (fold_left (fun m b => JSMap.set m (bin_id b) b)
                        binsData (bins s)) in
  (* [this.bins.set(bin.id, {...})] puts new objects in the map: an
     animation that runs keeps the bin it started with *)
  with_animations s
    (map (fun a =>
            (fst a,
             match snd a with
             | Some b =>
                 if existsb (String.eqb b) (map bin_id binsData)
                 then None else Some b
             | None => None
             end))
         (animations s)).

Definition sensorPositions : list Sensor :=
  [ mkSensor "S_SOFT_1" softness "B1" (mkVec3 0 0.5 (-1)) false 0;
    mkSensor "S_HEIGHT_1" height "B1" (mkVec3 0.5 0.5 (-1)) false 0;
    mkSensor "S_SIZE_1" size "B1" (mkVec3 1 0.5 (-1)) false 0;
    mkSensor "S_SOFT_2" softness "B2" (mkVec3 0 0.5 0) false 0;
    mkSensor "S_HEIGHT_2" height "B2" (mkVec3 0.5 0.5 0) false 0;
    mkSensor "S_SIZE_2" size "B2" (mkVec3 1 0.5 0) false 0;
    mkSensor "S_SOFT_3" softness "B3" (mkVec3 0 0.5 1) false 0;
    mkSensor "S_HEIGHT_3" height "B3" (mkVec3 0.5 0.5 1) false 0;
    mkSensor "S_SIZE_3" size "B3" (mkVec3 1 0.5 1) false 0 ].

Definition createSensors (s : Sim) : Sim :=
  with_sensors s
    (fold_left (fun m sn => JSMap.set m (s_id sn) sn)
               sensorPositions (sensors s)).

Definition default_config : Config := mkConfig 0.2 0.1 50 0.02 0.03 0.03.

(** [new QCLineSimulator()], in a page [dom] and with [rng] ahead. *)
Definition new_QCLineSimulator (rng : Rng) (dom : list string) : Sim :=
  createSensors
    (initData
       (mkSim false 1.0 true false JSMap.empty JSMap.empty JSMap.empty
              JSMap.empty JSMap.empty [] (mkStatistics 0 0 0 0 0)
              (mkScenarios false false false) default_config rng dom [])).

(** ** [evaluateQC] *)

Definition evaluateQC (profs : JSMap.t Profile) (item : Item) : QCResult :=
  match JSMap.get profs (profile item) with
  | None => mkQC "ERROR" "RED_BIN" ReasonUnknownProfile
  | Some prof =>
      (* Step 1: Softness check *)
      let '(minSoftness, maxSoftness) := p_softness_range_N prof in
      if (softness_N item <? minSoftness)%float
         || JS.gt (softness_N item) maxSoftness
      then mkQC "SOFT_FAIL" "YELLOW_BIN"
                (ReasonSoftness (softness_N item) minSoftness maxSoftness)
      else
        (* Step 2: Height check *)
        let heightDiff :=
          (measured_height_mm item - p_target_height_mm prof)%float in
        if JS.ge (JS.Math_abs heightDiff) (p_height_tol_mm prof) then
          if JS.ge heightDiff (p_height_tol_mm prof)
          then mkQC "OVER_HEIGHT" "GREEN_BIN"
                    (ReasonOver (measured_height_mm item) heightDiff)
          else mkQC "UNDER_HEIGHT" "RED_BIN"
                    (ReasonUnder (measured_height_mm item)
                                 (JS.Math_abs heightDiff))
        else
          (* Step 3: Size/diameter check *)
          if JS.gt (JS.Math_abs (diameter_mm item - p_diameter_mm prof)%float)
                   1%float
          then mkQC "SIZE_DOWN" "RED_BIN"
                    (ReasonDiameter (diameter_mm item) (p_diameter_mm prof))
          else mkQC "OK" "OK_BIN" ReasonOk
  end.

(** ** [createAlarm], [processItem] *)

Definition createAlarm (now : float) (s : Sim) (item : Item)
    (qcResult : QCResult) : Sim :=
  let alarm :=
    mkAlarm now now (beltId item) (id item) (qc_status qcResult)
            (beltId item, qc_reason qcResult)
            (if qc_bucket qcResult =? "YELLOW_BIN" then "yellow"
             else if qc_bucket qcResult =? "GREEN_BIN" then "green"
             else "red") in
  let unshifted := alarm :: alarms s in
  (* Keep only last 20 alarms *)
  with_alarms s
    (if (20 <? List.length unshifted)%nat then firstn 20 unshifted else unshifted).

Definition requiredSensors (belt : string) : list string :=
  [ ("S_SOFT_" ++ JS.slice_last belt)%string;
    ("S_HEIGHT_" ++ JS.slice_last belt)%string;
    ("S_SIZE_" ++ JS.slice_last belt)%string ].

(** [belt.counters.X++; this.statistics.XCount++] for the class of the
    result. *)
Definition count_result (s : Sim) (belt : string) (qcResult : QCResult) : Sim :=
  let bump (fc : Counters -> Counters) (fs : Statistics -> Statistics) :=
    let s1 :=
      match JSMap.get (belts s) belt with
      | Some b =>
          with_belts s
            (JSMap.set (belts s) belt (belt_with_counters b (fc (counters b))))
      | None => s
      end in
    with_statistics s1 (fs (statistics s1)) in
  if qc_status qcResult =? "OK" then
    bump (fun c => mkCounters (c_ok c + 1) (c_red c) (c_green c) (c_yellow c))
         (fun t => mkStatistics (totalItems t) (okCount t + 1) (redCount t)
                                (greenCount t) (yellowCount t))
  else if qc_bucket qcResult =? "RED_BIN" then
    bump (fun c => mkCounters (c_ok c) (c_red c + 1) (c_green c) (c_yellow c))
         (fun t => mkStatistics (totalItems t) (okCount t) (redCount t + 1)
                                (greenCount t) (yellowCount t))
  else if qc_bucket qcResult =? "GREEN_BIN" then
    bump (fun c => mkCounters (c_ok c) (c_red c) (c_green c + 1) (c_yellow c))
         (fun t => mkStatistics (totalItems t) (okCount t) (redCount t)
                                (greenCount t + 1) (yellowCount t))
  else if qc_bucket qcResult =? "YELLOW_BIN" then
    bump (fun c => mkCounters (c_ok c) (c_red c) (c_green c) (c_yellow c + 1))
         (fun t => mkStatistics (totalItems t) (okCount t) (redCount t)
                                (greenCount t) (yellowCount t + 1))
  else s.

(** The item is the object stored in [this.items]; the caller writes the
    returned item back.  An item's belt always exists (items are created on
    a belt of the map and belts are never deleted), so the counters of a
    missing belt are not modelled. *)
Definition processItem (now : float) (s : Sim) (item : Item) : Item * Sim :=
  if negb (status item =? "PROCESSING") then (item, s)
  else
    let completedSensors := map r_sensorId (sensorReadings item) in
    if forallb (fun r => existsb (String.eqb r) completedSensors)
               (requiredSensors (beltId item))
    then
      let qcResult := evaluateQC (profiles s) item in
      let item := item_with_qc item qcResult in
      (* Update counters *)
      let s := count_result s (beltId item) qcResult in
      let s := with_statistics s
                 (stats_with_total (statistics s)
                                   (totalItems (statistics s) + 1)) in
      (* Create alarm if not OK *)
      let s := if negb (qc_status qcResult =? "OK")
               then createAlarm now s item qcResult else s in
      (item, s)
    else (item, s).

(** ** [checkSensorInteractions] *)

Definition sensor_value (t : SensorType) (item : Item) : float :=
  match t with
  | softness => softness_N item
  | height => measured_height_mm item
  | size => diameter_mm item
  end.

(** The body of the [forEach] over [this.sensors], for one sensor. *)
Definition check_sensor (now : float) (acc : Item * JSMap.t Sensor)
    (entry : string * Sensor) : Item * JSMap.t Sensor :=
  let '(item, sens) := acc in
  let '(sensorId, sensor) := entry in
  if negb (s_beltId sensor =? beltId item) then acc
  else
    let sensorX := vx (s_position sensor) in
    let itemX := vx (position item) in
    let tolerance := 0.1%float in
    (* Check if item is at sensor position *)
    if (JS.Math_abs (itemX - sensorX) <? tolerance)%float then
      (* Check if already recorded reading for this sensor *)
      match find (fun r => r_sensorId r =? sensorId) (sensorReadings item) with
      | Some _ => acc
      | None =>
          let value := sensor_value (s_type sensor) item in
          (item_with_readings item
             (sensorReadings item
                ++ [mkReading sensorId now value (s_type sensor)]),
           JSMap.set sens sensorId (sensor_with_lastReading sensor value))
      end
    else acc.

Definition checkSensorInteractions (now : float) (s : Sim) (item : Item)
    : Item * Sim :=
  let '(item', sens') :=
    fold_left (check_sensor now) (sensors s) (item, sensors s) in
  (item', with_sensors s sens').

(** ** [Math.random] *)

Definition Math_random (g : Rng) : float * Rng :=
  match pending g with
  | [] => (tail g, g)
  | r :: rest => (r, mkRng rest (tail g))
  end.

(** [let u = 0; while (u === 0) u = Math.random();]: the first output that
    is not zero, or [None] when every output to come is zero and the loop
    never ends. *)
Fixpoint draw_nonzero (ps : list float) (tl : float) : option (float * Rng) :=
  match ps with
  | [] => if (tl =? 0)%float then None else Some (tl, mkRng [] tl)
  | r :: rest =>
      if (r =? 0)%float then draw_nonzero rest tl
      else Some (r, mkRng rest tl)
  end.

(** ** [moveItemToBin], [removeItem], [updateItems] *)

(** Starts the animation, which draws the target's z offset and holds the
    bin [this.bins.get(item.bucket)]; the animation's last frame is
    [animateTobin_finish]. *)
Definition moveItemToBin (s : Sim) (item : Item) : Sim :=
  match bucket item with
  | Some b =>
      match JSMap.get (bins s) b with
      | Some _ =>
          let '(_, g) := Math_random (random s) in
          with_animations (with_random s g)
            (animations s ++ [(id item, Some b)])
      | None => s
      end
  | None => s
  end.

(** The end of the oldest running animation: [bin.items.push(item.id);
    bin.fillLevel++; item.status = 'COMPLETED'], on the bin that the
    animation holds: a bin that is no longer in [this.bins] is filled out of
    sight. *)
Definition animateTobin_finish (s : Sim) : Sim :=
  match animations s with
  | [] => s
  | (itemId, held) :: rest =>
      let s := with_animations s rest in
      let s :=
        match held with
        | Some b =>
            match JSMap.get (bins s) b with
            | Some bin =>
                with_bins s
                  (JSMap.set (bins s) b
                     (mkBin (bin_id bin) (bin_name bin) (bin_color bin)
                            (bin_position bin) (bin_items bin ++ [itemId])
                            (fillLevel bin + 1)))
            | None => s
            end
        | None => s
        end in
      match JSMap.get (items s) itemId with
      | Some item =>
          with_items s
            (JSMap.set (items s) itemId (item_with_status item "COMPLETED"))
      | None => s
      end
  end.

(** [arr.splice(arr.indexOf(x), 1)] when [x] occurs in [arr]. *)
Fixpoint remove_first (x : string) (arr : list string) : list string :=
  match arr with
  | [] => []
  | y :: rest => if y =? x then rest else y :: remove_first x rest
  end.

Definition removeItem (s : Sim) (itemId : string) : Sim :=
  match JSMap.get (items s) itemId with
  | Some item =>
      let s :=
        match JSMap.get (belts s) (beltId item) with
        | Some belt =>
            with_belts s
              (JSMap.set (belts s) (beltId item)
                 (belt_with_items belt (remove_first itemId (b_items belt))))
        | None => s
        end in
      with_items s (JSMap.delete (items s) itemId)
  | None => s
  end.

(** The body of the [forEach] over [this.items], for the entry [itemId]. *)
Definition update_item (now deltaTime : float) (s : Sim) (itemId : string)
    : Sim :=
  match JSMap.get (items s) itemId with
  | None => s
  | Some item =>
      if status item =? "COMPLETED" then s
      else
        (* Move item along belt *)
        let item :=
          item_with_position_x item
            (vx (position item)
             + velocity item * deltaTime * simulationSpeed s)%float in
        (* Check sensor interactions *)
        let '(item, s) := checkSensorInteractions now s item in
        (* Process QC if ready *)
        let '(item, s) := processItem now s item in
        let s := with_items s (JSMap.set (items s) itemId item) in
        (* Move to bin if processed and reached end *)
        let s :=
          if negb (status item =? "PROCESSING")
             && JS.gt (vx (position item)) 2.0
          then moveItemToBin s item else s in
        (* Remove items that have moved too far *)
        if JS.gt (vx (position item)) 4 then removeItem s itemId else s
  end.

Definition updateItems (now deltaTime : float) (s : Sim) : Sim :=
  fold_left (update_item now deltaTime) (JSMap.keys (items s)) s.

(** ** Item creation: [gaussianRandom], [simulateHeight], [simulateSoftness],
       [createBrushItem], [spawnItems]

    [Math.log], [Math.cos] and the rendering of an item id from
    [Date.now()] and a [Math.random()] output are the environment's. *)

Record Builtins := mkBuiltins {
  Math_log : float -> float;
  Math_cos : float -> float;
  item_id : float -> float -> string
}.

(** Code that may not terminate, over the outputs of [Math.random]. *)
Definition Gen (A : Type) : Type := Rng -> option (A * Rng).

Definition gen_ret {A} (a : A) : Gen A := fun g => Some (a, g).

Definition gen_bind {A B} (m : Gen A) (f : A -> Gen B) : Gen B :=
  fun g => match m g with
           | Some (a, g') => f a g'
           | None => None
           end.

Definition gen_random : Gen float := fun g => Some (Math_random g).

Definition gen_nonzero : Gen float := fun g => draw_nonzero (pending g) (tail g).

Notation "x <- m ;; k" := (gen_bind m (fun x => k))
  (at level 61, m at next level, right associativity).

Section Spawning.

Variable B : Builtins.

Definition gaussianRandom : Gen float :=
  (* Box-Muller transform for Gaussian distribution *)
  u <- gen_nonzero ;;
  v <- gen_nonzero ;;
  gen_ret (JS.Math_sqrt (-2.0 * Math_log B u)
           * Math_cos B (2.0 * JS.Math_PI * v))%float.

Definition simulateHeight (cfg : Config) (targetHeight : float) : Gen float :=
  g <- gaussianRandom ;;
  let noise := (g * height_sigma_mm cfg)%float in
  (* Add process variation *)
  r1 <- gen_random ;;
  variation <-
    (if (r1 <? rate_overHeight cfg)%float then
       r <- gen_random ;; gen_ret (r * 2 + 1)%float
     else
       r2 <- gen_random ;;
       if (r2 <? rate_underHeight cfg)%float then
         r <- gen_random ;; gen_ret (- (r * 2 + 1))%float
       else
         r <- gen_random ;; gen_ret ((r - 0.5) * 1.6)%float) ;;
  gen_ret (targetHeight + variation + noise)%float.

Definition simulateSoftness (cfg : Config) (softnessRange : float * float)
    : Gen float :=
  let '(min, max) := softnessRange in
  let target := ((min + max) / 2)%float in
  g <- gaussianRandom ;;
  let noise := (g * softness_sigma_N cfg)%float in
  r1 <- gen_random ;;
  variation <-
    (if (r1 <? rate_softnessNail cfg)%float then
       (* Softness fail - outside range *)
       r <- gen_random ;;
       gen_ret (if (r <? 0.5)%float
                then (- (target - min + 0.5))%float (* Too soft *)
                else (max - target + 0.5)%float)    (* Too hard *)
     else
       r <- gen_random ;; gen_ret ((r - 0.5) * 0.6)%float) ;;
  gen_ret (JS.Math_max 0 (target + variation + noise)%float).

Definition wrongDiameters : list float :=
  [44; 51; 57; 70; 76; 83; 89; 102; 108; 114; 127; 133; 142; 152]%float.

(** The item of [createBrushItem], scenarios applied, for a belt that is
    enabled. *)
Definition brush_item (now : float) (cfg : Config) (sc : Scenarios)
    (beltId : string) (belt : Belt) (prof : Profile) : Gen Item :=
  r_id <- gen_random ;;
  measured <- simulateHeight cfg (p_target_height_mm prof) ;;
  soft <- simulateSoftness cfg (p_softness_range_N prof) ;;
  (* Apply demo scenarios *)
  measured <-
    (if spikeHeight sc then
       r <- gen_random ;; gen_ret (measured + (r - 0.5) * 4)%float
     else gen_ret measured) ;;
  let soft := if softnessDrift sc then (soft + 0.5)%float else soft in
  diameter <-
    (if wrongProduct sc then
       r <- gen_random ;;
       gen_ret
         (match JS.index wrongDiameters
                  (JS.Math_floor
                     (r * PrimFloat.of_uint63
                            (Uint63.of_Z (Z.of_nat (List.length wrongDiameters))))%float)
          with
          | Some d => d
          | None => nan
          end)
     else gen_ret (p_diameter_mm prof)) ;;
  (* the hue of the bristles *)
  _ <- gen_random ;;
  gen_ret
    (mkItem (item_id B now r_id) beltId (p_name prof) diameter
            (p_target_height_mm prof) measured soft "PROCESSING" None None
            (mkVec3 (vx (b_position belt) - 2.5)%float 0.2
                    (vz (b_position belt)))
            (speed_mps belt) now []).

(** [None]: the call does not return.  [Some (None, s)]: it returns
    [null]. *)
Definition createBrushItem (now : float) (s : Sim) (belt : string)
    (prof : Profile) : option (option Item * Sim) :=
  match JSMap.get (belts s) belt with
  | None => Some (None, s)
  | Some b =>
      if negb (enabled b) then Some (None, s)
      else
        match brush_item now (config s) (scenarios s) belt b prof (random s)
        with
        | None => None
        | Some (item, g) =>
            let s := with_random s g in
            let s := with_items s (JSMap.set (items s) (id item) item) in
            let s :=
              with_belts s
                (JSMap.set (belts s) belt
                   (belt_with_items b (b_items b ++ [id item]))) in
            Some (Some item, s)
        end
  end.

(** The body of the [forEach] over [this.belts], for the entry [belt]. *)
Definition spawn_on_belt (now : float) (s : Sim) (belt : string)
    : option Sim :=
  match JSMap.get (belts s) belt with
  | None => Some s
  | Some b =>
      if negb (enabled b) || emergencyStop s then Some s
      else
        let spawnInterval := (60 / spawn_per_min b * 1000)%float in
        if JS.gt (now - lastSpawn b)%float spawnInterval then
          match JSMap.get (profiles s) (b_profile b) with
          | Some prof =>
              match createBrushItem now s belt prof with
              | None => None
              | Some (_, s) =>
                  match JSMap.get (belts s) belt with
                  | Some b' =>
                      Some (with_belts s
                              (JSMap.set (belts s) belt
                                         (belt_with_lastSpawn b' now)))
                  | None => Some s
                  end
              end
          | None => Some s
          end
        else Some s
  end.

Definition spawnItems (now : float) (s : Sim) : option Sim :=
  fold_left
    (fun acc belt =>
       match acc with
       | Some s' => spawn_on_belt now s' belt
       | None => None
       end)
    (JSMap.keys (belts s)) (Some s).

(** One turn of [animate] in [start] while the page is shown: [now] is
    [Date.now()] and [deltaTime] the seconds since the previous turn. *)
Definition frame (now deltaTime : float) (s : Sim) : option Sim :=
  if isPaused s then Some s
  else
    match spawnItems now s with
    | Some s' => Some (updateItems now deltaTime s')
    | None => None
    end.

End Spawning.

(** ** Control handlers *)

Definition toggleBelt (s : Sim) (belt : string) : Sim :=
  match JSMap.get (belts s) belt with
  | Some b =>
      if existsb (String.eqb belt) (dom_belts s) then
        with_belts s
          (JSMap.set (belts s) belt (belt_with_enabled b (negb (enabled b))))
      else s
  | None => s
  end.

Definition setBeltSpeed (s : Sim) (belt : string) (speed : float) : Sim :=
  match JSMap.get (belts s) belt with
  | Some b =>
      if existsb (String.eqb belt) (dom_belts s) then
        let s := with_belts s
                   (JSMap.set (belts s) belt (belt_with_speed b speed)) in
        (* Update velocity of existing items on this belt *)
        with_items s
          (JSMap.map_values
             (fun _ item => if beltId item =? belt
                            then item_with_velocity item speed else item)
             (items s))
      else s
  | None => s
  end.

Definition setBeltProfile (s : Sim) (belt profileName : string) : Sim :=
  match JSMap.get (belts s) belt with
  | Some b =>
      with_belts s (JSMap.set (belts s) belt (belt_with_profile b profileName))
  | None => s
  end.

(** Stop all belts: the body of the [forEach] when the stop is engaged. *)
Definition estop_belt (s : Sim) (belt : string) : Sim :=
  match JSMap.get (belts s) belt with
  | Some b =>
      if enabled b then
        toggleBelt
          (with_belts s
             (JSMap.set (belts s) belt (belt_with_wasRunning b (Some true))))
          belt
      else s
  | None => s
  end.

(** Restart previously running belts: the body of the [forEach] when the
    stop is released. *)
Definition restart_belt (s : Sim) (belt : string) : Sim :=
  match JSMap.get (belts s) belt with
  | Some b =>
      if JS.truthy (wasRunning b) then
        let s := toggleBelt s belt in
        match JSMap.get (belts s) belt with
        | Some b' =>
            with_belts s
              (JSMap.set (belts s) belt (belt_with_wasRunning b' (Some false)))
        | None => s
        end
      else s
  | None => s
  end.

Definition toggleEmergencyStop (s : Sim) : Sim :=
  let s := with_emergencyStop s (negb (emergencyStop s)) in
  if emergencyStop s
  then fold_left estop_belt (JSMap.keys (belts s)) s
  else fold_left restart_belt (JSMap.keys (belts s)) s.

Definition togglePause (s : Sim) : Sim := with_isPaused s (negb (isPaused s)).

Definition toggleScenario (s : Sim) (scenarioName : string) : Sim :=
  let sc := scenarios s in
  if scenarioName =? "spikeHeight" then
    with_scenarios s
      (mkScenarios (negb (spikeHeight sc)) (softnessDrift sc) (wrongProduct sc))
  else if scenarioName =? "softnessDrift" then
    with_scenarios s
      (mkScenarios (spikeHeight sc) (negb (softnessDrift sc)) (wrongProduct sc))
  else if scenarioName =? "wrongProduct" then
    with_scenarios s
      (mkScenarios (spikeHeight sc) (softnessDrift sc) (negb (wrongProduct sc)))
  else s.

Definition resetScenarios (s : Sim) : Sim :=
  with_scenarios s (mkScenarios false false false).

Definition clearAlarms (s : Sim) : Sim := with_alarms s [].

(** [profileName] is the value of the profile selector; the five numbers are
    what [parseFloat] returns on the form's fields (NaN for a field that
    does not start with a number). *)
Definition saveProfileChanges (s : Sim) (profileName : string)
    (diameter targetHeight tolerance softnessMin softnessMax : float) : Sim :=
  match JSMap.get (profiles s) profileName with
  | Some prof =>
      with_profiles s
        (JSMap.set (profiles s) profileName
           (mkProfile (p_name prof) diameter targetHeight tolerance
                      (softnessMin, softnessMax)))
  | None => s
  end.

Definition saveSensorSettings (s : Sim) (heightNoise softnessNoise latency : float)
    : Sim :=
  let c := config s in
  with_config s
    (mkConfig heightNoise softnessNoise latency (rate_overHeight c)
              (rate_underHeight c) (rate_softnessNail c)).

Definition resetConfiguration (s : Sim) : Sim :=
  (* Reset to defaults *)
  let c := config s in
  let s := with_config s
             (mkConfig 0.2 0.1 50 (rate_overHeight c) (rate_underHeight c)
                       (rate_softnessNail c)) in
  (* Reset profiles to defaults *)
  initData s.

(** ** Runs: what the page can do to the simulator *)

Inductive Op :=
| OpFrame (now deltaTime : float)
| OpAnimationEnd
| OpToggleBelt (belt : string)
| OpSetBeltSpeed (belt : string) (speed : float)
| OpSetBeltProfile (belt profileName : string)
| OpToggleEmergencyStop
| OpTogglePause
| OpSoundToggle (checked : bool)
| OpToggleScenario (scenarioName : string)
| OpResetScenarios
| OpClearAlarms
| OpSaveProfileChanges (profileName : string)
    (diameter targetHeight tolerance softnessMin softnessMax : float)
| OpSaveSensorSettings (heightNoise softnessNoise latency : float)
| OpResetConfiguration.

Definition step (B : Builtins) (op : Op) (s : Sim) : option Sim :=
  match op with
  | OpFrame now deltaTime => frame B now deltaTime s
  | OpAnimationEnd => Some (animateTobin_finish s)
  | OpToggleBelt belt => Some (toggleBelt s belt)
  | OpSetBeltSpeed belt speed => Some (setBeltSpeed s belt speed)
  | OpSetBeltProfile belt p => Some (setBeltProfile s belt p)
  | OpToggleEmergencyStop => Some (toggleEmergencyStop s)
  | OpTogglePause => Some (togglePause s)
  | OpSoundToggle checked => Some (with_soundEnabled s checked)
  | OpToggleScenario n => Some (toggleScenario s n)
  | OpResetScenarios => Some (resetScenarios s)
  | OpClearAlarms => Some (clearAlarms s)
  | OpSaveProfileChanges n d h t lo hi =>
      Some (saveProfileChanges s n d h t lo hi)
  | OpSaveSensorSettings h sf l => Some (saveSensorSettings s h sf l)
  | OpResetConfiguration => Some (resetConfiguration s)
  end.

Fixpoint run (B : Builtins) (ops : list Op) (s : Sim) : option Sim :=
  match ops with
  | [] => Some s
  | op :: rest =>
      match step B op s with
      | Some s' => run B rest s'
      | None => None
      end
  end.

(** ** The conditions the classification is specified by *)

(** The measured softness lies outside the profile's range [[min, max]]. *)
Definition softness_out (item : Item) (prof : Profile) : bool :=
  (softness_N item <? fst (p_softness_range_N prof))%float
  || (snd (p_softness_range_N prof) <? softness_N item)%float.

(** [measuredHeight - targetHeight]. *)
Definition height_diff (item : Item) (prof : Profile) : float :=
  (measured_height_mm item - p_target_height_mm prof)%float.

(** [|measuredHeight - targetHeight| >= tolerance]. *)
Definition height_out (item : Item) (prof : Profile) : bool :=
  (p_height_tol_mm prof <=? PrimFloat.abs (height_diff item prof))%float.

(** The measured height is above the target height. *)
Definition height_above (item : Item) (prof : Profile) : bool :=
  (p_target_height_mm prof <? measured_height_mm item)%float.

(** The measured height is below the target height. *)
Definition height_below (item : Item) (prof : Profile) : bool :=
  (measured_height_mm item <? p_target_height_mm prof)%float.

(** [|measuredDiameter - profileDiameter| > 1]. *)
Definition size_out (item : Item) (prof : Profile) : bool :=
  (1 <? PrimFloat.abs (diameter_mm item - p_diameter_mm prof))%float.

Definition verdict (r : QCResult) : string * string :=
  (qc_status r, qc_bucket r).

(** The profile registry as [initData] leaves it. *)
Definition initial_profiles : JSMap.t Profile :=
  fold_left (fun m p => JSMap.set m (p_name p) p) profilesData JSMap.empty.

(** An item of profile Brush-64 on belt B1 with the given measurements. *)
Definition brush64_item (measuredHeight softnessN diameter : float) : Item :=
  mkItem "item_1" "B1" "Brush-64" diameter 45 measuredHeight softnessN
         "PROCESSING" None None (mkVec3 1 0.2 (-1)) 0.3 0 [].

(** What the specification asks [upsertProfile] to check before it commits:
    every number finite and the softness range ordered. *)
Definition spec_valid_profile
    (diameter targetHeight tolerance softnessMin softnessMax : float) : bool :=
  JS.isFinite diameter && JS.isFinite targetHeight && JS.isFinite tolerance
  && JS.isFinite softnessMin && JS.isFinite softnessMax
  && (softnessMin <=? softnessMax)%float.

(** ** A sample session *)

(** The integer part of a number, in decimal. *)
Definition decimal (x : float) : string :=
  match JS.Math_floor x with
  | Some z => NilZero.string_of_int (Z.to_int z)
  | None => "NaN"
  end.

(** An interpretation of the built-ins to run examples with (the logarithm
    is -2 and the cosine 0 everywhere, so the Gaussian noise is 0; an id
    shows its time and nine decimals of its random number); no result below
    depends on the choice. *)
Definition sample_builtins : Builtins :=
  mkBuiltins (fun _ => (-2)%float) (fun _ => 0%float)
             (fun now r =>
                ("item_" ++ decimal now ++ "_" ++ decimal (r * 1000000000))%string).

(** A fresh simulator in a page that has the controls of the three belts;
    [Math.random()] returns 0.5 every time. *)
Definition sample_sim : Sim :=
  new_QCLineSimulator (mkRng [] 0.5) ["B1"; "B2"; "B3"].

(** Belt B1 is started and spawns an item at time 1000000; the item
    reaches the softness sensor after 15 s, stays there for one more turn,
    and reaches the height and the size sensors 1.7 s and 3.4 s later,
    where it is classified. *)
Definition sample_ops : list Op :=
  [ OpToggleBelt "B1"; OpFrame 1000000 0; OpFrame 1000000 15;
    OpFrame 1000000 0; OpFrame 1000000 1.7; OpFrame 1000000 1.7 ].

Definition sample_state : Sim :=
  Eval vm_compute in
    match run sample_builtins sample_ops sample_sim with
    | Some s => s
    | None => sample_sim
    end.

(** The same session with the wrong-product scenario switched on first. *)
Definition sample_state_wrongProduct : Sim :=
  Eval vm_compute in
    match run sample_builtins (OpToggleScenario "wrongProduct" :: sample_ops)
              sample_sim with
    | Some s => s
    | None => sample_sim
    end.

(** The sample session with the emergency stop engaged at its end. *)
Definition sample_state_stopped : Sim :=
  Eval vm_compute in toggleEmergencyStop sample_state.

(** Belt B1 is started at time 1000000 and spawns at once; it is stopped,
    and started again between the turns of time 1999999 and 2000016. *)
Definition restart_ops : list Op :=
  [ OpToggleBelt "B1"; OpFrame 1000000 0.016; OpToggleBelt "B1";
    OpFrame 1999999 0.016; OpToggleBelt "B1" ].

Definition restart_state : Sim :=
  Eval vm_compute in
    match run sample_builtins restart_ops sample_sim with
    | Some s => s
    | None => sample_sim
    end.

(** The item of the sample session and its belt. *)
Definition sample_item : Item :=
  Eval vm_compute in
    match items sample_state with
    | (_, item) :: _ => item
    | [] => mkItem "" "" "" 0 0 0 0 "" None None (mkVec3 0 0 0) 0 0 []
    end.

Definition sample_belt : Belt :=
  Eval vm_compute in
    match JSMap.get (belts sample_state) "B1" with
    | Some b => b
    | None => mkBelt "" "" 0 0 "" (mkVec3 0 0 0) false 0 [] zero_counters None
    end.

(** The sample session, stopped, one turn of the loop later. *)
Definition sample_state_stopped_later : Sim :=
  Eval vm_compute in
    match run sample_builtins [OpFrame 1000500 0.5] sample_state_stopped with
    | Some s => s
    | None => sample_sim
    end.

(** The sample session with the emergency stop engaged while the item is
    on its way from the height sensor to the size sensor. *)
Definition sample_state_stopped_in_transit : Sim :=
  Eval vm_compute in
    match run sample_builtins
              [ OpToggleBelt "B1"; OpFrame 1000000 0; OpFrame 1000000 15;
                OpFrame 1000000 0; OpFrame 1000000 1.7;
                OpToggleEmergencyStop ] sample_sim with
    | Some s => s
    | None => sample_sim
    end.

Definition sample_item_in_transit : Item :=
  Eval vm_compute in
    match items sample_state_stopped_in_transit with
    | (_, item) :: _ => item
    | [] => mkItem "" "" "" 0 0 0 0 "" None None (mkVec3 0 0 0) 0 0 []
    end.

(** The number of items of the simulator. *)
Definition item_count (s : Sim) : nat := List.length (items s).

(** The sum of a counter over the belts. *)
Definition sum_counter (f : Counters -> Z) (m : JSMap.t Belt) : Z :=
  fold_right (fun kv acc => (f (counters (snd kv)) + acc)%Z) 0%Z m.

Definition sum_belts (f : Counters -> Z) (s : Sim) : Z :=
  sum_counter f (belts s).

(** Each global counter of a class is the sum of the belts' counters of the
    class. *)
Definition stats_match (s : Sim) : Prop :=
  okCount (statistics s) = sum_belts c_ok s
  /\ redCount (statistics s) = sum_belts c_red s
  /\ greenCount (statistics s) = sum_belts c_green s
  /\ yellowCount (statistics s) = sum_belts c_yellow s.

(** No counter of [c] is above its counterpart in [c']. *)
Definition counters_le (c c' : Counters) : Prop :=
  (c_ok c <= c_ok c' /\ c_red c <= c_red c'
   /\ c_green c <= c_green c' /\ c_yellow c <= c_yellow c')%Z.

Definition stats_le (t t' : Statistics) : Prop :=
  (totalItems t <= totalItems t' /\ okCount t <= okCount t'
   /\ redCount t <= redCount t' /\ greenCount t <= greenCount t'
   /\ yellowCount t <= yellowCount t')%Z.

(** The same belts, in the same order, with counters that did not
    decrease. *)
Definition belts_le (m m' : JSMap.t Belt) : Prop :=
  Forall2 (fun a b => fst a = fst b
                      /\ counters_le (counters (snd a)) (counters (snd b)))
          m m'.

(** ** Predicates the properties are stated with *)

(** [m] returns whenever [Math.random] does not return zero for ever, and
    leaves the far end of the outputs as it was. *)
Definition gen_total {A} (m : Gen A) : Prop :=
  forall g, (tail g =? 0)%float = false ->
    exists a g', m g = Some (a, g') /\ tail g' = tail g.

(** The floats below zero: the negative numbers and minus infinity. *)
Definition SF_negative (x : spec_float) : bool :=
  match x with
  | S754_infinity true | S754_finite true _ _ => true
  | _ => false
  end.

(** A number above zero. *)
Definition SF_positive (x : spec_float) : bool :=
  match x with
  | S754_infinity false | S754_finite false _ _ => true
  | _ => false
  end.

(** What the emergency stop reads and writes of a belt. *)
Definition belt_control (b : Belt) : bool * option bool :=
  (enabled b, wasRunning b).

(** What a turn of the loop never changes: the flags, the page, the
    profiles, the settings, and each belt's [enabled] and [wasRunning]. *)
Record same_controls (s s' : Sim) : Prop := mkSameControls {
  sc_isPaused : isPaused s' = isPaused s;
  sc_simulationSpeed : simulationSpeed s' = simulationSpeed s;
  sc_emergencyStop : emergencyStop s' = emergencyStop s;
  sc_dom_belts : dom_belts s' = dom_belts s;
  sc_profiles : profiles s' = profiles s;
  sc_config : config s' = config s;
  sc_scenarios : scenarios s' = scenarios s;
  sc_belts : JSMap.view belt_control (belts s')
             = JSMap.view belt_control (belts s)
}.

(** What engaging the emergency stop does to the belt [k], in a page that
    has the controls of the belts [dom]. *)
Definition engage_belt (dom : list string) (k : string) (b : Belt) : Belt :=
  if enabled b then
    let b1 := belt_with_wasRunning b (Some true) in
    if existsb (String.eqb k) dom
    then belt_with_enabled b1 (negb (enabled b1)) else b1
  else b.

(** What releasing the emergency stop does to the belt [k]. *)
Definition release_belt (dom : list string) (k : string) (b : Belt) : Belt :=
  if JS.truthy (wasRunning b) then
    belt_with_wasRunning
      (if existsb (String.eqb k) dom
       then belt_with_enabled b (negb (enabled b)) else b)
      (Some false)
  else b.

(** No belt is recorded as running before a stop. *)
Definition record_clear (b : Belt) : Prop := JS.truthy (wasRunning b) = false.




(** Every item of the simulator satisfies [P]. *)
Definition items_all (P : Item -> Prop) (s : Sim) : Prop :=
  Forall (fun kv => P (snd kv)) (items s).

(** Every belt of the simulator satisfies [Q]. *)
Definition belts_all (Q : Belt -> Prop) (s : Sim) : Prop :=
  Forall (fun kv => Q (snd kv)) (belts s).

(** The number of readings of the sensor [sensorId] that the item holds. *)
Definition readings_of (sensorId : string) (item : Item) : nat :=
  List.length
    (filter (fun r => r_sensorId r =? sensorId) (sensorReadings item)).

(** ** Further predicates *)

(** The pairs of a status and a bin that [evaluateQC] returns. *)
Definition qc_verdicts : list (string * string) :=
  [ ("OK", "OK_BIN"); ("SOFT_FAIL", "YELLOW_BIN"); ("OVER_HEIGHT", "GREEN_BIN");
    ("UNDER_HEIGHT", "RED_BIN"); ("SIZE_DOWN", "RED_BIN"); ("ERROR", "RED_BIN") ].

(** The total is the sum of the four classes. *)
Definition stats_total_ok (t : Statistics) : Prop :=
  totalItems t = (okCount t + redCount t + greenCount t + yellowCount t)%Z.

(** An alarm reports a verdict that is not OK, with the severity of the
    verdict's bin, for the belt its message names. *)
Definition alarm_ok (a : Alarm) : Prop :=
  In (a_type a, a_severity a)
     [ ("SOFT_FAIL", "yellow"); ("OVER_HEIGHT", "green");
       ("UNDER_HEIGHT", "red"); ("SIZE_DOWN", "red"); ("ERROR", "red") ]
  /\ fst (a_message a) = a_beltId a.

(** The alarm of the wrong-product session. *)
Definition sample_alarm : Alarm :=
  Eval vm_compute in
    match alarms sample_state_wrongProduct with
    | a :: _ => a
    | [] => mkAlarm 0 0 "" "" "" ("", ReasonOk) ""
    end.

(** The sample session once the move-to-bin animation of its item has
    ended: the item is COMPLETED. *)
Definition sample_state_completed : Sim :=
  Eval vm_compute in
    match run sample_builtins
              [OpFrame 1000000 3.4; OpAnimationEnd] sample_state with
    | Some s => s
    | None => sample_sim
    end.

Definition sample_item_completed : Item :=
  Eval vm_compute in
    match items sample_state_completed with
    | (_, item) :: _ => item
    | [] => sample_item
    end.

(** The sensor [sensor], at the key [sensorId], sees the item: it is on
    the item's belt and the item is within the tolerance of its position. *)
Definition sensor_sees (item : Item) (sensor : Sensor) : bool :=
  (s_beltId sensor =? beltId item)
  && (JS.Math_abs (vx (position item) - vx (s_position sensor)) <? 0.1)%float.

(** A reading taken at time [now] of the item by a sensor of the map that
    sees it: it carries the sensor's type and the item's measurement of that
    type. *)
Definition reading_of (now : float) (sens : JSMap.t Sensor) (item : Item)
    (r : SensorReading) : Prop :=
  r_timestamp r = now
  /\ exists sensor,
       In (r_sensorId r, sensor) sens
       /\ sensor_sees item sensor = true
       /\ r_type r = s_type sensor
       /\ r_value r = sensor_value (s_type sensor) item.

(** Every sensor of the map that sees the item has given a reading. *)
Definition all_read (item : Item) (sens : list (string * (string * Vec3)))
    (readings : list SensorReading) : Prop :=
  Forall
    (fun e =>
       (fst (snd e) =? beltId item)
       && (JS.Math_abs (vx (position item) - vx (snd (snd e))) <? 0.1)%float
       = true ->
       find (fun r => r_sensorId r =? fst e) readings <> None)
    sens.

(** Where a sensor is: its belt and its position. *)
Definition sensor_place (sn : Sensor) : string * Vec3 :=
  (s_beltId sn, s_position sn).


(** The sample session after belt B1 is given the name of a profile that
    does not exist, one spawn attempt later. *)
Definition sample_state_unregistered : Sim :=
  Eval vm_compute in
    match spawnItems sample_builtins 2000000
            (setBeltProfile sample_state "B1" "Brush-200") with
    | Some s => s
    | None => sample_sim
    end.

(** The turns of the loop. *)
Definition is_frame (op : Op) : bool :=
  match op with
  | OpFrame _ _ => true
  | _ => false
  end.

(** The item is of a profile among [profileNames] and on a belt among
    [beltIds], and its status is not ERROR. *)
Definition placed (profileNames beltIds : list string) (item : Item) : Prop :=
  In (profile item) profileNames
  /\ In (beltId item) beltIds
  /\ status item <> "ERROR".

(** Every profile is registered under its own name. *)
Definition profiles_named (s : Sim) : Prop :=
  Forall (fun kv => p_name (snd kv) = fst kv) (profiles s).

(** Every profile is registered under its own name, and every item is
    of a registered profile and on a belt of the simulator. *)
Definition well_placed (s : Sim) : Prop :=
  profiles_named s
  /\ items_all (placed (JSMap.keys (profiles s)) (JSMap.keys (belts s))) s.

Definition is_reset (op : Op) : bool :=
  match op with
  | OpResetConfiguration => true
  | _ => false
  end.

(** The statistics and the counters of each belt are the same in [s] and
    [s']. *)
Definition same_counts (s s' : Sim) : Prop :=
  statistics s' = statistics s
  /\ JSMap.view counters (belts s') = JSMap.view counters (belts s).

(** The item of the wrong-product session. *)
Definition sample_item_wrongProduct : Item :=
  Eval vm_compute in
    match items sample_state_wrongProduct with
    | (_, item) :: _ => item
    | [] => sample_item
    end.

(** ** The loop of [start], and [updateTrends]

    [Date.now()] returns a whole number of milliseconds, here a [Z]; the
    simulator computes with it as a double. *)

Definition float_of_Z (z : Z) : float :=
  if (z <? 0)%Z then (- PrimFloat.of_uint63 (Uint63.of_Z (- z)))%float
  else PrimFloat.of_uint63 (Uint63.of_Z z).

Record TrendsData := mkTrends {
  labels : list string;
  heightData : list float;
  softnessData : list float
}.

(** The simulator with the trends and the [lastTime] of the loop. *)
Record Page := mkPage {
  sim : Sim;
  trendsData : TrendsData;
  lastTime : Z
}.

Definition with_sim (p : Page) (s : Sim) : Page :=
  mkPage s (trendsData p) (lastTime p).

(** [arr.slice(-n)]. *)
Definition slice_from_end {A} (n : nat) (arr : list A) : list A :=
  skipn (List.length arr - n) arr.

(** [recentItems.length > 0 ? recentItems.reduce((sum, item) => sum +
    f(item), 0) / recentItems.length : 0]. *)
Definition average (f : Item -> float) (recentItems : list Item) : float :=
  if (0 <? List.length recentItems)%nat then
    (fold_left (fun sum item => sum + f item) recentItems 0
     / float_of_Z (Z.of_nat (List.length recentItems)))%float
  else 0%float.

(** [label] is [now.toLocaleTimeString()]. *)
Definition updateTrends (label : string) (s : Sim) (t : TrendsData)
    : TrendsData :=
  let labels' := labels t ++ [label] in
  (* Calculate average height and softness from recent items *)
  let recentItems := slice_from_end 10 (JSMap.values (items s)) in
  let avgHeight := average measured_height_mm recentItems in
  let avgSoftness := average softness_N recentItems in
  let heightData' := heightData t ++ [avgHeight] in
  let softnessData' := softnessData t ++ [avgSoftness] in
  (* Keep only last 50 points *)
  if (50 <? List.length labels')%nat
  then mkTrends (List.tl labels') (List.tl heightData') (List.tl softnessData')
  else mkTrends labels' heightData' softnessData'.

Section Loop.

Variable B : Builtins.

(** [Date.prototype.toLocaleTimeString], of the time in milliseconds. *)
Variable toLocaleTimeString : Z -> string.

(** One turn of [animate] in [start], at the time [currentTime]. *)
Definition animate (currentTime : Z) (p : Page) : option Page :=
  if negb (isPaused (sim p)) then
    let deltaTime :=
      ((float_of_Z currentTime - float_of_Z (lastTime p)) / 1000)%float in
    (* Update simulation *)
    match spawnItems B (float_of_Z currentTime) (sim p) with
    | None => None
    | Some s =>
        let s := updateItems (float_of_Z currentTime) deltaTime s in
        (* Update trends every 10 seconds *)
        let t :=
          if (Z.rem currentTime 10000 <? 16)%Z
          then updateTrends (toLocaleTimeString currentTime) s (trendsData p)
          else trendsData p in
        Some (mkPage s t currentTime)
    end
  else Some p.

(** What happens in the page: a turn of the loop, or a handler of the
    controls ([OpFrame] is the turn of the loop, which [PTurn] replaces). *)
Inductive PageOp :=
| PTurn (currentTime : Z)
| PHandler (op : Op).

Definition page_step (pop : PageOp) (p : Page) : option Page :=
  match pop with
  | PTurn currentTime => animate currentTime p
  | PHandler op =>
      if is_frame op then Some p
      else option_map (with_sim p) (step B op (sim p))
  end.

Fixpoint page_run (pops : list PageOp) (p : Page) : option Page :=
  match pops with
  | [] => Some p
  | pop :: rest =>
      match page_step pop p with
      | Some p' => page_run rest p'
      | None => None
      end
  end.

End Loop.

(** [start()] on a new simulator, at the time [startTime]. *)
Definition new_Page (rng : Rng) (dom : list string) (startTime : Z) : Page :=
  mkPage (new_QCLineSimulator rng dom) (mkTrends [] [] []) startTime.

(** The three series of the trends have the same length, at most 50. *)
Definition trends_ok (t : TrendsData) : Prop :=
  List.length (heightData t) = List.length (labels t)
  /\ List.length (softnessData t) = List.length (labels t)
  /\ (List.length (labels t) <= 50)%nat.

Definition sample_toLocaleTimeString (t : Z) : string :=
  decimal (float_of_Z t).

(** A session in the page: belt B1 is started at the time 1000000 and
    spawns an item, which is at the softness sensor 15 s later; the
    simulator is then paused. *)
Definition sample_page_ops : list PageOp :=
  [ PHandler (OpToggleBelt "B1"); PTurn 1000000; PTurn 1015000;
    PHandler OpTogglePause ].

Definition sample_page_paused : Page :=
  Eval vm_compute in
    match page_run sample_builtins sample_toLocaleTimeString sample_page_ops
            (new_Page (mkRng [] 0.5) ["B1"; "B2"; "B3"] 1000000) with
    | Some p => p
    | None => new_Page (mkRng [] 0.5) ["B1"; "B2"; "B3"] 1000000
    end.

(** The pause lasts until the time 1020000; the loop has its next turn 5
    ms later. *)
Definition sample_resume_ops : list PageOp :=
  [ PTurn 1018000; PHandler OpTogglePause; PTurn 1020005 ].

Definition sample_page_resumed : Page :=
  Eval vm_compute in
    match page_run sample_builtins sample_toLocaleTimeString sample_resume_ops
            sample_page_paused with
    | Some p => p
    | None => sample_page_paused
    end.

Definition sample_page_item (p : Page) : Item :=
  match items (sim p) with
  | (_, item) :: _ => item
  | [] => sample_item
  end.

(** The sample session two turns and two ends of animation later: the
    item, classified and beyond x = 2, is binned once per turn. *)
Definition sample_state_binned : Sim :=
  Eval vm_compute in
    match run sample_builtins
              [OpFrame 1000000 3.4; OpFrame 1000000 0.1;
               OpAnimationEnd; OpAnimationEnd] sample_state with
    | Some s => s
    | None => sample_sim
    end.

(** * The filament line: [LinearFilamentSimulator]

    The sequencer of the ten stations: the fields of the simulator that the
    process controls, the step controls and the animation loop read and
    write, and the process log of the page.  The meshes, the camera and the
    texts of the buttons are rendering. *)

Module Filament.

Record Station := mkStation {
  st_id : Z;
  st_name : string;
  st_position : Vec3;
  duration : float;
  equipment : list string;
  processType : string
}.

Definition stationData : list Station :=
  [ mkStation 1 "Loading Material" (mkVec3 (-50) 0 0) 10
      ["human_operator"; "tray_rack"; "work_platform"; "safety_barriers"]
      "Loading Material";
    mkStation 2 "Jet Spray" (mkVec3 (-35) 0 0) 8
      ["enclosed_chamber"; "spray_nozzles"; "drain_system"; "safety_doors";
       "water_collection"]
      "Jet Spray";
    mkStation 3 "Robot" (mkVec3 (-20) 0 0) 7
      ["6_axis_robot"; "gripper_assembly"; "safety_cage"; "control_pendant";
       "vision_system"]
      "Robot";
    mkStation 4 "Material Setup" (mkVec3 (-10) 0 0) 2
      ["pneumatic_clamps"; "proximity_sensors"; "air_cylinders";
       "pressure_gauges"]
      "Material Setup";
    mkStation 5 "Primary Drying" (mkVec3 0 0 0) 8
      ["air_knives"; "blower_units"; "heating_elements"; "air_ducts";
       "temperature_sensors"]
      "Primary Drying";
    mkStation 6 "Moisture Checking" (mkVec3 15 0 0) 3
      ["sensor_array"; "digital_display"; "scanning_mechanism";
       "pass_fail_lights"]
      "Moisture Checking";
    mkStation 7 "Oil Spray" (mkVec3 25 0 0) 3
      ["mist_nozzles"; "mixing_chamber"; "metering_pumps"; "oil_tank";
       "water_tank"]
      "Oil Spray";
    mkStation 8 "Secondary Drying" (mkVec3 35 0 0) 5
      ["ir_panels"; "insulated_chamber"; "temperature_controls";
       "low_temp_heaters"]
      "Secondary Drying";
    mkStation 9 "Moisture Checking" (mkVec3 45 0 0) 3
      ["sensor_array"; "digital_display"; "scanning_mechanism";
       "pass_fail_lights"]
      "Moisture Checking";
    mkStation 10 "Output" (mkVec3 55 0 0) 4
      ["unload_robot"; "output_trays"; "vision_system"; "storage_area";
       "quality_scanner"]
      "Output" ].

(** [this.stationData[i]]: [None] is [undefined]. *)
Definition station_at (i : Z) : option Station :=
  if (i <? 0)%Z then None else nth_error stationData (Z.to_nat i).

(** [this.stationData.length]. *)
Definition stationData_length : Z := Z.of_nat (List.length stationData).

(** The placeholders of the messages of the log; rendering them is
    presentation. *)
Inductive Message :=
| MsgInitialized
| MsgSystemActive
| MsgReady
| MsgMode (manual : bool)
| MsgSpeed (animationSpeed : float)
| MsgStarted
| MsgBeginning
| MsgProcessing (name : string) (duration : float)
| MsgPaused
| MsgResumed
| MsgStopped
| MsgReset
| MsgMovedBack (station : Z)
| MsgStationCompleted (station : Z)
| MsgMoving (station : Z) (name : string)
| MsgProcessComplete
| MsgBundlesProcessed
| MsgCompleted (name processType : string)
| MsgTrayStopped (name : string) (duration : float)
| MsgLogCleared.

(** An entry of the process log: its type and its message. *)
Definition LogEntry : Type := string * Message.

(** [log] is the list of the children of the element [process-log] of the
    page, [None] in a page that has no such element. *)
Record Line := mkLine {
  isRunning : bool;
  isPaused : bool;
  manualMode : bool;
  animationSpeed : float;
  totalProcessTime : float;
  stationStartTime : float;
  currentStationIndex : Z;
  trayPosition : Vec3;
  isMovingBetweenStations : bool;
  movementStartPos : Vec3;
  movementTargetPos : Vec3;
  movementProgress : float;
  movementSpeed : float;
  log : option (list LogEntry)
}.

Definition with_isRunning (f : Line) v :=
  mkLine v (isPaused f) (manualMode f) (animationSpeed f)
         (totalProcessTime f) (stationStartTime f) (currentStationIndex f)
         (trayPosition f) (isMovingBetweenStations f) (movementStartPos f)
         (movementTargetPos f) (movementProgress f) (movementSpeed f) (log f).

Definition with_isPaused (f : Line) v :=
  mkLine (isRunning f) v (manualMode f) (animationSpeed f)
         (totalProcessTime f) (stationStartTime f) (currentStationIndex f)
         (trayPosition f) (isMovingBetweenStations f) (movementStartPos f)
         (movementTargetPos f) (movementProgress f) (movementSpeed f) (log f).

Definition with_manualMode (f : Line) v :=
  mkLine (isRunning f) (isPaused f) v (animationSpeed f)
         (totalProcessTime f) (stationStartTime f) (currentStationIndex f)
         (trayPosition f) (isMovingBetweenStations f) (movementStartPos f)
         (movementTargetPos f) (movementProgress f) (movementSpeed f) (log f).

Definition with_animationSpeed (f : Line) v :=
  mkLine (isRunning f) (isPaused f) (manualMode f) v
         (totalProcessTime f) (stationStartTime f) (currentStationIndex f)
         (trayPosition f) (isMovingBetweenStations f) (movementStartPos f)
         (movementTargetPos f) (movementProgress f) (movementSpeed f) (log f).

Definition with_totalProcessTime (f : Line) v :=
  mkLine (isRunning f) (isPaused f) (manualMode f) (animationSpeed f)
         v (stationStartTime f) (currentStationIndex f)
         (trayPosition f) (isMovingBetweenStations f) (movementStartPos f)
         (movementTargetPos f) (movementProgress f) (movementSpeed f) (log f).

Definition with_stationStartTime (f : Line) v :=
  mkLine (isRunning f) (isPaused f) (manualMode f) (animationSpeed f)
         (totalProcessTime f) v (currentStationIndex f)
         (trayPosition f) (isMovingBetweenStations f) (movementStartPos f)
         (movementTargetPos f) (movementProgress f) (movementSpeed f) (log f).

Definition with_currentStationIndex (f : Line) v :=
  mkLine (isRunning f) (isPaused f) (manualMode f) (animationSpeed f)
         (totalProcessTime f) (stationStartTime f) v
         (trayPosition f) (isMovingBetweenStations f) (movementStartPos f)
         (movementTargetPos f) (movementProgress f) (movementSpeed f) (log f).

Definition with_trayPosition (f : Line) v :=
  mkLine (isRunning f) (isPaused f) (manualMode f) (animationSpeed f)
         (totalProcessTime f) (stationStartTime f) (currentStationIndex f)
         v (isMovingBetweenStations f) (movementStartPos f)
         (movementTargetPos f) (movementProgress f) (movementSpeed f) (log f).

Definition with_isMovingBetweenStations (f : Line) v :=
  mkLine (isRunning f) (isPaused f) (manualMode f) (animationSpeed f)
         (totalProcessTime f) (stationStartTime f) (currentStationIndex f)
         (trayPosition f) v (movementStartPos f)
         (movementTargetPos f) (movementProgress f) (movementSpeed f) (log f).

Definition with_movement (f : Line) (startPos targetPos : Vec3)
    (progress : float) :=
  mkLine (isRunning f) (isPaused f) (manualMode f) (animationSpeed f)
         (totalProcessTime f) (stationStartTime f) (currentStationIndex f)
         (trayPosition f) (isMovingBetweenStations f) startPos
         targetPos progress (movementSpeed f) (log f).

Definition with_movementProgress (f : Line) v :=
  mkLine (isRunning f) (isPaused f) (manualMode f) (animationSpeed f)
         (totalProcessTime f) (stationStartTime f) (currentStationIndex f)
         (trayPosition f) (isMovingBetweenStations f) (movementStartPos f)
         (movementTargetPos f) v (movementSpeed f) (log f).

Definition with_log (f : Line) v :=
  mkLine (isRunning f) (isPaused f) (manualMode f) (animationSpeed f)
         (totalProcessTime f) (stationStartTime f) (currentStationIndex f)
         (trayPosition f) (isMovingBetweenStations f) (movementStartPos f)
         (movementTargetPos f) (movementProgress f) (movementSpeed f) v.

(** [new LinearFilamentSimulator()], in a page whose process log is
    [page_log]. *)
Definition new_LinearFilamentSimulator (page_log : option (list LogEntry))
    : Line :=
  mkLine false false false 1.0 0 0 0 (mkVec3 (-50) 1.5 0) false
         (mkVec3 0 0 0) (mkVec3 0 0 0) 0 8 page_log.

(** ** [addLogEntry], [clearLog] *)

(** [while (log.children.length > 100) log.removeChild(log.firstChild)];
    [fuel] bounds the number of turns. *)
Fixpoint trim_log (fuel : nat) (children : list LogEntry) : list LogEntry :=
  match fuel with
  | O => children
  | S fuel' =>
      if (100 <? List.length children)%nat
      then trim_log fuel' (List.tl children)
      else children
  end.

Definition addLogEntry (f : Line) (type : string) (message : Message) : Line :=
  match log f with
  | None => f
  | Some children =>
      let children := children ++ [(type, message)] in
      (* Keep log size manageable *)
      with_log f (Some (trim_log (List.length children) children))
  end.

Definition clearLog (f : Line) : Line :=
  match log f with
  | Some _ => addLogEntry (with_log f (Some [])) "info" MsgLogCleared
  | None => f
  end.

(** ** The process controls

    A handler returns [None] when it throws (a property of [undefined] is
    read). *)

Definition setActiveStation (f : Line) (index : Z) : Line :=
  with_stationStartTime f (totalProcessTime f).

Definition startProcess (f : Line) : option Line :=
  if isRunning f then Some f
  else
    let f := with_isRunning f true in
    let f := with_isPaused f false in
    let f := with_totalProcessTime f 0 in
    let f := with_stationStartTime f 0 in
    let f := with_currentStationIndex f 0 in
    let f := with_isMovingBetweenStations f false in
    (* Reset tray to loading position *)
    let f := with_trayPosition f (mkVec3 (-50) 1.5 0) in
    let f := addLogEntry f "success" MsgStarted in
    let f := addLogEntry f "info" MsgBeginning in
    match station_at 0 with
    | None => None
    | Some st =>
        let f := addLogEntry f "info" (MsgProcessing (st_name st) (duration st)) in
        (* Start at loading station *)
        Some (setActiveStation f 0)
    end.

Definition pauseProcess (f : Line) : Line :=
  if negb (isRunning f) then f
  else
    let f := with_isPaused f (negb (isPaused f)) in
    addLogEntry f "info" (if isPaused f then MsgPaused else MsgResumed).

Definition stopProcess (f : Line) : Line :=
  let f := with_isRunning f false in
  let f := with_isPaused f false in
  let f := with_currentStationIndex f 0 in
  let f := with_isMovingBetweenStations f false in
  addLogEntry f "warning" MsgStopped.

Definition resetProcess (f : Line) : Line :=
  let f := stopProcess f in
  let f := with_trayPosition f (mkVec3 (-50) 1.5 0) in
  let f := with_totalProcessTime f 0 in
  addLogEntry f "info" MsgReset.

Definition completeStation (f : Line) (index : Z) : option Line :=
  match station_at index with
  | Some station =>
      Some (addLogEntry f "success"
              (MsgCompleted (st_name station) (processType station)))
  | None => None
  end.

Definition moveToStation (f : Line) (stationIndex : Z) : option Line :=
  match station_at stationIndex with
  | Some targetStation =>
      let targetPosition := mkVec3 (vx (st_position targetStation)) 1.5 0 in
      let f := with_isMovingBetweenStations f true in
      let f := with_movement f (trayPosition f) targetPosition 0 in
      Some (setActiveStation f stationIndex)
  | None => None
  end.

Definition advanceToNextStation (f : Line) : option Line :=
  if (currentStationIndex f <? stationData_length - 1)%Z then
    (* Complete current station *)
    match completeStation f (currentStationIndex f) with
    | None => None
    | Some f =>
        (* Move to next station *)
        let f := with_currentStationIndex f (currentStationIndex f + 1) in
        match moveToStation f (currentStationIndex f) with
        | None => None
        | Some f =>
            match station_at (currentStationIndex f) with
            | None => None
            | Some nextStation =>
                let f := addLogEntry f "success"
                           (MsgStationCompleted (currentStationIndex f)) in
                Some (addLogEntry f "info"
                        (MsgMoving (currentStationIndex f + 1)
                                   (st_name nextStation)))
            end
        end
    end
  else
    (* Process complete *)
    match completeStation f (currentStationIndex f) with
    | None => None
    | Some f =>
        let f := with_isRunning f false in
        let f := addLogEntry f "success" MsgProcessComplete in
        Some (addLogEntry f "success" MsgBundlesProcessed)
    end.

Definition nextStation (f : Line) : option Line :=
  if (currentStationIndex f <? stationData_length - 1)%Z && manualMode f
  then advanceToNextStation f
  else Some f.

Definition previousStation (f : Line) : option Line :=
  if (0 <? currentStationIndex f)%Z && manualMode f
     && negb (isMovingBetweenStations f)
  then
    let f := with_currentStationIndex f (currentStationIndex f - 1) in
    match moveToStation f (currentStationIndex f) with
    | None => None
    | Some f =>
        Some (addLogEntry f "info" (MsgMovedBack (currentStationIndex f + 1)))
    end
  else Some f.

Definition completeCurrentStation (f : Line) : option Line :=
  if isRunning f && negb (isMovingBetweenStations f) && manualMode f
  then advanceToNextStation f
  else Some f.

(** The [change] of the manual-mode box and the [input] of the speed
    slider, whose value [parseFloat] has read. *)
Definition setManualMode (f : Line) (checked : bool) : Line :=
  addLogEntry (with_manualMode f checked) "info" (MsgMode checked).

Definition setAnimationSpeed (f : Line) (value : float) : Line :=
  addLogEntry (with_animationSpeed f value) "info" (MsgSpeed value).

(** The three entries that [init] logs two seconds after the start. *)
Definition initialized (f : Line) : Line :=
  let f := addLogEntry f "success" MsgInitialized in
  let f := addLogEntry f "info" MsgSystemActive in
  addLogEntry f "info" MsgReady.

(** ** [updateProgress]: the number shown as the progress *)

Definition progress (f : Line) : float :=
  if (0 <? stationData_length)%Z then
    (float_of_Z (currentStationIndex f) / float_of_Z stationData_length * 100)%float
  else 0%float.

(** The text of the station counter. *)
Definition stationCounter (f : Line) : Z :=
  (currentStationIndex f + (if isRunning f then 1 else 0))%Z.

(** ** The animation loop: [animate], [updateSimulation] *)

Section Animation.

(** [THREE.Vector3.prototype.lerpVectors]. *)
Variable lerpVectors : Vec3 -> Vec3 -> float -> Vec3.

(** The first block of [updateSimulation]: the tray between two
    stations. *)
Definition move_tray (delta : float) (f : Line) : option Line :=
  if isMovingBetweenStations f then
    let f :=
      with_movementProgress f
        (movementProgress f
         + delta * animationSpeed f * (movementSpeed f / 10))%float in
    if JS.ge (movementProgress f) 1 then
      (* Movement complete - tray has STOPPED at station *)
      let f := with_movementProgress f 1 in
      let f := with_isMovingBetweenStations f false in
      let f := with_trayPosition f (movementTargetPos f) in
      let f := with_stationStartTime f (totalProcessTime f) in
      match station_at (currentStationIndex f) with
      | Some currentStation =>
          Some (addLogEntry f "success"
                  (MsgTrayStopped (st_name currentStation)
                                  (duration currentStation)))
      | None => None
      end
    else
      (* LINEAR INTERPOLATION - straight line movement only *)
      Some (with_trayPosition f
              (lerpVectors (movementStartPos f) (movementTargetPos f)
                           (movementProgress f)))
  else Some f.

(** The second block: auto-advance in automatic mode, when the tray has
    stopped and the station has had its time. *)
Definition auto_advance (f : Line) : option Line :=
  if negb (manualMode f) && negb (isMovingBetweenStations f) && isRunning f
  then
    match station_at (currentStationIndex f) with
    | Some currentStation =>
        let timeInStation := (totalProcessTime f - stationStartTime f)%float in
        let requiredTime :=
          (duration currentStation / animationSpeed f)%float in
        if JS.ge timeInStation requiredTime then
          (* Station processing complete - advance to next *)
          advanceToNextStation f
        else Some f
    | None => Some f
    end
  else Some f.

Definition updateSimulation (delta : float) (f : Line) : option Line :=
  match move_tray delta f with
  | Some f => auto_advance f
  | None => None
  end.

(** One turn of [animate]; [delta] is [this.clock.getDelta()]. *)
Definition animate (delta : float) (f : Line) : option Line :=
  if isRunning f && negb (isPaused f) then
    let f := with_totalProcessTime f (totalProcessTime f + delta)%float in
    updateSimulation delta f
  else Some f.

(** What happens in the page (the handlers of the camera and of the
    display, which write to the log only, are not listed). *)
Inductive Op :=
| OpInitialized
| OpStartProcess
| OpPauseProcess
| OpStopProcess
| OpResetProcess
| OpManualMode (checked : bool)
| OpPreviousStation
| OpNextStation
| OpCompleteCurrentStation
| OpAnimationSpeed (value : float)
| OpClearLog
| OpAnimate (delta : float).

Definition step (op : Op) (f : Line) : option Line :=
  match op with
  | OpInitialized => Some (initialized f)
  | OpStartProcess => startProcess f
  | OpPauseProcess => Some (pauseProcess f)
  | OpStopProcess => Some (stopProcess f)
  | OpResetProcess => Some (resetProcess f)
  | OpManualMode checked => Some (setManualMode f checked)
  | OpPreviousStation => previousStation f
  | OpNextStation => nextStation f
  | OpCompleteCurrentStation => completeCurrentStation f
  | OpAnimationSpeed value => Some (setAnimationSpeed f value)
  | OpClearLog => Some (clearLog f)
  | OpAnimate delta => animate delta f
  end.

Fixpoint run (ops : list Op) (f : Line) : option Line :=
  match ops with
  | [] => Some f
  | op :: rest =>
      match step op f with
      | Some f' => run rest f'
      | None => None
      end
  end.

End Animation.

(** Where the tray stands at the station of index [i]. *)
Definition station_place (i : Z) : option Vec3 :=
  option_map (fun st => mkVec3 (vx (st_position st)) 1.5 0) (station_at i).

(** The index is that of a station; a tray that is moving moves to the
    current station, and while the process runs a tray that is not moving
    stands at the current station. *)
Definition line_ok (f : Line) : Prop :=
  (0 <= currentStationIndex f <= 9)%Z
  /\ (isMovingBetweenStations f = true ->
      Some (movementTargetPos f) = station_place (currentStationIndex f))
  /\ (isRunning f = true -> isMovingBetweenStations f = false ->
      Some (trayPosition f) = station_place (currentStationIndex f)).

(** The station, the mode, the speed and the flags of the process are the
    same in [f] and [f']. *)
Definition same_station (f f' : Line) : Prop :=
  currentStationIndex f' = currentStationIndex f
  /\ manualMode f' = manualMode f
  /\ animationSpeed f' = animationSpeed f
  /\ isRunning f' = isRunning f
  /\ isPaused f' = isPaused f.

(** What a turn of the loop does to the station: nothing, or one step
    forward with the tray set moving, or the end of the cycle at the last
    station. *)
Definition turn_effect (f f' : Line) : Prop :=
  manualMode f' = manualMode f
  /\ animationSpeed f' = animationSpeed f
  /\ isPaused f' = isPaused f
  /\ ((currentStationIndex f' = currentStationIndex f
       /\ isRunning f' = isRunning f)
      \/ (manualMode f = false
          /\ currentStationIndex f' = (currentStationIndex f + 1)%Z
          /\ isMovingBetweenStations f' = true
          /\ isRunning f' = isRunning f)
      \/ (manualMode f = false
          /\ currentStationIndex f = 9%Z
          /\ currentStationIndex f' = 9%Z
          /\ isRunning f' = false)).

(** The straight line of [lerpVectors]. *)
Definition sample_lerpVectors (v1 v2 : Vec3) (alpha : float) : Vec3 :=
  mkVec3 (vx v1 + (vx v2 - vx v1) * alpha)
         (vy v1 + (vy v2 - vy v1) * alpha)
         (vz v1 + (vz v2 - vz v1) * alpha)%float.

(** A whole cycle in automatic mode: the process is started, and each
    station is given its time and each move 2 s. *)
Definition sample_cycle : list Op :=
  OpStartProcess
  :: flat_map (fun st => [OpAnimate (duration st); OpAnimate 2])
       stationData.

Definition sample_line : Line :=
  Eval vm_compute in
    match run sample_lerpVectors sample_cycle
              (new_LinearFilamentSimulator (Some [])) with
    | Some f => f
    | None => new_LinearFilamentSimulator None
    end.

(** The line just started. *)
Definition sample_line_started : Line :=
  Eval vm_compute in
    match run sample_lerpVectors [OpStartProcess]
              (new_LinearFilamentSimulator (Some [])) with
    | Some f => f
    | None => new_LinearFilamentSimulator None
    end.

End Filament.

(** * Properties *)

(** ** Facts about [Map] *)

Module JSMapFacts.

Import JSMap.

Lemma get_set_same {V} (m : t V) k v : get (set m k v) k = Some v.
Proof.
  induction m as [|[k' v'] rest IH]; simpl.
  - now rewrite String.eqb_refl.
  - destruct (String.eqb k' k) eqn:E; simpl; rewrite E; auto.
Qed.

Lemma get_set_other {V} (m : t V) k k' v :
  k <> k' -> get (set m k v) k' = get m k'.
Proof.
  intros Hne. induction m as [|[k0 v0] rest IH]; simpl.
  - destruct (String.eqb k k') eqn:E; auto.
    apply String.eqb_eq in E. contradiction.
  - destruct (String.eqb k0 k) eqn:E; simpl.
    + apply String.eqb_eq in E. subst k0.
      destruct (String.eqb k k') eqn:E'; auto.
      apply String.eqb_eq in E'. contradiction.
    + now rewrite IH.
Qed.

Lemma keys_set_present {V} (m : t V) k v v0 :
  get m k = Some v0 -> keys (set m k v) = keys m.
Proof.
  unfold keys. induction m as [|[k' v'] rest IH]; simpl; intros H.
  - discriminate.
  - destruct (String.eqb k' k) eqn:E; simpl; auto.
    now rewrite IH.
Qed.

Lemma get_map_values {V} (f : string -> V -> V) (m : t V) k :
  get (map_values f m) k =
  match get m k with Some v => Some (f k v) | None => None end.
Proof.
  induction m as [|[k' v'] rest IH]; simpl; auto.
  destruct (String.eqb k' k) eqn:E; auto.
  apply String.eqb_eq in E. now subst.
Qed.

Lemma keys_map_values {V} (f : string -> V -> V) (m : t V) :
  keys (map_values f m) = keys m.
Proof. unfold keys, map_values. rewrite map_map. reflexivity. Qed.

Lemma get_In {V} (m : t V) k v : get m k = Some v -> In (k, v) m.
Proof.
  induction m as [|[k' v'] rest IH]; simpl; [discriminate|].
  destruct (String.eqb k' k) eqn:E.
  - apply String.eqb_eq in E. intros [= ->]. subst. now left.
  - intros H. right. auto.
Qed.

Lemma In_keys {V} (m : t V) k v : In (k, v) m -> In k (keys m).
Proof. intros H. unfold keys. change k with (fst (k, v)). now apply in_map. Qed.

Lemma get_None_keys {V} (m : t V) k : get m k = None -> ~ In k (keys m).
Proof.
  induction m as [|[k' v'] rest IH]; simpl; [tauto|].
  destruct (String.eqb k' k) eqn:E; [discriminate|].
  apply String.eqb_neq in E. intros H [Heq|Hin]; [congruence|].
  now apply IH.
Qed.

Lemma get_Some_of_keys {V} (m : t V) k :
  In k (keys m) -> exists v, get m k = Some v.
Proof.
  intros Hin. destruct (get m k) as [v|] eqn:E; [eauto|].
  now apply get_None_keys in E.
Qed.

Lemma Forall_set {V} (Q : V -> Prop) (m : t V) k v :
  Forall (fun kv => Q (snd kv)) m -> Q v ->
  Forall (fun kv => Q (snd kv)) (set m k v).
Proof.
  intros Hm Hv. induction Hm as [|[k' v'] rest Hh Ht IH]; simpl.
  - constructor; [exact Hv | constructor].
  - destruct (String.eqb k' k); constructor; auto.
Qed.

Lemma Forall_delete {V} (Q : V -> Prop) (m : t V) k :
  Forall (fun kv => Q (snd kv)) m ->
  Forall (fun kv => Q (snd kv)) (delete m k).
Proof.
  intros Hm. induction Hm as [|[k' v'] rest Hh Ht IH]; simpl.
  - constructor.
  - destruct (String.eqb k' k); [assumption | constructor; auto].
Qed.

Lemma Forall_map_values {V} (Q : V -> Prop) (f : string -> V -> V) (m : t V) :
  (forall k v, Q v -> Q (f k v)) ->
  Forall (fun kv => Q (snd kv)) m ->
  Forall (fun kv => Q (snd kv)) (map_values f m).
Proof.
  intros Hf Hm. unfold map_values. apply Forall_map.
  eapply Forall_impl; [|exact Hm]. intros [k v]; simpl. auto.
Qed.

Lemma Forall_get {V} (Q : V -> Prop) (m : t V) k v :
  Forall (fun kv => Q (snd kv)) m -> get m k = Some v -> Q v.
Proof.
  intros Hm Hg. apply get_In in Hg.
  rewrite Forall_forall in Hm. exact (Hm _ Hg).
Qed.

(** Replacing the value of a key by one with the same view leaves the view
    of the map as it was. *)
Lemma view_set {V W} (f : V -> W) (m : t V) k v v' :
  get m k = Some v -> f v' = f v -> view f (set m k v') = view f m.
Proof.
  unfold view. induction m as [|[k0 v0] rest IH]; simpl; [discriminate|].
  destruct (String.eqb k0 k) eqn:E; simpl.
  - intros [= ->] Hf. now rewrite Hf.
  - intros Hg Hf. now rewrite IH.
Qed.

Lemma keys_view {V W} (f : V -> W) (m : t V) : keys (view f m) = keys m.
Proof. unfold keys, view. rewrite map_map. reflexivity. Qed.

Lemma get_view {V W} (f : V -> W) (m : t V) k :
  get (view f m) k = option_map f (get m k).
Proof.
  unfold view. induction m as [|[k0 v0] rest IH]; simpl; [reflexivity|].
  destruct (String.eqb k0 k); [reflexivity | exact IH].
Qed.

Lemma keys_set_absent {V} (m : t V) k v :
  get m k = None -> keys (set m k v) = keys m ++ [k].
Proof.
  unfold keys. induction m as [|[k' v'] rest IH]; simpl; intros H.
  - reflexivity.
  - destruct (String.eqb k' k) eqn:E; [discriminate|]. simpl.
    now rewrite IH.
Qed.

Lemma NoDup_keys_set {V} (m : t V) k v :
  NoDup (keys m) -> NoDup (keys (set m k v)).
Proof.
  intros Hnd. destruct (get m k) as [v0|] eqn:E.
  - now rewrite (keys_set_present m k v v0 E).
  - rewrite (keys_set_absent m k v E).
    apply NoDup_app; [assumption | constructor; [intros []|constructor] |].
    intros a Ha [<-|[]]. now apply get_None_keys in E.
Qed.

End JSMapFacts.

(** ** Facts about floating-point comparisons *)

Module FloatFacts.

Lemma Prim2SF_zero : Prim2SF 0 = S754_zero false.
Proof. reflexivity. Qed.

Lemma Prim2SF_half : Prim2SF 0.5 = S754_finite false 4503599627370496 (-53).
Proof. reflexivity. Qed.

Lemma ltb_zero x : (x <? 0)%float = SF_negative (Prim2SF x).
Proof.
  rewrite ltb_spec, Prim2SF_zero.
  destruct (Prim2SF x) as [s|s| |s m e]; try destruct s; reflexivity.
Qed.

Lemma zero_ltb x :
  (0 <? x)%float = true -> (x <? 0)%float = false /\ (0 <=? x)%float = true.
Proof.
  rewrite !ltb_spec, leb_spec, Prim2SF_zero.
  destruct (Prim2SF x) as [s|s| |s m e]; try destruct s; cbn; intros;
    try discriminate; auto.
Qed.

Lemma binary_round_aux_sign mx ex lx :
  SF_negative (binary_round_aux prec emax false mx ex lx) = false.
Proof.
  unfold binary_round_aux.
  destruct (shr_fexp prec emax mx ex lx) as [mrs' e'].
  destruct (shr_fexp prec emax _ e' loc_Exact) as [mrs'' e''].
  destruct (shr_m mrs''); try reflexivity.
  destruct (Z.leb e'' (emax - prec)); reflexivity.
Qed.

(** Adding 0.5 to a float that is not below zero gives a float that is not
    below zero. *)
Lemma add_half_not_negative x :
  (x <? 0)%float = false -> (x + 0.5 <? 0)%float = false.
Proof.
  rewrite !ltb_zero, add_spec, Prim2SF_half.
  destruct (Prim2SF x) as [s|s| |s m e]; try destruct s; try discriminate;
    intros _; try reflexivity.
  unfold SF64add, SFadd.
  match goal with
  | |- SF_negative (binary_normalize _ _ ?m ?e _) = false =>
      assert (Hpos : exists p, m = Z.pos p)
  end.
  { cbn [cond_Zopp]. eexists. reflexivity. }
  destruct Hpos as [p Hp]. rewrite Hp.
  unfold binary_normalize, binary_round.
  destruct (shl_align p _ _) as [mz ez].
  apply binary_round_aux_sign.
Qed.

(** [Math.max(0, x)] is never below zero, and is at least zero unless it is
    NaN. *)
Lemma Math_max_zero x :
  (JS.Math_max 0 x <? 0)%float = false
  /\ (PrimFloat.is_nan (JS.Math_max 0 x) = false ->
      (0 <=? JS.Math_max 0 x)%float = true).
Proof.
  unfold JS.Math_max.
  change (PrimFloat.is_nan 0) with false. cbn [orb].
  destruct (PrimFloat.is_nan x) eqn:Hnan.
  - split; [reflexivity | intros H; vm_compute in H; discriminate].
  - destruct (0 <? x)%float eqn:Hlt.
    + destruct (zero_ltb x Hlt); auto.
    + destruct (x <? 0)%float; split; reflexivity.
Qed.

(** *** The sign of a difference *)

Lemma digits2_pos_bounds m :
  (2 ^ (Z.pos (digits2_pos m) - 1) <= Z.pos m < 2 ^ Z.pos (digits2_pos m))%Z.
Proof.
  induction m as [m IH|m IH|]; cbn [digits2_pos].
  - rewrite Pos2Z.inj_succ.
    replace (Z.succ (Z.pos (digits2_pos m)) - 1)%Z
      with (Z.succ (Z.pos (digits2_pos m) - 1)) by lia.
    rewrite !Z.pow_succ_r by lia. lia.
  - rewrite Pos2Z.inj_succ.
    replace (Z.succ (Z.pos (digits2_pos m)) - 1)%Z
      with (Z.succ (Z.pos (digits2_pos m) - 1)) by lia.
    rewrite !Z.pow_succ_r by lia. lia.
  - cbn. lia.
Qed.

Lemma iter_xO m d : Z.pos (Pos.iter xO m d) = (Z.pos m * 2 ^ Z.pos d)%Z.
Proof.
  revert m. induction d using Pos.peano_ind; intros m.
  - cbn [Pos.iter]. change (2 ^ 1)%Z with 2%Z. lia.
  - rewrite Pos.iter_succ. rewrite Pos2Z.inj_succ, Z.pow_succ_r by lia.
    change (Z.pos (Pos.iter xO m d)~0) with (2 * Z.pos (Pos.iter xO m d))%Z.
    rewrite IHd. lia.
Qed.

Lemma shl_align_value mx ex ez :
  (ez <= ex)%Z ->
  Z.pos (fst (shl_align mx ex ez)) = (Z.pos mx * 2 ^ (ex - ez))%Z.
Proof.
  intros Hle. unfold shl_align.
  destruct (ez - ex)%Z as [|d|d] eqn:E; cbn [fst].
  - replace (ex - ez)%Z with 0%Z by lia. cbn. lia.
  - lia.
  - rewrite iter_xO. replace (ex - ez)%Z with (Z.pos d) by lia. reflexivity.
Qed.

Lemma bounded_facts m e :
  bounded prec emax m e = true ->
  (Z.pos m < 2 ^ 53 /\ -1074 <= e
   /\ (-1074 < e -> 2 ^ 52 <= Z.pos m))%Z.
Proof.
  unfold bounded, canonical_mantissa, fexp, emin, prec, emax.
  intros H. apply andb_prop in H. destruct H as [H _].
  apply Z.eqb_eq in H.
  pose proof (digits2_pos_bounds m) as [Hlo Hhi].
  assert (Hd : (Z.pos (digits2_pos m) <= 53)%Z) by lia.
  split; [|split].
  - eapply Z.lt_le_trans; [exact Hhi|]. apply Z.pow_le_mono_r; lia.
  - lia.
  - intros He. assert (Z.pos (digits2_pos m) = 53%Z) by lia.
    rewrite H0 in Hlo. exact Hlo.
Qed.

(** Of two valid mantissas, the one with the smaller exponent is smaller. *)
Lemma canonical_order mx ex my ey :
  bounded prec emax mx ex = true -> bounded prec emax my ey = true ->
  (ex < ey)%Z ->
  (Z.pos mx < Z.pos my * 2 ^ (ey - ex))%Z.
Proof.
  intros Hx Hy Hlt.
  destruct (bounded_facts _ _ Hx) as (Hmx & Hex & _).
  destruct (bounded_facts _ _ Hy) as (_ & _ & Hmy).
  specialize (Hmy ltac:(lia)).
  assert (H2 : (2 <= 2 ^ (ey - ex))%Z).
  { change 2%Z with (2 ^ 1)%Z at 1. apply Z.pow_le_mono_r; lia. }
  change (2 ^ 53)%Z with (2 ^ 52 * 2)%Z in Hmx. nia.
Qed.

Lemma binary_round_aux_signed sx mx ex lx :
  SF_positive (binary_round_aux prec emax sx mx ex lx) = true -> sx = false.
Proof.
  unfold binary_round_aux.
  destruct (shr_fexp prec emax mx ex lx) as [mrs' e'].
  destruct (shr_fexp prec emax _ e' loc_Exact) as [mrs'' e''].
  destruct (shr_m mrs''); try discriminate;
  try destruct (Z.leb e'' (emax - prec)); destruct sx; try discriminate; auto.
Qed.

Lemma binary_round_aux_signed_neg sx mx ex lx :
  SF_negative (binary_round_aux prec emax sx mx ex lx) = true -> sx = true.
Proof.
  unfold binary_round_aux.
  destruct (shr_fexp prec emax mx ex lx) as [mrs' e'].
  destruct (shr_fexp prec emax _ e' loc_Exact) as [mrs'' e''].
  destruct (shr_m mrs''); try discriminate;
  try destruct (Z.leb e'' (emax - prec)); destruct sx; try discriminate; auto.
Qed.

Lemma binary_normalize_positive m e :
  SF_positive (binary_normalize prec emax m e false) = true -> (0 < m)%Z.
Proof.
  unfold binary_normalize, binary_round. destruct m as [|p|p]; try discriminate.
  - lia.
  - destruct (shl_align p _ _) as [mz ez]. intros H.
    apply binary_round_aux_signed in H. discriminate.
Qed.

Lemma binary_normalize_negative m e :
  SF_negative (binary_normalize prec emax m e false) = true -> (m < 0)%Z.
Proof.
  unfold binary_normalize, binary_round. destruct m as [|p|p]; try discriminate.
  - destruct (shl_align p _ _) as [mz ez]. intros H.
    apply binary_round_aux_signed_neg in H. discriminate.
  - lia.
Qed.

(** The sign of a difference is the order of its terms. *)
Lemma SFsub_sign x y :
  valid_binary x = true -> valid_binary y = true ->
  (SF_positive (SFsub prec emax x y) = true -> SFcompare y x = Some Lt)
  /\ (SF_negative (SFsub prec emax x y) = true -> SFcompare x y = Some Lt).
Proof.
  intros Hx Hy.
  destruct x as [sx|sx| |sx mx ex], y as [sy|sy| |sy my ey];
    try (split; intros H; try discriminate H;
         try (destruct sx; try discriminate H);
         try (destruct sy; try discriminate H); reflexivity).
  cbn [SpecFloat.valid_binary] in Hx, Hy.
  unfold SFsub.
  assert (Hvx : Z.pos (fst (shl_align mx ex (Z.min ex ey)))
                = (Z.pos mx * 2 ^ (ex - Z.min ex ey))%Z)
    by (apply shl_align_value; lia).
  assert (Hvy : Z.pos (fst (shl_align my ey (Z.min ex ey)))
                = (Z.pos my * 2 ^ (ey - Z.min ex ey))%Z)
    by (apply shl_align_value; lia).
  split; intros H;
    [apply binary_normalize_positive in H
    |apply binary_normalize_negative in H];
    rewrite Hvx, Hvy in H; clear Hvx Hvy;
    cbn [SFcompare];
    destruct sx, sy; cbn [cond_Zopp] in H; try reflexivity; try lia.
  all: destruct (Z.compare_spec ex ey) as [E|E|E];
    destruct (Z.compare_spec ey ex) as [E'|E'|E']; try lia; try reflexivity.
  all: first
    [ subst ey;
      rewrite Z.min_id, Z.sub_diag, Z.pow_0_r, !Z.mul_1_r in H;
      rewrite Pos.compare_cont_spec; cbn [Pos.switch_Eq];
      first [ rewrite (proj2 (Pos.compare_lt_iff _ _)) by lia
            | rewrite (proj2 (Pos.compare_gt_iff _ _)) by lia ];
      reflexivity
    | exfalso; rewrite (Z.min_l ex ey) in H by lia;
      rewrite Z.sub_diag, Z.pow_0_r, Z.mul_1_r in H;
      pose proof (canonical_order _ _ _ _ Hx Hy ltac:(lia)); lia
    | exfalso; rewrite (Z.min_r ex ey) in H by lia;
      rewrite Z.sub_diag, Z.pow_0_r, Z.mul_1_r in H;
      pose proof (canonical_order _ _ _ _ Hy Hx ltac:(lia)); lia ].
Qed.

Lemma zero_ltb_positive x : (0 <? x)%float = SF_positive (Prim2SF x).
Proof.
  rewrite ltb_spec, Prim2SF_zero.
  destruct (Prim2SF x) as [s|s| |s m e]; try destruct s; reflexivity.
Qed.

(** A positive difference: the first term is the larger one. *)
Lemma sub_positive x y : (0 <? x - y)%float = true -> (y <? x)%float = true.
Proof.
  rewrite zero_ltb_positive, sub_spec, ltb_spec. intros H.
  unfold SFltb.
  now rewrite (proj1 (SFsub_sign _ _ (Prim2SF_valid x) (Prim2SF_valid y)) H).
Qed.

(** A negative difference: the first term is the smaller one. *)
Lemma sub_negative x y : (x - y <? 0)%float = true -> (x <? y)%float = true.
Proof.
  rewrite ltb_zero, sub_spec, ltb_spec. intros H.
  unfold SFltb.
  now rewrite (proj2 (SFsub_sign _ _ (Prim2SF_valid x) (Prim2SF_valid y)) H).
Qed.

Lemma SFcompare_asym x y :
  SFcompare x y = Some Lt -> SFcompare y x = Some Gt.
Proof.
  destruct x as [sx|sx| |sx mx ex], y as [sy|sy| |sy my ey]; cbn [SFcompare];
    try destruct sx; try destruct sy; try discriminate; try reflexivity.
  all: rewrite (Z.compare_antisym ex ey);
    destruct (ex ?= ey)%Z eqn:E; cbn [CompOpp]; try discriminate;
    try reflexivity.
  all: rewrite !Pos.compare_cont_spec, (Pos.compare_antisym mx my);
    destruct (mx ?= my)%positive; cbn [CompOpp Pos.switch_Eq];
    try discriminate; reflexivity.
Qed.

Lemma ltb_asym x y : (x <? y)%float = true -> (y <? x)%float = false.
Proof.
  rewrite !ltb_spec. unfold SFltb.
  destruct (SFcompare (Prim2SF x) (Prim2SF y)) as [[| |]|] eqn:E;
    try discriminate.
  now rewrite (SFcompare_asym _ _ E).
Qed.

(** What is at least a positive number is positive. *)
Lemma leb_positive tol d :
  (0 <? tol)%float = true -> (tol <=? d)%float = true -> (0 <? d)%float = true.
Proof.
  rewrite !zero_ltb_positive, leb_spec.
  destruct (Prim2SF tol) as [s|s| |s m e]; try destruct s; try discriminate;
    intros _;
    destruct (Prim2SF d) as [s'|s'| |s' m' e']; try destruct s';
    try discriminate; reflexivity.
Qed.

(** A number that is not at least the positive [tol], while its absolute
    value is, is negative. *)
Lemma abs_leb_negative tol d :
  (0 <? tol)%float = true -> (tol <=? abs d)%float = true ->
  (tol <=? d)%float = false -> (d <? 0)%float = true.
Proof.
  rewrite zero_ltb_positive, ltb_zero, !leb_spec, abs_spec.
  destruct (Prim2SF tol) as [s|s| |s m e]; try destruct s; try discriminate;
    intros _;
    destruct (Prim2SF d) as [s'|s'| |s' m' e']; try destruct s';
    cbn [SFabs SF_negative]; try discriminate; try reflexivity; congruence.
Qed.

End FloatFacts.

(** ** The outputs of [Math.random] *)

Lemma gen_total_ret {A} (a : A) : gen_total (gen_ret a).
Proof. intros g _. exists a, g. split; reflexivity. Qed.

Lemma gen_total_bind {A C} (m : Gen A) (f : A -> Gen C) :
  gen_total m -> (forall a, gen_total (f a)) -> gen_total (gen_bind m f).
Proof.
  intros Hm Hf g Hg. unfold gen_bind.
  destruct (Hm g Hg) as (a & g1 & -> & Ht1).
  destruct (Hf a g1) as (c & g2 & -> & Ht2); [congruence|].
  exists c, g2. split; [reflexivity | congruence].
Qed.

Lemma gen_total_random : gen_total gen_random.
Proof.
  intros g _. unfold gen_random, Math_random.
  destruct (pending g) as [|r rest]; eexists; eexists; split; reflexivity.
Qed.

Lemma draw_nonzero_total ps tl :
  (tl =? 0)%float = false ->
  exists a g', draw_nonzero ps tl = Some (a, g') /\ tail g' = tl.
Proof.
  intros Htl. induction ps as [|r rest IH]; simpl.
  - rewrite Htl. eexists; eexists; split; reflexivity.
  - destruct (r =? 0)%float; [exact IH|].
    eexists; eexists; split; reflexivity.
Qed.

Lemma gen_total_nonzero : gen_total gen_nonzero.
Proof. intros g Hg. apply draw_nonzero_total, Hg. Qed.

Lemma gen_total_if {A} (c : bool) (m1 m2 : Gen A) :
  gen_total m1 -> gen_total m2 -> gen_total (if c then m1 else m2).
Proof. destruct c; auto. Qed.

Create HintDb gen discriminated.
#[local] Hint Resolve gen_total_ret gen_total_random gen_total_nonzero : gen.

Ltac gen_total_tac :=
  repeat first
    [ apply gen_total_bind; [ | intros ? ]
    | apply gen_total_if
    | solve [ auto with gen ] ].

Lemma gaussianRandom_total B : gen_total (gaussianRandom B).
Proof. unfold gaussianRandom. gen_total_tac. Qed.

#[local] Hint Resolve gaussianRandom_total : gen.

Lemma simulateHeight_total B cfg targetHeight :
  gen_total (simulateHeight B cfg targetHeight).
Proof. unfold simulateHeight. gen_total_tac. Qed.

Lemma simulateSoftness_total B cfg range :
  gen_total (simulateSoftness B cfg range).
Proof. unfold simulateSoftness. destruct range. gen_total_tac. Qed.

#[local] Hint Resolve simulateHeight_total simulateSoftness_total : gen.

Lemma brush_item_total B now cfg sc beltId belt prof :
  gen_total (brush_item B now cfg sc beltId belt prof).
Proof. unfold brush_item. gen_total_tac. Qed.

(** Inversion of a bind that returned. *)
Lemma gen_bind_Some {A C} (m : Gen A) (f : A -> Gen C) g c g' :
  gen_bind m f g = Some (c, g') ->
  exists a g1, m g = Some (a, g1) /\ f a g1 = Some (c, g').
Proof.
  unfold gen_bind. destruct (m g) as [[a g1]|]; [|discriminate].
  intros H. exists a, g1. auto.
Qed.

Ltac gen_inv H :=
  repeat match type of H with
  | gen_bind _ _ _ = Some _ =>
      let a := fresh "a" in
      let g := fresh "g" in
      let H1 := fresh "Hm" in
      apply gen_bind_Some in H; destruct H as (a & g & H1 & H)
  | gen_ret _ _ = Some _ => unfold gen_ret in H; injection H as H ?
  end.

Lemma simulateSoftness_clamped B cfg range g v g' :
  simulateSoftness B cfg range g = Some (v, g') ->
  exists x, v = JS.Math_max 0 x.
Proof.
  unfold simulateSoftness. destruct range as [lo hi]. intros H.
  gen_inv H. eexists. symmetry. eassumption.
Qed.

Lemma brush_item_shape B now cfg sc belt b prof g item g' :
  brush_item B now cfg sc belt b prof g = Some (item, g') ->
  belt = beltId item
  /\ sensorReadings item = []
  /\ status item = "PROCESSING"
  /\ exists soft g1 g2,
       simulateSoftness B cfg (p_softness_range_N prof) g1 = Some (soft, g2)
       /\ softness_N item = if softnessDrift sc then (soft + 0.5)%float else soft.
Proof.
  unfold brush_item. intros H. gen_inv H. subst item. cbn.
  repeat split. eauto.
Qed.

(** ** Classification *)

(** With a tolerance that is zero or negative, which [saveProfileChanges]
    stores as it is given, the item that is out on the height is
    OVER_HEIGHT in the green bin without being above the target: after the
    tolerance of Brush-64 is saved as -1 the item of height 44.5, below the
    target 45, is OVER_HEIGHT, and after it is saved as 0 so is the item of
    height 45, which is on the target. *)
Lemma over_height_not_above_target :
  let below := saveProfileChanges sample_sim "Brush-64" 64 45 (-1) 2.0 3.5 in
  let zero := saveProfileChanges sample_sim "Brush-64" 64 45 0 2.0 3.5 in
  verdict (evaluateQC (profiles below) (brush64_item 44.5 2.5 64))
  = ("OVER_HEIGHT", "GREEN_BIN")
  /\ (44.5 <? 45)%float = true
  /\ verdict (evaluateQC (profiles zero) (brush64_item 45 2.5 64))
     = ("OVER_HEIGHT", "GREEN_BIN")
  /\ (45 <? 45)%float = false.
Proof. repeat split; vm_compute; reflexivity. Qed.

(** C1 (amended). [evaluateQC] tests softness first, then height, then
    size, and the first test that fails gives the result: an item whose
    softness is outside the profile's range is SOFT_FAIL in the yellow bin
    whatever its height and diameter; the height test
    ([|measuredHeight - targetHeight| >= tolerance]) counts only when
    softness passes, and the item that fails it is OVER_HEIGHT in the green
    bin when [measuredHeight - targetHeight >= tolerance] and UNDER_HEIGHT
    in the red bin otherwise; the size test counts only when softness and
    height pass; an item that passes all three is OK in the accept bin.
    When the tolerance is above zero, the item that fails the height test
    is OVER_HEIGHT exactly when its measured height is above the target,
    and UNDER_HEIGHT exactly when it is below. *)
Theorem evaluateQC_priority (profs : JSMap.t Profile) (item : Item)
    (prof : Profile) :
  JSMap.get profs (profile item) = Some prof ->
  let v := verdict (evaluateQC profs item) in
  let tol := p_height_tol_mm prof in
  (softness_out item prof = true -> v = ("SOFT_FAIL", "YELLOW_BIN"))
  /\ (softness_out item prof = false -> height_out item prof = true ->
      v = if (tol <=? height_diff item prof)%float
          then ("OVER_HEIGHT", "GREEN_BIN") else ("UNDER_HEIGHT", "RED_BIN"))
  /\ (softness_out item prof = false -> height_out item prof = true ->
      (0 <? tol)%float = true ->
      height_below item prof = negb (height_above item prof)
      /\ (height_above item prof = true -> v = ("OVER_HEIGHT", "GREEN_BIN"))
      /\ (height_below item prof = true -> v = ("UNDER_HEIGHT", "RED_BIN")))
  /\ (softness_out item prof = false -> height_out item prof = false ->
      size_out item prof = true -> v = ("SIZE_DOWN", "RED_BIN"))
  /\ (softness_out item prof = false -> height_out item prof = false ->
      size_out item prof = false -> v = ("OK", "OK_BIN")).
Proof.
  intros Hget v tol.
  assert (Hv : v = if softness_out item prof then ("SOFT_FAIL", "YELLOW_BIN")
                   else if height_out item prof then
                          if (tol <=? height_diff item prof)%float
                          then ("OVER_HEIGHT", "GREEN_BIN")
                          else ("UNDER_HEIGHT", "RED_BIN")
                   else if size_out item prof then ("SIZE_DOWN", "RED_BIN")
                   else ("OK", "OK_BIN")).
  { unfold v, tol, verdict, evaluateQC. rewrite Hget.
    unfold softness_out, height_out, size_out, height_diff,
      JS.gt, JS.ge, JS.Math_abs.
    destruct (p_softness_range_N prof) as [lo hi]; cbn [fst snd].
    destruct ((softness_N item <? lo)%float || (hi <? softness_N item)%float);
      [reflexivity|].
    destruct (p_height_tol_mm prof
              <=? abs (measured_height_mm item - p_target_height_mm prof))%float;
      [ destruct (p_height_tol_mm prof
                  <=? measured_height_mm item - p_target_height_mm prof)%float
      | destruct (1 <? abs (diameter_mm item - p_diameter_mm prof))%float ];
      reflexivity. }
  rewrite Hv. clear Hv v.
  split; [now intros ->|].
  split; [now intros -> ->|].
  split; [|split; [now intros -> -> ->|now intros -> -> ->]].
  intros -> Hout Htol. rewrite Hout.
  unfold height_out in Hout. fold tol in Hout.
  unfold height_above, height_below.
  destruct (tol <=? height_diff item prof)%float eqn:Hge.
  - pose proof (FloatFacts.sub_positive _ _
                  (FloatFacts.leb_positive _ _ Htol Hge)) as Habove.
    rewrite Habove, (FloatFacts.ltb_asym _ _ Habove).
    repeat split; intros; try discriminate; reflexivity.
  - pose proof (FloatFacts.sub_negative _ _
                  (FloatFacts.abs_leb_negative _ _ Htol Hout Hge)) as Hbelow.
    rewrite Hbelow, (FloatFacts.ltb_asym _ _ Hbelow).
    repeat split; intros; try discriminate; reflexivity.
Qed.

Lemma evaluateQC_priority_witness :
  height_below (brush64_item 43.5 2.5 70)
               (mkProfile "Brush-64" 64 45 1.0 (2.0, 3.5)%float)
  = negb (height_above (brush64_item 43.5 2.5 70)
                       (mkProfile "Brush-64" 64 45 1.0 (2.0, 3.5)%float))
  /\ verdict (evaluateQC initial_profiles (brush64_item 43.5 2.5 70))
     = ("UNDER_HEIGHT", "RED_BIN")
  /\ verdict (evaluateQC initial_profiles (brush64_item 48 1.5 70))
     = ("SOFT_FAIL", "YELLOW_BIN").
Proof.
  pose proof (evaluateQC_priority initial_profiles (brush64_item 43.5 2.5 70)
                (mkProfile "Brush-64" 64 45 1.0 (2.0, 3.5)%float) eq_refl)
    as (_ & _ & H & _).
  destruct (H eq_refl eq_refl eq_refl) as (Hneg & _ & Hunder).
  split; [exact Hneg|]. split; [exact (Hunder eq_refl)|].
  refine (proj1 (evaluateQC_priority initial_profiles (brush64_item 48 1.5 70)
                   (mkProfile "Brush-64" 64 45 1.0 (2.0, 3.5)%float) _) _);
    reflexivity.
Defined.

(** The size verdict of [evaluateQC] is the string SIZE_DOWN: for the
    Brush-64 item of height 45.0, softness 2.5 and diameter 70 the verdict
    is not SIZE_MISMATCH. *)
Lemma brush64_size_verdict_is_not_SIZE_MISMATCH :
  qc_status (evaluateQC initial_profiles (brush64_item 45.0 2.5 70))
  <> "SIZE_MISMATCH".
Proof. vm_compute. discriminate. Qed.

(** C2 (amended). With the profile Brush-64 of [initData] (diameter 64,
    target height 45, tolerance 1.0, softness range [2.0, 3.5]):
    (a) height 45.0, softness 2.5, diameter 64 is OK in the accept bin;
    (b) softness 1.5 is SOFT_FAIL whatever the height and the diameter;
    (c) softness 2.5 and height 47.5 is OVER_HEIGHT whatever the diameter;
    (d) softness 2.5, height 45.0 and diameter 70 is SIZE_DOWN, in the red
    bin. *)
Theorem brush64_scenarios :
  verdict (evaluateQC initial_profiles (brush64_item 45.0 2.5 64))
    = ("OK", "OK_BIN")
  /\ (forall measuredHeight diameter,
        verdict (evaluateQC initial_profiles
                            (brush64_item measuredHeight 1.5 diameter))
        = ("SOFT_FAIL", "YELLOW_BIN"))
  /\ (forall diameter,
        verdict (evaluateQC initial_profiles (brush64_item 47.5 2.5 diameter))
        = ("OVER_HEIGHT", "GREEN_BIN"))
  /\ verdict (evaluateQC initial_profiles (brush64_item 45.0 2.5 70))
       = ("SIZE_DOWN", "RED_BIN").
Proof.
  repeat split; intros; reflexivity.
Qed.

(** ** Profile edits *)

(** [saveProfileChanges] commits an edit whose tolerance is NaN, and one
    whose softness range has its minimum above its maximum: the stored
    profile is replaced in both cases. *)
Lemma saveProfileChanges_commits_invalid_edit :
  spec_valid_profile 64 45 nan 2.0 3.5 = false
  /\ option_map (fun p => PrimFloat.is_nan (p_height_tol_mm p))
       (JSMap.get
          (profiles (saveProfileChanges sample_sim "Brush-64" 64 45 nan 2.0 3.5))
          "Brush-64")
     = Some true
  /\ option_map (fun p => PrimFloat.is_nan (p_height_tol_mm p))
       (JSMap.get (profiles sample_sim) "Brush-64")
     = Some false
  /\ spec_valid_profile 64 45 1.0 3.5 2.0 = false
  /\ option_map (fun p => p_softness_range_N p)
       (JSMap.get
          (profiles (saveProfileChanges sample_sim "Brush-64" 64 45 1.0 3.5 2.0))
          "Brush-64")
     = Some (3.5, 2.0)%float.
Proof. repeat split; reflexivity. Qed.

(** C3 (amended). [saveProfileChanges] checks nothing and never fails: for
    a registered profile name it stores the five numbers it is given,
    whatever they are, under the same name; every other profile is left as
    it is; for a name that is not registered nothing changes. *)
Theorem saveProfileChanges_commits (s : Sim) (profileName : string)
    (diameter targetHeight tolerance softnessMin softnessMax : float) :
  let s' := saveProfileChanges s profileName diameter targetHeight tolerance
                               softnessMin softnessMax in
  (forall prof, JSMap.get (profiles s) profileName = Some prof ->
     JSMap.get (profiles s') profileName
     = Some (mkProfile (p_name prof) diameter targetHeight tolerance
                       (softnessMin, softnessMax)))
  /\ (JSMap.get (profiles s) profileName = None -> s' = s)
  /\ (forall other, other <> profileName ->
        JSMap.get (profiles s') other = JSMap.get (profiles s) other).
Proof.
  cbv zeta. unfold saveProfileChanges.
  destruct (JSMap.get (profiles s) profileName) as [prof|] eqn:Hget.
  - cbn [profiles with_profiles]. repeat split.
    + intros prof' Heq. injection Heq as <-.
      apply JSMapFacts.get_set_same.
    + discriminate.
    + intros other Hne. apply JSMapFacts.get_set_other. congruence.
  - repeat split; try discriminate; reflexivity.
Qed.

Lemma saveProfileChanges_commits_witness :
  JSMap.get
    (profiles (saveProfileChanges sample_sim "Brush-64" 64 45 nan 2.0 3.5))
    "Brush-64"
  = Some (mkProfile "Brush-64" 64 45 nan (2.0, 3.5)%float).
Proof.
  exact (proj1 (saveProfileChanges_commits sample_sim "Brush-64"
                  64 45 nan 2.0 3.5)
               (mkProfile "Brush-64" 64 45 1.0 (2.0, 3.5)%float) eq_refl).
Defined.
(** ** What a turn of the loop leaves alone *)

Lemma same_controls_refl s : same_controls s s.
Proof. constructor; reflexivity. Qed.

Lemma same_controls_trans s1 s2 s3 :
  same_controls s1 s2 -> same_controls s2 s3 -> same_controls s1 s3.
Proof.
  intros [A1 A2 A3 A4 A5 A6 A7 A8] [C1 C2 C3 C4 C5 C6 C7 C8].
  constructor; congruence.
Qed.

Ltac sc_solve :=
  try apply same_controls_refl;
  constructor; cbn; try reflexivity;
  try (eapply JSMapFacts.view_set; [eassumption | reflexivity]).

Lemma count_result_controls s belt qc : same_controls s (count_result s belt qc).
Proof.
  unfold count_result.
  repeat match goal with
         | |- context [if ?c then _ else _] => destruct c
         end;
    try apply same_controls_refl;
    destruct (JSMap.get (belts s) belt) eqn:E; sc_solve.
Qed.

Lemma createAlarm_controls now s item qc :
  same_controls s (createAlarm now s item qc).
Proof. unfold createAlarm. sc_solve. Qed.

Lemma processItem_controls now s item :
  same_controls s (snd (processItem now s item)).
Proof.
  unfold processItem.
  destruct (negb (status item =? "PROCESSING")); [apply same_controls_refl|].
  destruct (forallb _ _); [|apply same_controls_refl]. cbn [snd].
  match goal with
  | |- same_controls _ (if ?c then _ else _) => destruct c
  end.
  - eapply same_controls_trans; [|apply createAlarm_controls].
    eapply same_controls_trans; [apply count_result_controls|]. sc_solve.
  - eapply same_controls_trans; [apply count_result_controls|]. sc_solve.
Qed.

Lemma checkSensorInteractions_controls now s item :
  same_controls s (snd (checkSensorInteractions now s item)).
Proof.
  unfold checkSensorInteractions.
  destruct (fold_left _ _ _) as [i sens]. sc_solve.
Qed.

Lemma moveItemToBin_controls s item : same_controls s (moveItemToBin s item).
Proof.
  unfold moveItemToBin.
  destruct (bucket item); [|apply same_controls_refl].
  destruct (JSMap.get (bins s) _); [|apply same_controls_refl].
  destruct (Math_random (random s)). sc_solve.
Qed.

Lemma removeItem_controls s k : same_controls s (removeItem s k).
Proof.
  unfold removeItem.
  destruct (JSMap.get (items s) k) as [item|]; [|apply same_controls_refl].
  destruct (JSMap.get (belts s) (beltId item)) eqn:E; sc_solve.
Qed.

(** [update_item], unfolded on an item that is in the map and not
    completed. *)
Lemma update_item_unfold now deltaTime s k item :
  JSMap.get (items s) k = Some item ->
  (status item =? "COMPLETED") = false ->
  let moved :=
    item_with_position_x item
      (vx (position item) + velocity item * deltaTime * simulationSpeed s)%float in
  let r1 := checkSensorInteractions now s moved in
  let r2 := processItem now (snd r1) (fst r1) in
  let s3 := with_items (snd r2) (JSMap.set (items (snd r2)) k (fst r2)) in
  let s4 := if negb (status (fst r2) =? "PROCESSING")
               && JS.gt (vx (position (fst r2))) 2.0
            then moveItemToBin s3 (fst r2) else s3 in
  update_item now deltaTime s k
  = if JS.gt (vx (position (fst r2))) 4 then removeItem s4 k else s4.
Proof.
  intros Hget Hst. unfold update_item. rewrite Hget, Hst. cbv zeta.
  destruct (checkSensorInteractions now s _) as [i1 s1]. cbn [fst snd].
  destruct (processItem now s1 i1) as [i2 s2]. reflexivity.
Qed.

Lemma update_item_skip now deltaTime s k :
  match JSMap.get (items s) k with
  | Some item => (status item =? "COMPLETED") = true
  | None => True
  end ->
  update_item now deltaTime s k = s.
Proof.
  unfold update_item. destruct (JSMap.get (items s) k) as [item|]; [|reflexivity].
  now intros ->.
Qed.

Lemma update_item_controls now deltaTime s k :
  same_controls s (update_item now deltaTime s k).
Proof.
  destruct (JSMap.get (items s) k) as [item|] eqn:Hget.
  2:{ rewrite update_item_skip; [apply same_controls_refl | now rewrite Hget]. }
  destruct (status item =? "COMPLETED") eqn:Hst.
  { rewrite update_item_skip; [apply same_controls_refl | now rewrite Hget]. }
  rewrite (update_item_unfold now deltaTime s k item Hget Hst). cbv zeta.
  set (r1 := checkSensorInteractions now s _).
  set (r2 := processItem now (snd r1) (fst r1)).
  assert (H2 : same_controls s (snd r2)).
  { eapply same_controls_trans; [apply checkSensorInteractions_controls|].
    apply processItem_controls. }
  match goal with
  | |- context [with_items ?a ?b] => set (s3 := with_items a b)
  end.
  assert (H3 : same_controls s s3).
  { eapply same_controls_trans; [exact H2|]. sc_solve. }
  match goal with
  | |- context [if ?c then moveItemToBin ?a ?b else _] =>
      set (s4 := if c then moveItemToBin a b else s3)
  end.
  assert (H4 : same_controls s s4).
  { subst s4. destruct (_ && _); [|exact H3].
    eapply same_controls_trans; [exact H3 | apply moveItemToBin_controls]. }
  destruct (JS.gt _ 4); [|exact H4].
  eapply same_controls_trans; [exact H4 | apply removeItem_controls].
Qed.

Lemma fold_update_item_controls now deltaTime l s :
  same_controls s (fold_left (update_item now deltaTime) l s).
Proof.
  revert s. induction l as [|k l IH]; intros s; simpl.
  - apply same_controls_refl.
  - eapply same_controls_trans; [apply update_item_controls | apply IH].
Qed.

Lemma updateItems_controls now deltaTime s :
  same_controls s (updateItems now deltaTime s).
Proof. apply fold_update_item_controls. Qed.

(** [createBrushItem], when it returns an item. *)
Lemma createBrushItem_Some B now s belt prof item s' :
  createBrushItem B now s belt prof = Some (Some item, s') ->
  exists b g,
    JSMap.get (belts s) belt = Some b /\ enabled b = true
    /\ brush_item B now (config s) (scenarios s) belt b prof (random s)
       = Some (item, g)
    /\ s' = with_belts
              (with_items (with_random s g)
                          (JSMap.set (items s) (id item) item))
              (JSMap.set (belts s) belt
                         (belt_with_items b (b_items b ++ [id item]))).
Proof.
  unfold createBrushItem.
  destruct (JSMap.get (belts s) belt) as [b|] eqn:Hb; [|discriminate].
  destruct (enabled b) eqn:Hen; [|discriminate]. cbn [negb].
  destruct (brush_item _ _ _ _ _ _ _ _) as [[it g]|] eqn:Hi; [|discriminate].
  intros [= <- <-]. exists b, g. repeat split; auto.
Qed.

Lemma createBrushItem_null B now s belt prof s' :
  createBrushItem B now s belt prof = Some (None, s') -> s' = s.
Proof.
  unfold createBrushItem.
  destruct (JSMap.get (belts s) belt) as [b|]; [|now intros [= <-]].
  destruct (enabled b); cbn [negb]; [|now intros [= <-]].
  destruct (brush_item _ _ _ _ _ _ _ _) as [[it g]|]; discriminate.
Qed.

Lemma createBrushItem_controls B now s belt prof r s' :
  createBrushItem B now s belt prof = Some (r, s') -> same_controls s s'.
Proof.
  destruct r as [item|]; intros H.
  - apply createBrushItem_Some in H. destruct H as (b & g & Hb & _ & _ & ->).
    sc_solve.
  - apply createBrushItem_null in H. subst. apply same_controls_refl.
Qed.

(** The cases of [spawn_on_belt]: nothing happens, or an item is created
    and the belt's [lastSpawn] is set. *)
Lemma spawn_on_belt_cases B now s belt s' :
  spawn_on_belt B now s belt = Some s' ->
  s' = s
  \/ exists b prof item s1 b1,
       JSMap.get (belts s) belt = Some b
       /\ enabled b = true /\ emergencyStop s = false
       /\ JS.gt (now - lastSpawn b)%float (60 / spawn_per_min b * 1000)%float
          = true
       /\ JSMap.get (profiles s) (b_profile b) = Some prof
       /\ createBrushItem B now s belt prof = Some (Some item, s1)
       /\ JSMap.get (belts s1) belt = Some b1
       /\ s' = with_belts s1
                 (JSMap.set (belts s1) belt (belt_with_lastSpawn b1 now)).
Proof.
  unfold spawn_on_belt.
  destruct (JSMap.get (belts s) belt) as [b|] eqn:Hb; [|intros [= <-]; now left].
  destruct (enabled b) eqn:Hen; cbn [negb orb]; [|intros [= <-]; now left].
  destruct (emergencyStop s) eqn:Hes; [intros [= <-]; now left|].
  destruct (JS.gt _ _) eqn:Hgt; [|intros [= <-]; now left].
  destruct (JSMap.get (profiles s) (b_profile b)) as [prof|] eqn:Hp;
    [|intros [= <-]; now left].
  destruct (createBrushItem B now s belt prof) as [[r s1]|] eqn:Hc;
    [|discriminate].
  destruct r as [item|].
  - pose proof (createBrushItem_Some _ _ _ _ _ _ _ Hc)
      as (b0 & g & Hb0 & _ & _ & Hs1).
    assert (Hb1 : JSMap.get (belts s1) belt
                  = Some (belt_with_items b0 (b_items b0 ++ [id item]))).
    { subst s1. cbn. apply JSMapFacts.get_set_same. }
    rewrite Hb1. intros [= <-]. right.
    exists b, prof, item, s1, (belt_with_items b0 (b_items b0 ++ [id item])).
    repeat split; auto.
  - exfalso. unfold createBrushItem in Hc. rewrite Hb, Hen in Hc.
    cbn [negb] in Hc.
    destruct (brush_item _ _ _ _ _ _ _ _) as [[it g]|]; discriminate.
Qed.

Lemma spawn_on_belt_controls B now s belt s' :
  spawn_on_belt B now s belt = Some s' -> same_controls s s'.
Proof.
  intros H. apply spawn_on_belt_cases in H.
  destruct H as [->|(b & prof & item & s1 & b1 & _ & _ & _ & _ & _ & Hc & Hb1 & ->)].
  - apply same_controls_refl.
  - eapply same_controls_trans; [eapply createBrushItem_controls, Hc|].
    sc_solve.
Qed.

(** A fold over the belts that may not return. *)
Lemma fold_spawn_None B now l :
  fold_left
    (fun acc belt =>
       match acc with
       | Some s' => spawn_on_belt B now s' belt
       | None => None
       end) l None = None.
Proof. induction l; simpl; auto. Qed.

Lemma fold_spawn_controls B now l s s' :
  fold_left
    (fun acc belt =>
       match acc with
       | Some s' => spawn_on_belt B now s' belt
       | None => None
       end) l (Some s) = Some s' ->
  same_controls s s'.
Proof.
  revert s. induction l as [|k l IH]; intros s; simpl.
  - intros [= <-]. apply same_controls_refl.
  - destruct (spawn_on_belt B now s k) as [s1|] eqn:E.
    + intros H. eapply same_controls_trans;
        [eapply spawn_on_belt_controls, E | apply IH, H].
    + now rewrite fold_spawn_None.
Qed.

Lemma spawnItems_controls B now s s' :
  spawnItems B now s = Some s' -> same_controls s s'.
Proof. apply fold_spawn_controls. Qed.

Lemma frame_controls B now deltaTime s s' :
  frame B now deltaTime s = Some s' -> same_controls s s'.
Proof.
  unfold frame. destruct (isPaused s).
  - intros [= <-]. apply same_controls_refl.
  - destruct (spawnItems B now s) as [s1|] eqn:E; [|discriminate].
    intros [= <-]. eapply same_controls_trans;
      [eapply spawnItems_controls, E | apply updateItems_controls].
Qed.

(** ** Fields an operation does not touch *)

Ltac break_matches :=
  repeat match goal with
         | |- context [match ?x with _ => _ end] => destruct x eqn:?
         end.

Ltac untouched f := unfold f; break_matches; reflexivity.

Lemma count_result_items s belt qc : items (count_result s belt qc) = items s.
Proof. untouched count_result. Qed.

Lemma createAlarm_items now s item qc :
  items (createAlarm now s item qc) = items s.
Proof. reflexivity. Qed.

Lemma processItem_items now s item :
  items (snd (processItem now s item)) = items s.
Proof.
  unfold processItem. break_matches; cbn [snd]; try reflexivity;
    rewrite ?createAlarm_items; cbn [items with_statistics];
    apply count_result_items.
Qed.

Lemma checkSensorInteractions_items now s item :
  items (snd (checkSensorInteractions now s item)) = items s.
Proof. untouched checkSensorInteractions. Qed.

Lemma moveItemToBin_items s item : items (moveItemToBin s item) = items s.
Proof. untouched moveItemToBin. Qed.

(** ** Properties of every item that every operation keeps *)

Section ItemsInvariant.

Variable P : Item -> Prop.

(** [P] looks at the softness and the readings of an item only. *)
Hypothesis P_ext :
  forall i1 i2, softness_N i1 = softness_N i2 ->
                sensorReadings i1 = sensorReadings i2 -> P i1 -> P i2.

(** [P] survives a reading of a sensor that the item has no reading of. *)
Hypothesis P_reading :
  forall item sensorId t v ty,
    P item ->
    find (fun r => r_sensorId r =? sensorId) (sensorReadings item) = None ->
    P (item_with_readings item
         (sensorReadings item ++ [mkReading sensorId t v ty])).

(** [P] holds of a new item. *)
Hypothesis P_new :
  forall B now cfg sc belt b prof g item g',
    brush_item B now cfg sc belt b prof g = Some (item, g') -> P item.

Lemma check_sensor_keeps now acc entry :
  P (fst acc) -> P (fst (check_sensor now acc entry)).
Proof.
  destruct acc as [item sens], entry as [sensorId sensor].
  unfold check_sensor. cbn [fst].
  destruct (negb _); [auto|].
  destruct (_ <? _)%float; [|auto].
  destruct (find _ _) eqn:Hfind; [auto|].
  cbn [fst]. intros HP. now apply P_reading.
Qed.

Lemma fold_check_sensor_keeps now l acc :
  P (fst acc) -> P (fst (fold_left (check_sensor now) l acc)).
Proof.
  revert acc. induction l as [|e l IH]; intros acc HP; simpl; [exact HP|].
  apply IH, check_sensor_keeps, HP.
Qed.

Lemma checkSensorInteractions_keeps now s item :
  P item -> P (fst (checkSensorInteractions now s item)).
Proof.
  intros HP. unfold checkSensorInteractions.
  pose proof (fold_check_sensor_keeps now (sensors s) (item, sensors s) HP) as H.
  destruct (fold_left _ _ _) as [i sens]. exact H.
Qed.

Lemma processItem_keeps now s item :
  P item -> P (fst (processItem now s item)).
Proof.
  intros HP. unfold processItem.
  destruct (negb _); [exact HP|].
  destruct (forallb _ _); [|exact HP].
  cbn [fst]. eapply P_ext; [| |exact HP]; reflexivity.
Qed.

Lemma removeItem_items_all s k : items_all P s -> items_all P (removeItem s k).
Proof.
  unfold items_all, removeItem. intros H.
  destruct (JSMap.get (items s) k) as [item|]; [|exact H].
  destruct (JSMap.get (belts s) (beltId item)); cbn;
    now apply JSMapFacts.Forall_delete.
Qed.

Lemma update_item_items_all now deltaTime s k :
  items_all P s -> items_all P (update_item now deltaTime s k).
Proof.
  intros Hall.
  destruct (JSMap.get (items s) k) as [item|] eqn:Hget.
  2:{ rewrite update_item_skip; [exact Hall | now rewrite Hget]. }
  destruct (status item =? "COMPLETED") eqn:Hst.
  { rewrite update_item_skip; [exact Hall | now rewrite Hget]. }
  rewrite (update_item_unfold now deltaTime s k item Hget Hst). cbv zeta.
  match goal with
  | |- context [checkSensorInteractions now s ?m] =>
      set (r1 := checkSensorInteractions now s m);
      assert (H1 : P (fst r1))
  end.
  { apply checkSensorInteractions_keeps.
    eapply P_ext; [| |exact (JSMapFacts.Forall_get P _ _ _ Hall Hget)];
      reflexivity. }
  set (r2 := processItem now (snd r1) (fst r1)).
  assert (H2 : P (fst r2)) by (apply processItem_keeps, H1).
  assert (Hi2 : items (snd r2) = items s).
  { unfold r2. rewrite processItem_items. apply checkSensorInteractions_items. }
  match goal with
  | |- context [with_items ?a ?b] => set (s3 := with_items a b)
  end.
  assert (H3 : items_all P s3).
  { unfold items_all, s3. cbn [items with_items]. rewrite Hi2.
    now apply JSMapFacts.Forall_set. }
  match goal with
  | |- context [if ?c then moveItemToBin ?a ?b else _] =>
      set (s4 := if c then moveItemToBin a b else s3)
  end.
  assert (H4 : items_all P s4).
  { subst s4. destruct (_ && _); [|exact H3].
    unfold items_all. now rewrite moveItemToBin_items. }
  destruct (JS.gt _ 4); [|exact H4].
  now apply removeItem_items_all.
Qed.

Lemma updateItems_items_all now deltaTime s :
  items_all P s -> items_all P (updateItems now deltaTime s).
Proof.
  unfold updateItems. generalize (JSMap.keys (items s)) as l.
  intros l. revert s. induction l as [|k l IH]; intros s H; simpl; [exact H|].
  apply IH, update_item_items_all, H.
Qed.

Lemma spawn_on_belt_items_all B now s belt s' :
  spawn_on_belt B now s belt = Some s' -> items_all P s -> items_all P s'.
Proof.
  intros H Hall. apply spawn_on_belt_cases in H.
  destruct H as [->|(b & prof & item & s1 & b1 & _ & _ & _ & _ & _ & Hc & _ & ->)];
    [exact Hall|].
  apply createBrushItem_Some in Hc. destruct Hc as (b0 & g & _ & _ & Hi & ->).
  unfold items_all. cbn. apply JSMapFacts.Forall_set; [exact Hall|].
  eapply P_new, Hi.
Qed.

Lemma spawnItems_items_all B now s s' :
  spawnItems B now s = Some s' -> items_all P s -> items_all P s'.
Proof.
  unfold spawnItems. generalize (JSMap.keys (belts s)) as l.
  intros l. revert s. induction l as [|k l IH]; intros s; simpl.
  - now intros [= <-].
  - destruct (spawn_on_belt B now s k) as [s1|] eqn:E.
    + intros H Hall. eapply IH; [exact H|].
      eapply spawn_on_belt_items_all; eauto.
    + now rewrite fold_spawn_None.
Qed.

Lemma animateTobin_finish_items_all s :
  items_all P s -> items_all P (animateTobin_finish s).
Proof.
  unfold animateTobin_finish, items_all. intros Hall.
  destruct (animations s) as [|[itemId [b|]] rest]; [exact Hall| |];
    try destruct (JSMap.get (bins _) b); cbn;
    (destruct (JSMap.get (items s) itemId) as [item|] eqn:Hg; cbn;
     [|exact Hall]);
    (apply JSMapFacts.Forall_set; [exact Hall|]);
    (eapply P_ext; [| |exact (JSMapFacts.Forall_get P _ _ _ Hall Hg)]);
    reflexivity.
Qed.

Lemma setBeltSpeed_items_all s belt speed :
  items_all P s -> items_all P (setBeltSpeed s belt speed).
Proof.
  unfold setBeltSpeed, items_all. intros Hall.
  destruct (JSMap.get (belts s) belt); [|exact Hall].
  destruct (existsb _ _); [|exact Hall]. cbn [items with_items with_belts].
  apply JSMapFacts.Forall_map_values; [|exact Hall].
  intros k v Hv. destruct (beltId v =? belt); [|exact Hv].
  eapply P_ext; [| |exact Hv]; reflexivity.
Qed.

Lemma toggleBelt_items s belt : items (toggleBelt s belt) = items s.
Proof. untouched toggleBelt. Qed.

Lemma fold_estop_belt_items l s : items (fold_left estop_belt l s) = items s.
Proof.
  revert s. induction l as [|k l IH]; intros s; simpl; [reflexivity|].
  rewrite IH. unfold estop_belt. break_matches; try reflexivity.
  now rewrite toggleBelt_items.
Qed.

Lemma fold_restart_belt_items l s :
  items (fold_left restart_belt l s) = items s.
Proof.
  revert s. induction l as [|k l IH]; intros s; simpl; [reflexivity|].
  rewrite IH. unfold restart_belt. break_matches; cbn [items with_belts];
    try reflexivity; now rewrite toggleBelt_items.
Qed.

Lemma toggleEmergencyStop_items s : items (toggleEmergencyStop s) = items s.
Proof.
  unfold toggleEmergencyStop.
  destruct (emergencyStop (with_emergencyStop s _));
    [rewrite fold_estop_belt_items | rewrite fold_restart_belt_items];
    reflexivity.
Qed.

Lemma step_items_all B op s s' :
  step B op s = Some s' -> items_all P s -> items_all P s'.
Proof.
  destruct op; cbn [step]; try (intros [= <-]); intros Hall;
    try exact Hall.
  - (* OpFrame *)
    unfold frame in *. destruct (isPaused s); [now injection Hall as <-|].
    destruct (spawnItems B now s) as [s1|] eqn:E; [|discriminate].
    intros H. injection Hall as <-.
    apply updateItems_items_all. eapply spawnItems_items_all; eauto.
  - now apply animateTobin_finish_items_all.
  - unfold items_all. now rewrite toggleBelt_items.
  - now apply setBeltSpeed_items_all.
  - unfold items_all, setBeltProfile. now destruct (JSMap.get _ _).
  - unfold items_all. now rewrite toggleEmergencyStop_items.
  - unfold items_all, toggleScenario. break_matches; exact Hall.
  - unfold items_all, saveProfileChanges. now destruct (JSMap.get _ _).
Qed.

Lemma run_items_all B ops s s' :
  run B ops s = Some s' -> items_all P s -> items_all P s'.
Proof.
  revert s. induction ops as [|op ops IH]; intros s; simpl.
  - now intros [= <-].
  - destruct (step B op s) as [s1|] eqn:E; [|discriminate].
    intros H Hall. eapply IH; [exact H|]. eapply step_items_all; eauto.
Qed.

Lemma new_items_all rng dom : items_all P (new_QCLineSimulator rng dom).
Proof. constructor. Qed.

End ItemsInvariant.

(** ** The alarm log *)

Lemma createAlarm_bounded now s item qc :
  (List.length (alarms (createAlarm now s item qc)) <= 20)%nat.
Proof.
  unfold createAlarm. cbn [alarms with_alarms].
  destruct (20 <? _)%nat eqn:E.
  - rewrite length_firstn. lia.
  - apply Nat.ltb_ge in E. exact E.
Qed.

Lemma count_result_alarms s belt qc : alarms (count_result s belt qc) = alarms s.
Proof. untouched count_result. Qed.

Lemma processItem_alarms_bounded now s item :
  (List.length (alarms s) <= 20)%nat ->
  (List.length (alarms (snd (processItem now s item))) <= 20)%nat.
Proof.
  intros H. unfold processItem.
  destruct (negb _); [exact H|].
  destruct (forallb _ _); [|exact H]. cbn [snd].
  match goal with
  | |- context [if ?c then _ else _] => destruct c
  end.
  - apply createAlarm_bounded.
  - cbn [alarms with_statistics]. now rewrite count_result_alarms.
Qed.

Lemma checkSensorInteractions_alarms now s item :
  alarms (snd (checkSensorInteractions now s item)) = alarms s.
Proof. untouched checkSensorInteractions. Qed.

Lemma moveItemToBin_alarms s item : alarms (moveItemToBin s item) = alarms s.
Proof. untouched moveItemToBin. Qed.

Lemma removeItem_alarms s k : alarms (removeItem s k) = alarms s.
Proof. untouched removeItem. Qed.

Lemma update_item_alarms_bounded now deltaTime s k :
  (List.length (alarms s) <= 20)%nat ->
  (List.length (alarms (update_item now deltaTime s k)) <= 20)%nat.
Proof.
  intros Hb.
  destruct (JSMap.get (items s) k) as [item|] eqn:Hget.
  2:{ rewrite update_item_skip; [exact Hb | now rewrite Hget]. }
  destruct (status item =? "COMPLETED") eqn:Hst.
  { rewrite update_item_skip; [exact Hb | now rewrite Hget]. }
  rewrite (update_item_unfold now deltaTime s k item Hget Hst). cbv zeta.
  match goal with
  | |- context [checkSensorInteractions now s ?m] =>
      set (r1 := checkSensorInteractions now s m)
  end.
  set (r2 := processItem now (snd r1) (fst r1)).
  assert (H2 : (List.length (alarms (snd r2)) <= 20)%nat).
  { apply processItem_alarms_bounded.
    unfold r1. now rewrite checkSensorInteractions_alarms. }
  rewrite ?removeItem_alarms.
  repeat match goal with
         | |- context [if ?c then _ else _] => destruct c
         end;
    rewrite ?removeItem_alarms, ?moveItemToBin_alarms; exact H2.
Qed.

Lemma updateItems_alarms_bounded now deltaTime s :
  (List.length (alarms s) <= 20)%nat ->
  (List.length (alarms (updateItems now deltaTime s)) <= 20)%nat.
Proof.
  unfold updateItems. generalize (JSMap.keys (items s)) as l.
  intros l. revert s. induction l as [|k l IH]; intros s H; simpl; [exact H|].
  apply IH, update_item_alarms_bounded, H.
Qed.

Lemma spawn_on_belt_alarms B now s belt s' :
  spawn_on_belt B now s belt = Some s' -> alarms s' = alarms s.
Proof.
  intros H. apply spawn_on_belt_cases in H.
  destruct H as [->|(b & prof & item & s1 & b1 & _ & _ & _ & _ & _ & Hc & _ & ->)];
    [reflexivity|].
  apply createBrushItem_Some in Hc. destruct Hc as (b0 & g & _ & _ & _ & ->).
  reflexivity.
Qed.

Lemma spawnItems_alarms B now s s' :
  spawnItems B now s = Some s' -> alarms s' = alarms s.
Proof.
  unfold spawnItems. generalize (JSMap.keys (belts s)) as l.
  intros l. revert s. induction l as [|k l IH]; intros s; simpl.
  - now intros [= <-].
  - destruct (spawn_on_belt B now s k) as [s1|] eqn:E.
    + intros H. rewrite (IH _ H). eapply spawn_on_belt_alarms, E.
    + now rewrite fold_spawn_None.
Qed.

Lemma toggleBelt_alarms s belt : alarms (toggleBelt s belt) = alarms s.
Proof. untouched toggleBelt. Qed.

Lemma fold_estop_belt_alarms l s : alarms (fold_left estop_belt l s) = alarms s.
Proof.
  revert s. induction l as [|k l IH]; intros s; simpl; [reflexivity|].
  rewrite IH. unfold estop_belt. break_matches; try reflexivity.
  now rewrite toggleBelt_alarms.
Qed.

Lemma fold_restart_belt_alarms l s :
  alarms (fold_left restart_belt l s) = alarms s.
Proof.
  revert s. induction l as [|k l IH]; intros s; simpl; [reflexivity|].
  rewrite IH. unfold restart_belt. break_matches; cbn [alarms with_belts];
    try reflexivity; now rewrite toggleBelt_alarms.
Qed.

Lemma toggleEmergencyStop_alarms s :
  alarms (toggleEmergencyStop s) = alarms s.
Proof.
  unfold toggleEmergencyStop.
  destruct (emergencyStop (with_emergencyStop s _));
    [rewrite fold_estop_belt_alarms | rewrite fold_restart_belt_alarms];
    reflexivity.
Qed.

Lemma step_alarms_bounded B op s s' :
  step B op s = Some s' ->
  (List.length (alarms s) <= 20)%nat -> (List.length (alarms s') <= 20)%nat.
Proof.
  destruct op; cbn [step]; try (intros [= <-]); intros Hb; try exact Hb.
  - unfold frame in *. destruct (isPaused s); [now injection Hb as <-|].
    destruct (spawnItems B now s) as [s1|] eqn:E; [|discriminate].
    intros H. injection Hb as <-.
    apply updateItems_alarms_bounded. now rewrite (spawnItems_alarms _ _ _ _ E).
  - unfold animateTobin_finish. break_matches; exact Hb.
  - now rewrite toggleBelt_alarms.
  - unfold setBeltSpeed. break_matches; exact Hb.
  - unfold setBeltProfile. break_matches; exact Hb.
  - now rewrite toggleEmergencyStop_alarms.
  - unfold toggleScenario. break_matches; exact Hb.
  - cbn. lia.
  - unfold saveProfileChanges. break_matches; exact Hb.
Qed.

Lemma run_alarms_bounded B ops s s' :
  run B ops s = Some s' ->
  (List.length (alarms s) <= 20)%nat -> (List.length (alarms s') <= 20)%nat.
Proof.
  revert s. induction ops as [|op ops IH]; intros s; simpl.
  - now intros [= <-].
  - destruct (step B op s) as [s1|] eqn:E; [|discriminate].
    intros H Hb. eapply IH; [exact H|]. eapply step_alarms_bounded; eauto.
Qed.

Lemma firstn_removelast {A} (l : list A) :
  l <> [] -> firstn (List.length l - 1) l = removelast l.
Proof.
  intros Hne. destruct (exists_last Hne) as (l' & a & ->).
  rewrite removelast_last, length_app. simpl.
  replace (List.length l' + 1 - 1)%nat with (List.length l' + 0)%nat by lia.
  rewrite firstn_app_2. simpl. now rewrite app_nil_r.
Qed.

(** C6. The alarm log never holds more than 20 entries, whatever the page
    does; a new alarm goes to the front, before the alarms already there in
    their order, and when the log is full the entry dropped is the one at
    the back, the oldest. *)
Theorem alarm_log_bounded (B : Builtins) (rng : Rng) (dom : list string)
    (ops : list Op) (s : Sim) :
  run B ops (new_QCLineSimulator rng dom) = Some s ->
  (List.length (alarms s) <= 20)%nat
  /\ forall now item qc,
       exists alarm,
         a_itemId alarm = id item /\ a_type alarm = qc_status qc
         /\ a_timestamp alarm = now
         /\ alarms (createAlarm now s item qc)
            = alarm :: (if (List.length (alarms s) <? 20)%nat
                        then alarms s else removelast (alarms s)).
Proof.
  intros Hrun.
  assert (Hb : (List.length (alarms s) <= 20)%nat).
  { eapply run_alarms_bounded; [exact Hrun|]. cbn. lia. }
  split; [exact Hb|]. intros now item qc.
  unfold createAlarm. cbn [alarms with_alarms].
  match goal with
  | |- context [?a :: alarms s] => exists a
  end.
  do 3 (split; [reflexivity|]).
  cbn [List.length].
  destruct (List.length (alarms s) <? 20)%nat eqn:E.
  - apply Nat.ltb_lt in E.
    match goal with
    | |- context [(20 <? ?n)%nat] => destruct (20 <? n)%nat eqn:E'
    end; [apply Nat.ltb_lt in E'; lia|reflexivity].
  - apply Nat.ltb_ge in E.
    assert (Hlen : List.length (alarms s) = 20%nat) by lia.
    match goal with
    | |- context [(20 <? ?n)%nat] => destruct (20 <? n)%nat eqn:E'
    end; [|apply Nat.ltb_ge in E'; lia].
    cbn [firstn]. f_equal.
    rewrite <- firstn_removelast.
    + now rewrite Hlen.
    + intros Hnil. rewrite Hnil in Hlen. discriminate.
Qed.

(** ** The emergency stop *)

Module FoldFacts.

Import JSMap.

Lemma get_app_notin {V} (pre post : t V) k :
  ~ In k (keys pre) -> get (pre ++ post) k = get post k.
Proof.
  induction pre as [|[k' v'] pre IH]; simpl; intros Hnin; [reflexivity|].
  destruct (String.eqb k' k) eqn:E.
  - apply String.eqb_eq in E. tauto.
  - apply IH. tauto.
Qed.

Lemma set_app_notin {V} (pre post : t V) k v :
  ~ In k (keys pre) -> set (pre ++ post) k v = pre ++ set post k v.
Proof.
  induction pre as [|[k' v'] pre IH]; simpl; intros Hnin; [reflexivity|].
  destruct (String.eqb k' k) eqn:E.
  - apply String.eqb_eq in E. tauto.
  - f_equal. apply IH. tauto.
Qed.

Lemma set_get_same {V} (m : t V) k v : get m k = Some v -> set m k v = m.
Proof.
  induction m as [|[k' v'] rest IH]; simpl; [discriminate|].
  destruct (String.eqb k' k) eqn:E.
  - now intros [= ->].
  - intros H. now rewrite IH.
Qed.

Lemma set_set {V} (m : t V) k v v' : set (set m k v) k v' = set m k v'.
Proof.
  induction m as [|[k0 v0] rest IH]; simpl.
  - now rewrite String.eqb_refl.
  - destruct (String.eqb k0 k) eqn:E; simpl; rewrite E; [reflexivity|].
    now rewrite IH.
Qed.

(** Updating the value of every key in turn is a [map_values]. *)
Lemma fold_update_key_app {V} (g : string -> V -> V) (post pre : t V) :
  NoDup (keys (pre ++ post)) ->
  fold_left (update_key g) (keys post) (pre ++ post)
  = pre ++ map_values g post.
Proof.
  revert pre. induction post as [|[k v] post IH]; intros pre Hnd; simpl.
  - reflexivity.
  - assert (Hnin : ~ In k (keys pre)).
    { unfold keys in *. rewrite map_app in Hnd. simpl in Hnd.
      apply NoDup_remove_2 in Hnd. rewrite in_app_iff in Hnd. tauto. }
    unfold update_key at 2. rewrite (get_app_notin pre _ k Hnin). simpl.
    rewrite String.eqb_refl, (set_app_notin pre _ k _ Hnin). simpl.
    rewrite String.eqb_refl.
    change (pre ++ (k, g k v) :: post) with (pre ++ [(k, g k v)] ++ post).
    rewrite app_assoc, IH.
    + now rewrite <- app_assoc.
    + rewrite <- app_assoc. simpl.
      unfold keys in *. rewrite map_app in *. simpl in *. exact Hnd.
Qed.

Lemma fold_update_key {V} (g : string -> V -> V) (m : t V) :
  NoDup (keys m) -> fold_left (update_key g) (keys m) m = map_values g m.
Proof. intros Hnd. exact (fold_update_key_app g m [] Hnd). Qed.

End FoldFacts.

Lemma with_belts_same s : with_belts s (belts s) = s.
Proof. now destruct s. Qed.

Lemma estop_belt_spec s k :
  estop_belt s k
  = with_belts s (JSMap.update_key (engage_belt (dom_belts s)) (belts s) k).
Proof.
  unfold estop_belt, JSMap.update_key, engage_belt, toggleBelt.
  destruct (JSMap.get (belts s) k) as [b|] eqn:Hb;
    [|now rewrite with_belts_same].
  destruct (enabled b) eqn:Hen.
  - cbn [belts with_belts dom_belts]. rewrite JSMapFacts.get_set_same.
    destruct (existsb _ _); [|reflexivity].
    cbn [belts with_belts]. now rewrite FoldFacts.set_set.
  - rewrite (FoldFacts.set_get_same _ _ _ Hb). now rewrite with_belts_same.
Qed.

Lemma restart_belt_spec s k :
  restart_belt s k
  = with_belts s (JSMap.update_key (release_belt (dom_belts s)) (belts s) k).
Proof.
  unfold restart_belt, JSMap.update_key, release_belt, toggleBelt.
  destruct (JSMap.get (belts s) k) as [b|] eqn:Hb;
    [|now rewrite with_belts_same].
  destruct (JS.truthy (wasRunning b)) eqn:Hwr.
  - destruct (existsb _ _).
    + cbn [belts with_belts]. rewrite JSMapFacts.get_set_same.
      cbn [belts with_belts]. now rewrite FoldFacts.set_set.
    + rewrite Hb. reflexivity.
  - rewrite (FoldFacts.set_get_same _ _ _ Hb). now rewrite with_belts_same.
Qed.

Lemma fold_estop_belt_spec l s :
  fold_left estop_belt l s
  = with_belts s
      (fold_left (JSMap.update_key (engage_belt (dom_belts s))) l (belts s)).
Proof.
  revert s. induction l as [|k l IH]; intros s; simpl.
  - now rewrite with_belts_same.
  - rewrite estop_belt_spec, IH. reflexivity.
Qed.

Lemma fold_restart_belt_spec l s :
  fold_left restart_belt l s
  = with_belts s
      (fold_left (JSMap.update_key (release_belt (dom_belts s))) l (belts s)).
Proof.
  revert s. induction l as [|k l IH]; intros s; simpl.
  - now rewrite with_belts_same.
  - rewrite restart_belt_spec, IH. reflexivity.
Qed.


Lemma toggleEmergencyStop_release s :
  NoDup (JSMap.keys (belts s)) -> emergencyStop s = true ->
  toggleEmergencyStop s
  = with_belts (with_emergencyStop s false)
      (JSMap.map_values (release_belt (dom_belts s)) (belts s)).
Proof.
  intros Hnd Hes. unfold toggleEmergencyStop. rewrite Hes.
  cbn [negb emergencyStop with_emergencyStop belts].
  rewrite fold_restart_belt_spec. cbn [belts with_emergencyStop dom_belts].
  now rewrite FoldFacts.fold_update_key.
Qed.


Lemma release_engage_enabled dom k b :
  record_clear b -> enabled (release_belt dom k (engage_belt dom k b)) = enabled b.
Proof.
  unfold record_clear, release_belt, engage_belt. intros Hc.
  destruct (enabled b) eqn:Hen.
  - destruct (existsb _ _); cbn; rewrite ?Hen; reflexivity.
  - rewrite Hc. exact Hen.
Qed.

(** *** The invariant of the emergency stop *)









(** *** Operations that leave the belts' flags alone *)





Lemma release_belt_control dom k b b' :
  belt_control b' = belt_control b ->
  belt_control (release_belt dom k b') = belt_control (release_belt dom k b).
Proof.
  unfold belt_control, release_belt. intros [= He Hw]. rewrite He, Hw.
  destruct (JS.truthy (wasRunning b)); [|now rewrite He, Hw].
  destruct (existsb _ _); cbn; now rewrite ?He.
Qed.



(** ** Spawning and transport under the emergency stop *)

(** The transport reads the emergency stop nowhere. *)

Lemma count_result_estop s e belt qc :
  count_result (with_emergencyStop s e) belt qc
  = with_emergencyStop (count_result s belt qc) e.
Proof.
  unfold count_result. cbn [belts with_emergencyStop].
  break_matches; reflexivity.
Qed.

Lemma processItem_estop now s e item :
  processItem now (with_emergencyStop s e) item
  = (fst (processItem now s item),
     with_emergencyStop (snd (processItem now s item)) e).
Proof.
  unfold processItem. cbn [profiles with_emergencyStop].
  destruct (negb _); [reflexivity|].
  destruct (forallb _ _); [|reflexivity].
  rewrite count_result_estop. cbn [fst snd].
  destruct (negb _); reflexivity.
Qed.

Lemma checkSensorInteractions_estop now s e item :
  checkSensorInteractions now (with_emergencyStop s e) item
  = (fst (checkSensorInteractions now s item),
     with_emergencyStop (snd (checkSensorInteractions now s item)) e).
Proof.
  unfold checkSensorInteractions. cbn [sensors with_emergencyStop].
  destruct (fold_left _ _ _) as [i sens]. reflexivity.
Qed.

Lemma moveItemToBin_estop s e item :
  moveItemToBin (with_emergencyStop s e) item
  = with_emergencyStop (moveItemToBin s item) e.
Proof.
  unfold moveItemToBin. cbn [bins random animations with_emergencyStop].
  break_matches; reflexivity.
Qed.

Lemma removeItem_estop s e k :
  removeItem (with_emergencyStop s e) k
  = with_emergencyStop (removeItem s k) e.
Proof.
  unfold removeItem. cbn [items belts with_emergencyStop].
  break_matches; reflexivity.
Qed.

Lemma update_item_estop now deltaTime s e k :
  update_item now deltaTime (with_emergencyStop s e) k
  = with_emergencyStop (update_item now deltaTime s k) e.
Proof.
  unfold update_item. cbn [items simulationSpeed with_emergencyStop].
  destruct (JSMap.get (items s) k) as [item|]; [|reflexivity].
  destruct (status item =? "COMPLETED"); [reflexivity|].
  rewrite checkSensorInteractions_estop.
  destruct (checkSensorInteractions now s _) as [i1 s1]. cbn [fst snd].
  rewrite processItem_estop.
  destruct (processItem now s1 i1) as [i2 s2]. cbn [fst snd].
  change (with_items (with_emergencyStop s2 e)
            (JSMap.set (items (with_emergencyStop s2 e)) k i2))
    with (with_emergencyStop
            (with_items s2 (JSMap.set (items s2) k i2)) e).
  destruct (_ && _); destruct (JS.gt _ 4);
    rewrite ?moveItemToBin_estop, ?removeItem_estop; reflexivity.
Qed.

Lemma fold_update_item_estop now deltaTime e l s :
  fold_left (update_item now deltaTime) l (with_emergencyStop s e)
  = with_emergencyStop (fold_left (update_item now deltaTime) l s) e.
Proof.
  revert s. induction l as [|k l IH]; intros s; simpl; [reflexivity|].
  now rewrite update_item_estop, IH.
Qed.

Lemma updateItems_estop now deltaTime s e :
  updateItems now deltaTime (with_emergencyStop s e)
  = with_emergencyStop (updateItems now deltaTime s) e.
Proof. unfold updateItems. apply fold_update_item_estop. Qed.

(** The position of an item through the sensors and the classification. *)

Lemma check_sensor_position now acc entry :
  position (fst (check_sensor now acc entry)) = position (fst acc).
Proof.
  destruct acc as [item sens], entry as [sensorId sensor].
  unfold check_sensor. break_matches; reflexivity.
Qed.

Lemma checkSensorInteractions_position now s item :
  position (fst (checkSensorInteractions now s item)) = position item.
Proof.
  unfold checkSensorInteractions.
  assert (H : forall l acc,
             position (fst (fold_left (check_sensor now) l acc))
             = position (fst acc)).
  { induction l as [|e l IH]; intros acc; simpl; [reflexivity|].
    now rewrite IH, check_sensor_position. }
  specialize (H (sensors s) (item, sensors s)).
  destruct (fold_left _ _ _) as [i sens]. exact H.
Qed.

Lemma processItem_position now s item :
  position (fst (processItem now s item)) = position item.
Proof. unfold processItem. break_matches; reflexivity. Qed.

Lemma get_delete_other {V} (m : JSMap.t V) k k' :
  k <> k' -> JSMap.get (JSMap.delete m k) k' = JSMap.get m k'.
Proof.
  intros Hne. induction m as [|[k0 v0] rest IH]; simpl; [reflexivity|].
  destruct (String.eqb k0 k) eqn:E; simpl.
  - apply String.eqb_eq in E. subst k0.
    destruct (String.eqb k k') eqn:E'; [|reflexivity].
    apply String.eqb_eq in E'. contradiction.
  - destruct (String.eqb k0 k'); [reflexivity | exact IH].
Qed.

Lemma removeItem_get_other s k k' :
  k <> k' -> JSMap.get (items (removeItem s k)) k' = JSMap.get (items s) k'.
Proof.
  intros Hne. unfold removeItem. break_matches; cbn [items with_items with_belts];
    try reflexivity; now apply get_delete_other.
Qed.

Lemma update_item_get_other now deltaTime s k k' :
  k <> k' ->
  JSMap.get (items (update_item now deltaTime s k)) k' = JSMap.get (items s) k'.
Proof.
  intros Hne.
  destruct (JSMap.get (items s) k) as [item|] eqn:Hget.
  2:{ rewrite update_item_skip; [reflexivity | now rewrite Hget]. }
  destruct (status item =? "COMPLETED") eqn:Hst.
  { rewrite update_item_skip; [reflexivity | now rewrite Hget]. }
  rewrite (update_item_unfold now deltaTime s k item Hget Hst). cbv zeta.
  repeat match goal with
         | |- context [if ?c then _ else _] => destruct c
         end;
    rewrite ?removeItem_get_other, ?moveItemToBin_items by assumption;
    cbn [items with_items];
    rewrite JSMapFacts.get_set_other by assumption;
    now rewrite processItem_items, checkSensorInteractions_items.
Qed.

(** An item in transit after its turn in [updateItems]: moved, seen by the
    sensors, classified when its readings are complete. *)
Lemma update_item_get_self now deltaTime s k item :
  JSMap.get (items s) k = Some item ->
  (status item =? "COMPLETED") = false ->
  let x' := (vx (position item)
             + velocity item * deltaTime * simulationSpeed s)%float in
  let r1 := checkSensorInteractions now s (item_with_position_x item x') in
  let r2 := processItem now (snd r1) (fst r1) in
  JS.gt x' 4 = false ->
  JSMap.get (items (update_item now deltaTime s k)) k = Some (fst r2)
  /\ vx (position (fst r2)) = x'.
Proof.
  intros Hget Hst x' r1 r2 Hx.
  assert (Hpos : vx (position (fst r2)) = x').
  { unfold r2, r1.
    now rewrite processItem_position, checkSensorInteractions_position. }
  split; [|exact Hpos].
  rewrite (update_item_unfold now deltaTime s k item Hget Hst). cbv zeta.
  fold x' r1 r2. rewrite Hpos, Hx.
  destruct (_ && _); rewrite ?moveItemToBin_items; cbn [items with_items];
    apply JSMapFacts.get_set_same.
Qed.

Lemma fold_update_item_get_notin now deltaTime l s k :
  ~ In k l ->
  JSMap.get (items (fold_left (update_item now deltaTime) l s)) k
  = JSMap.get (items s) k.
Proof.
  revert s. induction l as [|k' l IH]; intros s Hnin; simpl; [reflexivity|].
  rewrite IH by (simpl in Hnin; tauto).
  apply update_item_get_other. simpl in Hnin. intros ->. tauto.
Qed.

(** Every item in transit is moved by a turn of [updateItems]. *)
Lemma updateItems_advances now deltaTime s k item :
  NoDup (JSMap.keys (items s)) ->
  JSMap.get (items s) k = Some item ->
  (status item =? "COMPLETED") = false ->
  let x' := (vx (position item)
             + velocity item * deltaTime * simulationSpeed s)%float in
  JS.gt x' 4 = false ->
  exists item',
    JSMap.get (items (updateItems now deltaTime s)) k = Some item'
    /\ vx (position item') = x'.
Proof.
  intros Hnd Hget Hst x' Hx. unfold updateItems.
  assert (Hin : In k (JSMap.keys (items s)))
    by (eapply JSMapFacts.In_keys, JSMapFacts.get_In, Hget).
  apply in_split in Hin. destruct Hin as (l1 & l2 & Hl).
  rewrite Hl in *. apply NoDup_remove_2 in Hnd. rewrite in_app_iff in Hnd.
  rewrite fold_left_app. simpl.
  set (s1 := fold_left (update_item now deltaTime) l1 s).
  assert (Hget1 : JSMap.get (items s1) k = Some item).
  { unfold s1. rewrite fold_update_item_get_notin by tauto. exact Hget. }
  assert (Hspeed : simulationSpeed s1 = simulationSpeed s).
  { unfold s1. apply sc_simulationSpeed, fold_update_item_controls. }
  rewrite fold_update_item_get_notin by tauto.
  pose proof (update_item_get_self now deltaTime s1 k item Hget1 Hst) as H.
  cbv zeta in H. rewrite Hspeed in H. destruct (H Hx) as [Hg Hp].
  eexists. split; [exact Hg | exact Hp].
Qed.

(** The keys of [this.items] are distinct at every moment of every
    session. *)

Lemma NoDup_keys_delete {V} (m : JSMap.t V) k :
  NoDup (JSMap.keys m) -> NoDup (JSMap.keys (JSMap.delete m k)).
Proof.
  unfold JSMap.keys. induction m as [|[k0 v0] m IH]; simpl; intros Hnd;
    [constructor|].
  inversion Hnd as [|x l Hnin Hnd']; subst.
  destruct (String.eqb k0 k); [exact Hnd'|]. simpl. constructor; [|auto].
  intros Hin. apply Hnin. clear - Hin.
  induction m as [|[k1 v1] m IH]; simpl in *; [contradiction|].
  destruct (String.eqb k1 k); simpl in *; [now right | tauto].
Qed.

Lemma removeItem_items_NoDup s k :
  NoDup (JSMap.keys (items s)) -> NoDup (JSMap.keys (items (removeItem s k))).
Proof.
  intros H. unfold removeItem. break_matches; cbn [items with_items with_belts];
    try exact H; now apply NoDup_keys_delete.
Qed.

Lemma update_item_items_NoDup now deltaTime s k :
  NoDup (JSMap.keys (items s)) ->
  NoDup (JSMap.keys (items (update_item now deltaTime s k))).
Proof.
  intros Hnd.
  destruct (JSMap.get (items s) k) as [item|] eqn:Hget.
  2:{ rewrite update_item_skip; [exact Hnd | now rewrite Hget]. }
  destruct (status item =? "COMPLETED") eqn:Hst.
  { rewrite update_item_skip; [exact Hnd | now rewrite Hget]. }
  rewrite (update_item_unfold now deltaTime s k item Hget Hst). cbv zeta.
  repeat match goal with
         | |- context [if ?c then _ else _] => destruct c
         end;
    try apply removeItem_items_NoDup;
    rewrite ?moveItemToBin_items; cbn [items with_items];
    apply JSMapFacts.NoDup_keys_set;
    now rewrite processItem_items, checkSensorInteractions_items.
Qed.

Lemma step_items_NoDup B op s s' :
  step B op s = Some s' ->
  NoDup (JSMap.keys (items s)) -> NoDup (JSMap.keys (items s')).
Proof.
  destruct op; cbn [step]; try (intros [= <-]); intros Hnd; try exact Hnd.
  - unfold frame in *. destruct (isPaused s); [now injection Hnd as <-|].
    destruct (spawnItems B now s) as [s1|] eqn:E; [|discriminate].
    intros H. injection Hnd as <-.
    assert (H1 : NoDup (JSMap.keys (items s1))).
    { clear - E H. revert E. unfold spawnItems.
      generalize (JSMap.keys (belts s)) as l. intros l. revert s H.
      induction l as [|k l IH]; intros s H; simpl; [now intros [= <-]|].
      destruct (spawn_on_belt B now s k) as [s2|] eqn:E2;
        [|now rewrite fold_spawn_None].
      apply IH. apply spawn_on_belt_cases in E2.
      destruct E2 as [->|(b & prof & item & s3 & b1 & _ & _ & _ & _ & _
                          & Hc & _ & ->)]; [exact H|].
      apply createBrushItem_Some in Hc.
      destruct Hc as (b0 & g & _ & _ & _ & ->).
      cbn [items with_belts with_items with_random].
      now apply JSMapFacts.NoDup_keys_set. }
    unfold updateItems. generalize (JSMap.keys (items s1)) at 1 as l.
    intros l. revert H1. generalize s1. clear.
    induction l as [|k l IH]; intros s H; simpl; [exact H|].
    apply IH, update_item_items_NoDup, H.
  - unfold animateTobin_finish. break_matches; cbn [items with_items with_bins
      with_animations]; try exact Hnd; now apply JSMapFacts.NoDup_keys_set.
  - now rewrite toggleBelt_items.
  - unfold setBeltSpeed. break_matches; cbn [items with_items with_belts];
      try exact Hnd. now rewrite JSMapFacts.keys_map_values.
  - unfold setBeltProfile. break_matches; exact Hnd.
  - now rewrite toggleEmergencyStop_items.
  - unfold toggleScenario. break_matches; exact Hnd.
  - unfold saveProfileChanges. break_matches; exact Hnd.
Qed.

Lemma run_items_NoDup B rng dom ops s :
  run B ops (new_QCLineSimulator rng dom) = Some s ->
  NoDup (JSMap.keys (items s)).
Proof.
  assert (H : forall s0, NoDup (JSMap.keys (items s0)) ->
                         run B ops s0 = Some s ->
                         NoDup (JSMap.keys (items s))).
  { induction ops as [|op ops IH]; intros s0 Hnd; simpl.
    - now intros [= <-].
    - destruct (step B op s0) as [s1|] eqn:E; [|discriminate].
      apply IH. eapply step_items_NoDup; eauto. }
  apply H. constructor.
Qed.

Lemma spawn_on_belt_estop B now s belt :
  emergencyStop s = true -> spawn_on_belt B now s belt = Some s.
Proof.
  intros Hes. unfold spawn_on_belt.
  destruct (JSMap.get (belts s) belt); [|reflexivity].
  now rewrite Hes, orb_true_r.
Qed.

Lemma spawnItems_estop B now s :
  emergencyStop s = true -> spawnItems B now s = Some s.
Proof.
  intros Hes. unfold spawnItems. generalize (JSMap.keys (belts s)) as l.
  induction l as [|k l IH]; simpl; [reflexivity|].
  now rewrite spawn_on_belt_estop.
Qed.

(** ** Spawning on a disabled and on a re-enabled belt *)

Lemma spawn_on_belt_disabled B now s k b :
  JSMap.get (belts s) k = Some b -> enabled b = false ->
  spawn_on_belt B now s k = Some s.
Proof. intros Hb Hen. unfold spawn_on_belt. now rewrite Hb, Hen. Qed.

(** A spawn attempt on any belt leaves a disabled belt [k] disabled and
    puts no item on it. *)
Lemma spawn_on_belt_elsewhere B now s k' s' k b :
  spawn_on_belt B now s k' = Some s' ->
  JSMap.get (belts s) k = Some b -> enabled b = false ->
  (exists b', JSMap.get (belts s') k = Some b' /\ enabled b' = false)
  /\ forall i it, JSMap.get (items s') i = Some it -> beltId it = k ->
                  JSMap.get (items s) i = Some it.
Proof.
  intros H Hb Hen. apply spawn_on_belt_cases in H.
  destruct H as [->|(b0 & prof & item & s1 & b1 & Hb0 & Hen0 & _ & _ & _
                     & Hc & Hb1 & ->)].
  - split; [eauto | auto].
  - assert (Hne : k' <> k) by (intros ->; congruence).
    apply createBrushItem_Some in Hc.
    destruct Hc as (b0' & g & Hb0' & _ & Hi & ->).
    apply brush_item_shape in Hi. destruct Hi as (Hbelt & _).
    split.
    + exists b. split; [|exact Hen]. cbn [belts with_belts with_items with_random].
      now rewrite !JSMapFacts.get_set_other.
    + intros i it. cbn [items with_belts with_items with_random].
      destruct (String.eqb (id item) i) eqn:E.
      * apply String.eqb_eq in E. subst i.
        rewrite JSMapFacts.get_set_same. intros [= <-] Hk. congruence.
      * apply String.eqb_neq in E.
        now rewrite JSMapFacts.get_set_other.
Qed.

Lemma spawnItems_disabled B now s s' k b :
  spawnItems B now s = Some s' ->
  JSMap.get (belts s) k = Some b -> enabled b = false ->
  forall i it, JSMap.get (items s') i = Some it -> beltId it = k ->
               JSMap.get (items s) i = Some it.
Proof.
  unfold spawnItems. generalize (JSMap.keys (belts s)) as l.
  intros l. revert s b. induction l as [|k' l IH]; intros s b; simpl.
  - now intros [= <-].
  - destruct (spawn_on_belt B now s k') as [s1|] eqn:E;
      [|now rewrite fold_spawn_None].
    intros H Hb Hen i it Hi Hk.
    destruct (spawn_on_belt_elsewhere _ _ _ _ _ _ _ E Hb Hen)
      as ((b' & Hb' & Hen') & Hitems).
    apply Hitems; [|exact Hk]. eapply IH; eauto.
Qed.

Lemma spawn_on_belt_total B now s k :
  (tail (random s) =? 0)%float = false ->
  exists s', spawn_on_belt B now s k = Some s'
             /\ tail (random s') = tail (random s).
Proof.
  intros Ht. unfold spawn_on_belt, createBrushItem.
  destruct (JSMap.get (belts s) k) as [b|] eqn:Hb; [|eauto].
  destruct (enabled b) eqn:Hen; cbn [negb orb]; [|eauto].
  destruct (emergencyStop s); [eauto|].
  destruct (JS.gt _ _); [|eauto].
  destruct (JSMap.get (profiles s) (b_profile b)) as [prof|]; [|eauto].
  destruct (brush_item_total B now (config s) (scenarios s) k b prof
              (random s) Ht) as (item & g & -> & Hg).
  cbn [belts with_belts with_items with_random].
  rewrite JSMapFacts.get_set_same. eexists. split; [reflexivity|exact Hg].
Qed.

Lemma spawnItems_total B now s :
  (tail (random s) =? 0)%float = false ->
  exists s', spawnItems B now s = Some s'.
Proof.
  unfold spawnItems. generalize (JSMap.keys (belts s)) as l.
  intros l. revert s. induction l as [|k l IH]; intros s Ht; simpl; [eauto|].
  destruct (spawn_on_belt_total B now s k Ht) as (s1 & -> & Ht1).
  apply IH. congruence.
Qed.

(** C4 (amended). No spawn attempt creates an item on a belt while the
    belt is disabled.  Toggling a belt leaves its [lastSpawn] as it was, so
    after the belt is enabled again the cadence resumes from the time of
    its last spawn, not from the time it was enabled: the first attempt
    after that creates an item exactly when more than 60000/spawn_per_min
    milliseconds have passed since [lastSpawn], the emergency stop is not
    engaged and the profile of the belt is registered, however short the
    time since the belt was enabled (the attempt returns as long as
    [Math.random] does not give 0 for ever); in every other case the
    attempt leaves the state as it is. *)
Theorem spawn_needs_enabled_and_lastSpawn (B : Builtins) (now : float)
    (s : Sim) (k : string) (b : Belt) :
  JSMap.get (belts s) k = Some b ->
  enabled b = false ->
  let spawnInterval := (60 / spawn_per_min b * 1000)%float in
  let s1 := toggleBelt s k in
  spawn_on_belt B now s k = Some s
  /\ ((tail (random s) =? 0)%float = false ->
      exists s', spawnItems B now s = Some s')
  /\ (forall s', spawnItems B now s = Some s' ->
        forall i it, JSMap.get (items s') i = Some it -> beltId it = k ->
                     JSMap.get (items s) i = Some it)
  /\ (existsb (String.eqb k) (dom_belts s) = true ->
      JSMap.get (belts s1) k = Some (belt_with_enabled b true)
      /\ lastSpawn (belt_with_enabled b true) = lastSpawn b
      /\ (JS.gt (now - lastSpawn b) spawnInterval = false ->
          spawn_on_belt B now s1 k = Some s1)
      /\ (emergencyStop s = true -> spawn_on_belt B now s1 k = Some s1)
      /\ (JSMap.get (profiles s) (b_profile b) = None ->
          spawn_on_belt B now s1 k = Some s1)
      /\ (JS.gt (now - lastSpawn b) spawnInterval = true ->
          emergencyStop s = false ->
          (tail (random s) =? 0)%float = false ->
          forall prof, JSMap.get (profiles s) (b_profile b) = Some prof ->
            exists item s2 b2,
              spawn_on_belt B now s1 k = Some s2
              /\ JSMap.get (items s2) (id item) = Some item
              /\ beltId item = k
              /\ JSMap.get (belts s2) k = Some b2
              /\ lastSpawn b2 = now)).
Proof.
  intros Hb Hen spawnInterval s1.
  split; [now apply (spawn_on_belt_disabled B now s k b)|].
  split; [apply spawnItems_total|].
  split; [intros s' H; now apply (spawnItems_disabled B now s s' k b)|].
  intros Hdom.
  assert (Hs1 : s1 = with_belts s (JSMap.set (belts s) k (belt_with_enabled b true))).
  { unfold s1, toggleBelt. now rewrite Hb, Hdom, Hen. }
  assert (Hb1 : JSMap.get (belts s1) k = Some (belt_with_enabled b true)).
  { rewrite Hs1. cbn [belts with_belts]. apply JSMapFacts.get_set_same. }
  split; [exact Hb1|]. split; [reflexivity|].
  split; [|split; [|split]].
  - intros Hgt. unfold spawn_on_belt. rewrite Hb1.
    cbn [enabled belt_with_enabled negb orb lastSpawn spawn_per_min].
    destruct (emergencyStop s1); [reflexivity|].
    fold spawnInterval. now rewrite Hgt.
  - intros Hes. apply spawn_on_belt_estop. rewrite Hs1. exact Hes.
  - intros Hprof. unfold spawn_on_belt. rewrite Hb1.
    cbn [enabled belt_with_enabled negb orb lastSpawn spawn_per_min b_profile].
    assert (Hp1 : profiles s1 = profiles s) by (rewrite Hs1; reflexivity).
    rewrite Hp1, Hprof. destruct (emergencyStop s1); [reflexivity|].
    now destruct (JS.gt _ _).
  - intros Hgt Hes Ht prof Hprof.
    unfold spawn_on_belt, createBrushItem. rewrite Hb1.
    cbn [enabled belt_with_enabled negb orb lastSpawn spawn_per_min b_profile].
    assert (Hes1 : emergencyStop s1 = false) by (rewrite Hs1; exact Hes).
    assert (Hp1 : profiles s1 = profiles s) by (rewrite Hs1; reflexivity).
    assert (Hr1 : random s1 = random s) by (rewrite Hs1; reflexivity).
    rewrite Hes1, Hp1, Hprof. fold spawnInterval. rewrite Hgt.
    destruct (brush_item_total B now (config s1) (scenarios s1) k
                (belt_with_enabled b true) prof (random s1))
      as (item & g & Hi & Hg); [now rewrite Hr1|].
    rewrite Hi. cbn [belts with_belts with_items with_random].
    rewrite JSMapFacts.get_set_same.
    apply brush_item_shape in Hi. destruct Hi as (Hbelt & _).
    eexists item, _, _. split; [reflexivity|].
    cbn [items belts with_belts with_items with_random].
    rewrite !JSMapFacts.get_set_same. repeat split; auto.
Qed.

(** After the restart of the sample belt, the turn of time 2000016 spawns an
    item at once: 17 ms after the last turn in which the belt was stopped,
    where the spawn interval of the belt is 3333 ms. *)
Lemma spawn_right_after_restart :
  run sample_builtins restart_ops sample_sim = Some restart_state
  /\ option_map enabled (JSMap.get (belts restart_state) "B1") = Some true
  /\ item_count restart_state = 1%nat
  /\ (2000016 - 1999999 <? 60 / 18 * 1000)%float = true
  /\ option_map item_count (spawnItems sample_builtins 2000016 restart_state)
     = Some 2%nat.
Proof. repeat split; vm_compute; reflexivity. Qed.

Lemma spawn_needs_enabled_and_lastSpawn_witness :
  spawn_on_belt sample_builtins 1000000 sample_sim "B2" = Some sample_sim
  /\ exists item s2 b2,
       spawn_on_belt sample_builtins 1000000 (toggleBelt sample_sim "B2") "B2"
       = Some s2
       /\ JSMap.get (items s2) (id item) = Some item
       /\ beltId item = "B2"
       /\ JSMap.get (belts s2) "B2" = Some b2
       /\ lastSpawn b2 = 1000000%float.
Proof.
  pose proof (spawn_needs_enabled_and_lastSpawn sample_builtins 1000000
                sample_sim "B2"
                (mkBelt "B2" "Belt 2 (95mm)" 0.25 14 "Brush-95"
                        (mkVec3 (-2) 0 0) false 0 [] zero_counters None)
                eq_refl eq_refl) as (H1 & _ & _ & H4).
  split; [exact H1|].
  destruct (H4 eq_refl) as (_ & _ & _ & _ & _ & H5).
  exact (H5 eq_refl eq_refl eq_refl
            (mkProfile "Brush-95" 95 50 1.0 (2.2, 3.2)%float) eq_refl).
Defined.

(** ** Sensor readings *)

Lemma find_none_not_in (l : list SensorReading) sensorId :
  find (fun r => r_sensorId r =? sensorId) l = None ->
  ~ In sensorId (map r_sensorId l).
Proof.
  intros Hfind Hin. apply in_map_iff in Hin. destruct Hin as (r & Hr & Hin).
  pose proof (find_none _ _ Hfind r Hin) as H. cbn beta in H.
  rewrite Hr, String.eqb_refl in H. discriminate.
Qed.

Lemma NoDup_readings_of item sensorId :
  NoDup (map r_sensorId (sensorReadings item)) ->
  (readings_of sensorId item <= 1)%nat.
Proof.
  unfold readings_of. induction (sensorReadings item) as [|r l IH]; simpl.
  - lia.
  - intros Hnd. inversion Hnd as [|x l' Hnin Hnd']; subst.
    destruct (r_sensorId r =? sensorId) eqn:E; [|auto].
    apply String.eqb_eq in E. simpl.
    assert (Hnil : filter (fun r0 => r_sensorId r0 =? sensorId) l = []).
    { clear - Hnin E. induction l as [|r0 l IH]; simpl; [reflexivity|].
      destruct (r_sensorId r0 =? sensorId) eqn:E0.
      - apply String.eqb_eq in E0. exfalso. apply Hnin. left. congruence.
      - apply IH. intros Hin. apply Hnin. now right. }
    rewrite Hnil. simpl. lia.
Qed.

(** C5. At every moment of every session, every item holds at most one
    reading of each sensor id, however many turns of the loop it spent in
    front of the sensor. *)
Theorem sensor_readings_at_most_once (B : Builtins) (rng : Rng)
    (dom : list string) (ops : list Op) (s : Sim) (k : string) (item : Item)
    (sensorId : string) :
  run B ops (new_QCLineSimulator rng dom) = Some s ->
  In (k, item) (items s) ->
  (readings_of sensorId item <= 1)%nat.
Proof.
  intros Hrun Hin. apply NoDup_readings_of.
  assert (Hall : items_all
                   (fun it => NoDup (map r_sensorId (sensorReadings it))) s).
  { eapply run_items_all; [| | |exact Hrun|apply new_items_all].
    - intros i1 i2 _ Hr. now rewrite Hr.
    - intros it sid t v ty Hnd Hfind. cbn [sensorReadings item_with_readings].
      rewrite map_app. apply NoDup_app; [exact Hnd | |].
      + constructor; [intros []|constructor].
      + intros a Ha [<-|[]]. now apply find_none_not_in in Hfind.
    - intros B' now cfg sc belt b prof g it g' Hi.
      apply brush_item_shape in Hi. destruct Hi as (_ & -> & _). constructor. }
  unfold items_all in Hall. rewrite Forall_forall in Hall.
  exact (Hall _ Hin).
Qed.

Lemma sensor_readings_at_most_once_witness :
  (readings_of "S_SOFT_1" sample_item <= 1)%nat.
Proof.
  apply (sensor_readings_at_most_once sample_builtins (mkRng [] 0.5)
           ["B1"; "B2"; "B3"] sample_ops sample_state
           "item_1000000_500000000" sample_item "S_SOFT_1").
  - vm_compute. reflexivity.
  - left. reflexivity.
Defined.

(** The sample item stayed two turns at the softness sensor and holds one
    reading of it. *)
Example sample_item_one_reading : readings_of "S_SOFT_1" sample_item = 1%nat.
Proof. reflexivity. Qed.

(** ** Simulated softness *)

Lemma simulateSoftness_not_negative B cfg range g v g' :
  simulateSoftness B cfg range g = Some (v, g') ->
  (v <? 0)%float = false
  /\ (PrimFloat.is_nan v = false -> (0 <=? v)%float = true).
Proof.
  intros H. apply simulateSoftness_clamped in H. destruct H as (x & ->).
  apply FloatFacts.Math_max_zero.
Qed.

Lemma brush_item_softness B now cfg sc belt b prof g item g' :
  brush_item B now cfg sc belt b prof g = Some (item, g') ->
  (softness_N item <? 0)%float = false.
Proof.
  intros H. apply brush_item_shape in H.
  destruct H as (_ & _ & _ & soft & g1 & g2 & Hs & ->).
  apply simulateSoftness_not_negative in Hs. destruct Hs as [Hs _].
  destruct (softnessDrift sc); [|exact Hs].
  now apply FloatFacts.add_half_not_negative.
Qed.

(** C10. Whatever the profile, the settings and the outputs of
    [Math.random], the softness that [simulateSoftness] returns is never
    below zero (it is at least zero unless it is NaN), the generator returns
    unless [Math.random] returns zero for ever, and at every moment of every
    session no item has a softness below zero. *)
Theorem softness_never_negative (B : Builtins) :
  (forall cfg range g v g',
     simulateSoftness B cfg range g = Some (v, g') ->
     (v <? 0)%float = false
     /\ (PrimFloat.is_nan v = false -> (0 <=? v)%float = true))
  /\ (forall cfg range, gen_total (simulateSoftness B cfg range))
  /\ (forall rng dom ops s k item,
        run B ops (new_QCLineSimulator rng dom) = Some s ->
        In (k, item) (items s) ->
        (softness_N item <? 0)%float = false).
Proof.
  split; [intros; eapply simulateSoftness_not_negative; eauto|].
  split; [intros; apply simulateSoftness_total|].
  intros rng dom ops s k item Hrun Hin.
  assert (Hall : items_all (fun it => (softness_N it <? 0)%float = false) s).
  { eapply run_items_all; [| | |exact Hrun|apply new_items_all].
    - intros i1 i2 Hs _. now rewrite Hs.
    - intros it sid t v ty H _. exact H.
    - intros B' now cfg sc belt b prof g it g' Hi.
      eapply brush_item_softness, Hi. }
  unfold items_all in Hall. rewrite Forall_forall in Hall.
  exact (Hall _ Hin).
Qed.

Lemma softness_never_negative_witness :
  (softness_N sample_item <? 0)%float = false.
Proof.
  apply (proj2 (proj2 (softness_never_negative sample_builtins))
           (mkRng [] 0.5) ["B1"; "B2"; "B3"] sample_ops sample_state
           "item_1000000_500000000" sample_item).
  - vm_compute. reflexivity.
  - left. reflexivity.
Defined.

(** ** Statistics *)

(** Where the counters change: [processItem] counts a classified item on
    its belt and globally, in the same class. *)

Lemma counters_le_refl c : counters_le c c.
Proof. unfold counters_le. lia. Qed.

Lemma belts_le_refl m : belts_le m m.
Proof.
  unfold belts_le. induction m as [|kv m IH]; constructor; auto.
  split; [reflexivity | apply counters_le_refl].
Qed.

Lemma belts_le_set m k b b' :
  JSMap.get m k = Some b -> counters_le (counters b) (counters b') ->
  belts_le m (JSMap.set m k b').
Proof.
  unfold belts_le. induction m as [|[k0 b0] m IH]; simpl; [discriminate|].
  destruct (String.eqb k0 k).
  - intros [= ->] Hle. constructor; [split; [reflexivity|exact Hle]|].
    apply belts_le_refl.
  - intros Hg Hle. constructor; [|auto].
    split; [reflexivity | apply counters_le_refl].
Qed.

Lemma sum_counter_set f m k b b' :
  JSMap.get m k = Some b ->
  sum_counter f (JSMap.set m k b')
  = (sum_counter f m - f (counters b) + f (counters b'))%Z.
Proof.
  unfold sum_counter. induction m as [|[k0 b0] m IH]; simpl; [discriminate|].
  destruct (String.eqb k0 k); simpl.
  - intros [= ->]. lia.
  - intros Hg. rewrite (IH Hg). lia.
Qed.

Lemma count_result_counts s belt b qc :
  JSMap.get (belts s) belt = Some b ->
  stats_match s ->
  stats_match (count_result s belt qc)
  /\ stats_le (statistics s) (statistics (count_result s belt qc))
  /\ belts_le (belts s) (belts (count_result s belt qc)).
Proof.
  intros Hb (Hok & Hred & Hgreen & Hyellow).
  unfold count_result. rewrite Hb.
  repeat match goal with
         | |- context [if ?c then _ else _] => destruct c
         end;
    unfold stats_match, stats_le, sum_belts;
    cbn [statistics belts with_belts with_statistics okCount redCount
         greenCount yellowCount totalItems];
    rewrite ?(sum_counter_set _ _ _ _ _ Hb);
    cbn [counters belt_with_counters c_ok c_red c_green c_yellow];
    unfold sum_belts in *;
    (split; [lia|]); (split; [lia|]);
    try apply belts_le_refl;
    (eapply belts_le_set; [exact Hb|]);
    unfold counters_le; cbn; lia.
Qed.

(** A classification updates the belt's counter and the global counter of
    the same class together, and decreases none. *)
Lemma processItem_counts now s item b :
  JSMap.get (belts s) (beltId item) = Some b ->
  stats_match s ->
  stats_match (snd (processItem now s item))
  /\ stats_le (statistics s) (statistics (snd (processItem now s item)))
  /\ belts_le (belts s) (belts (snd (processItem now s item))).
Proof.
  intros Hb Hm.
  assert (Hsame : stats_match s /\ stats_le (statistics s) (statistics s)
                  /\ belts_le (belts s) (belts s)).
  { split; [exact Hm|]. split; [unfold stats_le; lia | apply belts_le_refl]. }
  unfold processItem.
  destruct (negb _); [exact Hsame|].
  destruct (forallb _ _); [|exact Hsame]. cbn [snd].
  destruct (count_result_counts s (beltId item) b
              (evaluateQC (profiles s) item) Hb Hm) as (H1 & H2 & H3).
  assert (H : forall s', statistics s'
                         = stats_with_total
                             (statistics (count_result s (beltId item)
                                (evaluateQC (profiles s) item)))
                             (totalItems
                                (statistics (count_result s (beltId item)
                                   (evaluateQC (profiles s) item))) + 1) ->
                         belts s' = belts (count_result s (beltId item)
                                             (evaluateQC (profiles s) item)) ->
                         stats_match s'
                         /\ stats_le (statistics s) (statistics s')
                         /\ belts_le (belts s) (belts s')).
  { intros s' Hst Hbl. unfold stats_match, stats_le, sum_belts in *.
    rewrite Hst, Hbl. cbn. repeat split; try tauto; lia. }
  destruct (negb (qc_status _ =? "OK")); apply H; reflexivity.
Qed.

(** C7 (the code at a failing input). In the sample session one item is
    classified OK on belt B1: the global OK counter and the sum of the belts'
    OK counters are both 1.  [resetConfiguration] then leaves the global
    counter at 1 and puts the counter of B1 back to 0: a belt's counter has
    decreased, and the global counter is no longer the sum of the belts'.
    ([processItem] itself keeps both parts: [processItem_counts].) *)
Theorem resetConfiguration_drops_belt_counters :
  run sample_builtins sample_ops sample_sim = Some sample_state
  /\ okCount (statistics sample_state) = 1%Z
  /\ sum_belts c_ok sample_state = 1%Z
  /\ okCount (statistics (resetConfiguration sample_state)) = 1%Z
  /\ sum_belts c_ok (resetConfiguration sample_state) = 0%Z
  /\ option_map (fun b => c_ok (counters b))
       (JSMap.get (belts (resetConfiguration sample_state)) "B1") = Some 0%Z.
Proof. repeat split; vm_compute; reflexivity. Qed.

(** ** The sample session as a witness *)

Lemma alarm_log_bounded_witness :
  (List.length (alarms sample_state_wrongProduct) <= 20)%nat.
Proof.
  apply (proj1 (alarm_log_bounded sample_builtins (mkRng [] 0.5)
                  ["B1"; "B2"; "B3"]
                  (OpToggleScenario "wrongProduct" :: sample_ops)
                  sample_state_wrongProduct
                  ltac:(vm_compute; reflexivity))).
Defined.

(** The wrong-product session raised one alarm. *)
Example sample_alarm_raised :
  map a_type (alarms sample_state_wrongProduct) = ["SIZE_DOWN"].
Proof. reflexivity. Qed.

(** The stopped sample session still moves its item: from 1.02 to 1.17 in
    half a second at 0.3 per second. *)
Example sample_item_moves_while_stopped :
  map (fun kv => vx (position (snd kv))) (items sample_state_stopped)
  = [1.02]%float
  /\ map (fun kv => vx (position (snd kv))) (items sample_state_stopped_later)
     = [1.17]%float.
Proof. split; reflexivity. Qed.


(** * Further properties of the QC line *)

(** ** NaN in comparisons *)

Module NaNFacts.

Lemma SFcompare_refl f : f <> S754_nan -> SFcompare f f = Some Eq.
Proof.
  destruct f as [s|s| |s m e]; intros Hne; try congruence.
  - reflexivity.
  - now destruct s.
  - simpl. rewrite Z.compare_refl, Pos.compare_cont_refl. now destruct s.
Qed.

Lemma is_nan_spec x : PrimFloat.is_nan x = true <-> Prim2SF x = S754_nan.
Proof.
  unfold PrimFloat.is_nan. rewrite FloatAxioms.eqb_spec. unfold SFeqb. split.
  - intros H. destruct (Prim2SF x) as [s|s| |s m e] eqn:E; try reflexivity;
      rewrite SFcompare_refl in H by discriminate; discriminate.
  - intros ->. reflexivity.
Qed.

Lemma ltb_nan_l x y : PrimFloat.is_nan x = true -> (x <? y)%float = false.
Proof. rewrite is_nan_spec, ltb_spec. now intros ->. Qed.

Lemma ltb_nan_r x y : PrimFloat.is_nan y = true -> (x <? y)%float = false.
Proof.
  rewrite is_nan_spec, ltb_spec. intros ->.
  now destruct (Prim2SF x) as [s|s| |s m e].
Qed.

Lemma leb_nan_l x y : PrimFloat.is_nan x = true -> (x <=? y)%float = false.
Proof. rewrite is_nan_spec, leb_spec. now intros ->. Qed.

Lemma leb_nan_r x y : PrimFloat.is_nan y = true -> (x <=? y)%float = false.
Proof.
  rewrite is_nan_spec, leb_spec. intros ->.
  now destruct (Prim2SF x) as [s|s| |s m e].
Qed.

Lemma sub_nan_l x y :
  PrimFloat.is_nan x = true -> PrimFloat.is_nan (x - y) = true.
Proof. rewrite !is_nan_spec, sub_spec. now intros ->. Qed.

Lemma sub_nan_r x y :
  PrimFloat.is_nan y = true -> PrimFloat.is_nan (x - y) = true.
Proof.
  rewrite !is_nan_spec, sub_spec. intros ->.
  now destruct (Prim2SF x) as [s|s| |s m e].
Qed.

Lemma abs_nan x :
  PrimFloat.is_nan x = true -> PrimFloat.is_nan (PrimFloat.abs x) = true.
Proof. rewrite !is_nan_spec, abs_spec. now intros ->. Qed.

End NaNFacts.

(** ** The verdicts of [evaluateQC] *)

Lemma evaluateQC_in_verdicts profs item :
  In (verdict (evaluateQC profs item)) qc_verdicts.
Proof.
  unfold verdict, evaluateQC, qc_verdicts.
  destruct (JSMap.get profs (profile item)) as [prof|].
  - destruct (p_softness_range_N prof) as [lo hi].
    repeat match goal with
           | |- context [if ?c then _ else _] => destruct c
           end;
      cbn [qc_status qc_bucket]; simpl; tauto.
  - cbn. tauto.
Qed.

(** X1. Whatever the registry and the item, [evaluateQC] returns one of six
    pairs of a status and a bin; an item whose profile name is not
    registered is ERROR in the red bin, and no other item is. *)
Theorem evaluateQC_verdicts (profs : JSMap.t Profile) (item : Item) :
  In (verdict (evaluateQC profs item)) qc_verdicts
  /\ (JSMap.get profs (profile item) = None <->
      qc_status (evaluateQC profs item) = "ERROR").
Proof.
  split; [apply evaluateQC_in_verdicts|].
  unfold evaluateQC.
  destruct (JSMap.get profs (profile item)) as [prof|].
  - destruct (p_softness_range_N prof) as [lo hi].
    repeat match goal with
           | |- context [if ?c then _ else _] => destruct c
           end;
      cbn [qc_status]; split; intros H; discriminate.
  - cbn. split; reflexivity.
Qed.

Lemma evaluateQC_status_not_PROCESSING profs item :
  (qc_status (evaluateQC profs item) =? "PROCESSING") = false.
Proof.
  pose proof (evaluateQC_in_verdicts profs item) as Hin.
  unfold verdict, qc_verdicts in Hin. simpl in Hin.
  repeat destruct Hin as [Hin|Hin]; try contradiction;
    injection Hin as <- _; reflexivity.
Qed.

(** X2. A NaN never fails a check of [evaluateQC]: an item whose softness
    is NaN is not SOFT_FAIL, one whose height is NaN (or whose profile has a
    NaN target or tolerance) is neither OVER_HEIGHT nor UNDER_HEIGHT, one
    whose diameter is NaN is not SIZE_DOWN, and an item whose three
    measurements are NaN is OK. *)
Theorem evaluateQC_NaN_passes (profs : JSMap.t Profile) (item : Item)
    (prof : Profile) :
  JSMap.get profs (profile item) = Some prof ->
  let st := qc_status (evaluateQC profs item) in
  (PrimFloat.is_nan (softness_N item) = true -> st <> "SOFT_FAIL")
  /\ (PrimFloat.is_nan (measured_height_mm item) = true
      \/ PrimFloat.is_nan (p_target_height_mm prof) = true
      \/ PrimFloat.is_nan (p_height_tol_mm prof) = true ->
      st <> "OVER_HEIGHT" /\ st <> "UNDER_HEIGHT")
  /\ (PrimFloat.is_nan (diameter_mm item) = true
      \/ PrimFloat.is_nan (p_diameter_mm prof) = true -> st <> "SIZE_DOWN")
  /\ (PrimFloat.is_nan (softness_N item) = true ->
      PrimFloat.is_nan (measured_height_mm item) = true ->
      PrimFloat.is_nan (diameter_mm item) = true ->
      verdict (evaluateQC profs item) = ("OK", "OK_BIN")).
Proof.
  intros Hget. cbv zeta. unfold verdict, evaluateQC. rewrite Hget.
  unfold JS.gt, JS.ge, JS.Math_abs.
  destruct (p_softness_range_N prof) as [lo hi].
  assert (Hsoft : PrimFloat.is_nan (softness_N item) = true ->
                  (softness_N item <? lo)%float || (hi <? softness_N item)%float
                  = false).
  { intros H. now rewrite NaNFacts.ltb_nan_l, NaNFacts.ltb_nan_r. }
  assert (Hheight : PrimFloat.is_nan (measured_height_mm item) = true
                    \/ PrimFloat.is_nan (p_target_height_mm prof) = true
                    \/ PrimFloat.is_nan (p_height_tol_mm prof) = true ->
                    (p_height_tol_mm prof
                     <=? abs (measured_height_mm item - p_target_height_mm prof))%float
                    = false).
  { intros [H|[H|H]].
    - apply NaNFacts.leb_nan_r, NaNFacts.abs_nan, NaNFacts.sub_nan_l, H.
    - apply NaNFacts.leb_nan_r, NaNFacts.abs_nan, NaNFacts.sub_nan_r, H.
    - apply NaNFacts.leb_nan_l, H. }
  assert (Hsize : PrimFloat.is_nan (diameter_mm item) = true
                  \/ PrimFloat.is_nan (p_diameter_mm prof) = true ->
                  (1 <? abs (diameter_mm item - p_diameter_mm prof))%float
                  = false).
  { intros [H|H].
    - apply NaNFacts.ltb_nan_r, NaNFacts.abs_nan, NaNFacts.sub_nan_l, H.
    - apply NaNFacts.ltb_nan_r, NaNFacts.abs_nan, NaNFacts.sub_nan_r, H. }
  split; [|split; [|split]].
  - intros H. rewrite (Hsoft H).
    repeat match goal with
           | |- context [if ?c then _ else _] => destruct c
           end; discriminate.
  - intros H. rewrite (Hheight H).
    repeat match goal with
           | |- context [if ?c then _ else _] => destruct c
           end; split; discriminate.
  - intros H. rewrite (Hsize H).
    repeat match goal with
           | |- context [if ?c then _ else _] => destruct c
           end; discriminate.
  - intros H1 H2 H3.
    rewrite (Hsoft H1), (Hheight (or_introl H2)), (Hsize (or_introl H3)).
    reflexivity.
Qed.

Lemma evaluateQC_NaN_passes_witness :
  verdict (evaluateQC initial_profiles (brush64_item nan nan nan))
  = ("OK", "OK_BIN").
Proof.
  exact (proj2 (proj2 (proj2
           (evaluateQC_NaN_passes initial_profiles (brush64_item nan nan nan)
              (mkProfile "Brush-64" 64 45 1.0 (2.0, 3.5)%float) eq_refl)))
           eq_refl eq_refl eq_refl).
Defined.

(** ** [processItem] classifies once *)

(** X3. [processItem] is idempotent: running it again on its own result
    changes neither the item nor the simulator, so an item is classified,
    counted and reported at most once; an item that is not PROCESSING is
    left alone. *)
Theorem processItem_idempotent (now now' : float) (s : Sim) (item : Item) :
  processItem now' (snd (processItem now s item)) (fst (processItem now s item))
  = processItem now s item
  /\ ((status item =? "PROCESSING") = false ->
      processItem now s item = (item, s)).
Proof.
  split.
  - unfold processItem at 2 3 4.
    destruct (negb (status item =? "PROCESSING")) eqn:Hst.
    + cbn [fst snd]. unfold processItem. now rewrite Hst.
    + destruct (forallb _ _) eqn:Hall.
      * cbn [fst snd]. unfold processItem.
        cbn [status item_with_qc].
        now rewrite evaluateQC_status_not_PROCESSING.
      * cbn [fst snd]. unfold processItem. now rewrite Hst, Hall.
  - intros Hst. unfold processItem. now rewrite Hst.
Qed.

(** ** The statistics *)

Lemma count_result_total s belt qc :
  In (verdict qc) qc_verdicts ->
  stats_total_ok (statistics s) ->
  stats_total_ok
    (stats_with_total (statistics (count_result s belt qc))
       (totalItems (statistics (count_result s belt qc)) + 1)).
Proof.
  unfold verdict, qc_verdicts, stats_total_ok, count_result.
  intros Hin Hok. simpl in Hin.
  repeat destruct Hin as [Hin|Hin]; try contradiction;
    injection Hin as <- <-; cbn [String.eqb Ascii.eqb Bool.eqb];
    destruct (JSMap.get (belts s) belt); cbn; lia.
Qed.

Lemma processItem_total now s item :
  stats_total_ok (statistics s) ->
  stats_total_ok (statistics (snd (processItem now s item))).
Proof.
  intros Hok. unfold processItem.
  destruct (negb _); [exact Hok|].
  destruct (forallb _ _); [|exact Hok]. cbn [snd].
  pose proof (count_result_total s (beltId item)
                (evaluateQC (profiles s) item)
                (evaluateQC_in_verdicts _ _) Hok) as H.
  destruct (negb (qc_status _ =? "OK")); exact H.
Qed.

Lemma checkSensorInteractions_statistics now s item :
  statistics (snd (checkSensorInteractions now s item)) = statistics s.
Proof. untouched checkSensorInteractions. Qed.

Lemma moveItemToBin_statistics s item :
  statistics (moveItemToBin s item) = statistics s.
Proof. untouched moveItemToBin. Qed.

Lemma removeItem_statistics s k : statistics (removeItem s k) = statistics s.
Proof. untouched removeItem. Qed.

Lemma update_item_total now deltaTime s k :
  stats_total_ok (statistics s) ->
  stats_total_ok (statistics (update_item now deltaTime s k)).
Proof.
  intros Hok.
  destruct (JSMap.get (items s) k) as [item|] eqn:Hget.
  2:{ rewrite update_item_skip; [exact Hok | now rewrite Hget]. }
  destruct (status item =? "COMPLETED") eqn:Hst.
  { rewrite update_item_skip; [exact Hok | now rewrite Hget]. }
  rewrite (update_item_unfold now deltaTime s k item Hget Hst). cbv zeta.
  match goal with
  | |- context [checkSensorInteractions now s ?m] =>
      set (r1 := checkSensorInteractions now s m)
  end.
  set (r2 := processItem now (snd r1) (fst r1)).
  assert (H2 : stats_total_ok (statistics (snd r2))).
  { apply processItem_total. unfold r1.
    now rewrite checkSensorInteractions_statistics. }
  repeat match goal with
         | |- context [if ?c then _ else _] => destruct c
         end;
    rewrite ?removeItem_statistics, ?moveItemToBin_statistics; exact H2.
Qed.

Lemma spawn_on_belt_statistics B now s belt s' :
  spawn_on_belt B now s belt = Some s' -> statistics s' = statistics s.
Proof.
  intros H. apply spawn_on_belt_cases in H.
  destruct H as [->|(b & prof & item & s1 & b1 & _ & _ & _ & _ & _ & Hc & _ & ->)];
    [reflexivity|].
  apply createBrushItem_Some in Hc. destruct Hc as (b0 & g & _ & _ & _ & ->).
  reflexivity.
Qed.

Lemma spawnItems_statistics B now s s' :
  spawnItems B now s = Some s' -> statistics s' = statistics s.
Proof.
  unfold spawnItems. generalize (JSMap.keys (belts s)) as l.
  intros l. revert s. induction l as [|k l IH]; intros s; simpl.
  - now intros [= <-].
  - destruct (spawn_on_belt B now s k) as [s1|] eqn:E.
    + intros H. rewrite (IH _ H). eapply spawn_on_belt_statistics, E.
    + now rewrite fold_spawn_None.
Qed.

Lemma toggleBelt_statistics s belt :
  statistics (toggleBelt s belt) = statistics s.
Proof. untouched toggleBelt. Qed.

Lemma toggleEmergencyStop_statistics s :
  statistics (toggleEmergencyStop s) = statistics s.
Proof.
  unfold toggleEmergencyStop.
  destruct (emergencyStop (with_emergencyStop s _));
    [rewrite fold_estop_belt_spec | rewrite fold_restart_belt_spec];
    reflexivity.
Qed.

Lemma step_total B op s s' :
  step B op s = Some s' ->
  stats_total_ok (statistics s) -> stats_total_ok (statistics s').
Proof.
  destruct op; cbn [step]; try (intros [= <-]); intros Hok; try exact Hok.
  - unfold frame in *. destruct (isPaused s); [now injection Hok as <-|].
    destruct (spawnItems B now s) as [s1|] eqn:E; [|discriminate].
    intros H. injection Hok as <-.
    unfold updateItems. generalize (JSMap.keys (items s1)) as l. intros l.
    assert (H1 : stats_total_ok (statistics s1))
      by now rewrite (spawnItems_statistics _ _ _ _ E).
    revert H1. generalize s1. clear.
    induction l as [|k l IH]; intros s H; simpl; [exact H|].
    apply IH, update_item_total, H.
  - unfold animateTobin_finish. break_matches; exact Hok.
  - now rewrite toggleBelt_statistics.
  - unfold setBeltSpeed. break_matches; exact Hok.
  - unfold setBeltProfile. break_matches; exact Hok.
  - now rewrite toggleEmergencyStop_statistics.
  - unfold toggleScenario. break_matches; exact Hok.
  - unfold saveProfileChanges. break_matches; exact Hok.
Qed.

(** X4. At every moment of every session (resets of the configuration
    included) the total of the statistics is the sum of the four class
    counters: every classified item is counted in exactly one class. *)
Theorem statistics_total_is_sum (B : Builtins) (rng : Rng)
    (dom : list string) (ops : list Op) (s : Sim) :
  run B ops (new_QCLineSimulator rng dom) = Some s ->
  totalItems (statistics s)
  = (okCount (statistics s) + redCount (statistics s)
     + greenCount (statistics s) + yellowCount (statistics s))%Z.
Proof.
  assert (H : forall s0, stats_total_ok (statistics s0) ->
                         run B ops s0 = Some s ->
                         stats_total_ok (statistics s)).
  { induction ops as [|op ops IH]; intros s0 Hok; simpl.
    - now intros [= <-].
    - destruct (step B op s0) as [s1|] eqn:E; [|discriminate].
      apply IH. eapply step_total; eauto. }
  apply H. reflexivity.
Qed.

Lemma statistics_total_is_sum_witness :
  totalItems (statistics sample_state_wrongProduct)
  = (okCount (statistics sample_state_wrongProduct)
     + redCount (statistics sample_state_wrongProduct)
     + greenCount (statistics sample_state_wrongProduct)
     + yellowCount (statistics sample_state_wrongProduct))%Z.
Proof.
  apply (statistics_total_is_sum sample_builtins (mkRng [] 0.5)
           ["B1"; "B2"; "B3"]
           (OpToggleScenario "wrongProduct" :: sample_ops)).
  vm_compute. reflexivity.
Defined.

(** ** The contents of the alarm log *)

Lemma createAlarm_alarm_ok now s item qc :
  In (verdict qc) qc_verdicts ->
  (qc_status qc =? "OK") = false ->
  Forall alarm_ok (alarms s) ->
  Forall alarm_ok (alarms (createAlarm now s item qc)).
Proof.
  intros Hin Hnok Hall. unfold createAlarm. cbn [alarms with_alarms].
  assert (Hnew : Forall alarm_ok
            (mkAlarm now now (beltId item) (id item) (qc_status qc)
               (beltId item, qc_reason qc)
               (if qc_bucket qc =? "YELLOW_BIN" then "yellow"
                else if qc_bucket qc =? "GREEN_BIN" then "green" else "red")
             :: alarms s)).
  { constructor; [|exact Hall]. unfold alarm_ok. split; [|reflexivity].
    unfold verdict, qc_verdicts in Hin. simpl in Hin.
    repeat destruct Hin as [Hin|Hin]; try contradiction;
      injection Hin as Hs Hb; rewrite <- Hs, <- Hb in *;
      try discriminate; cbn; tauto. }
  destruct (20 <? _)%nat; [|exact Hnew].
  rewrite <- (firstn_skipn 20) in Hnew. apply Forall_app in Hnew.
  exact (proj1 Hnew).
Qed.

Lemma processItem_alarm_ok now s item :
  Forall alarm_ok (alarms s) ->
  Forall alarm_ok (alarms (snd (processItem now s item))).
Proof.
  intros H. unfold processItem.
  destruct (negb _); [exact H|].
  destruct (forallb _ _); [|exact H]. cbn [snd].
  destruct (qc_status (evaluateQC (profiles s) item) =? "OK") eqn:E;
    cbn [negb].
  - cbn [alarms with_statistics]. now rewrite count_result_alarms.
  - apply createAlarm_alarm_ok; [apply evaluateQC_in_verdicts | exact E |].
    cbn [alarms with_statistics]. now rewrite count_result_alarms.
Qed.

Lemma update_item_alarm_ok now deltaTime s k :
  Forall alarm_ok (alarms s) ->
  Forall alarm_ok (alarms (update_item now deltaTime s k)).
Proof.
  intros Hok.
  destruct (JSMap.get (items s) k) as [item|] eqn:Hget.
  2:{ rewrite update_item_skip; [exact Hok | now rewrite Hget]. }
  destruct (status item =? "COMPLETED") eqn:Hst.
  { rewrite update_item_skip; [exact Hok | now rewrite Hget]. }
  rewrite (update_item_unfold now deltaTime s k item Hget Hst). cbv zeta.
  match goal with
  | |- context [checkSensorInteractions now s ?m] =>
      set (r1 := checkSensorInteractions now s m)
  end.
  set (r2 := processItem now (snd r1) (fst r1)).
  assert (H2 : Forall alarm_ok (alarms (snd r2))).
  { apply processItem_alarm_ok. unfold r1.
    now rewrite checkSensorInteractions_alarms. }
  repeat match goal with
         | |- context [if ?c then _ else _] => destruct c
         end;
    rewrite ?removeItem_alarms, ?moveItemToBin_alarms; exact H2.
Qed.

Lemma step_alarm_ok B op s s' :
  step B op s = Some s' ->
  Forall alarm_ok (alarms s) -> Forall alarm_ok (alarms s').
Proof.
  destruct op; cbn [step]; try (intros [= <-]); intros Hok; try exact Hok.
  - unfold frame in *. destruct (isPaused s); [now injection Hok as <-|].
    destruct (spawnItems B now s) as [s1|] eqn:E; [|discriminate].
    intros H. injection Hok as <-.
    unfold updateItems. generalize (JSMap.keys (items s1)) as l. intros l.
    assert (H1 : Forall alarm_ok (alarms s1))
      by now rewrite (spawnItems_alarms _ _ _ _ E).
    revert H1. generalize s1. clear.
    induction l as [|k l IH]; intros s H; simpl; [exact H|].
    apply IH, update_item_alarm_ok, H.
  - unfold animateTobin_finish. break_matches; exact Hok.
  - now rewrite toggleBelt_alarms.
  - unfold setBeltSpeed. break_matches; exact Hok.
  - unfold setBeltProfile. break_matches; exact Hok.
  - now rewrite toggleEmergencyStop_alarms.
  - unfold toggleScenario. break_matches; exact Hok.
  - constructor.
  - unfold saveProfileChanges. break_matches; exact Hok.
Qed.

(** X5. At every moment of every session, every alarm of the log reports a
    verdict that is not OK, with the severity of the verdict's bin (yellow
    for SOFT_FAIL, green for OVER_HEIGHT, red for UNDER_HEIGHT, SIZE_DOWN
    and ERROR), and its message names the alarm's own belt. *)
Theorem alarms_report_failures (B : Builtins) (rng : Rng)
    (dom : list string) (ops : list Op) (s : Sim) (a : Alarm) :
  run B ops (new_QCLineSimulator rng dom) = Some s ->
  In a (alarms s) ->
  alarm_ok a /\ a_type a <> "OK".
Proof.
  intros Hrun Hin.
  assert (H : forall s0, Forall alarm_ok (alarms s0) ->
                         run B ops s0 = Some s ->
                         Forall alarm_ok (alarms s)).
  { clear. induction ops as [|op ops IH]; intros s0 Hok; simpl.
    - now intros [= <-].
    - destruct (step B op s0) as [s1|] eqn:E; [|discriminate].
      apply IH. eapply step_alarm_ok; eauto. }
  specialize (H (new_QCLineSimulator rng dom) (Forall_nil _) Hrun).
  rewrite Forall_forall in H.
  split; [exact (H a Hin)|].
  destruct (H a Hin) as [Hty _]. simpl in Hty. intros Heq.
  rewrite Heq in Hty.
  repeat destruct Hty as [Hty|Hty]; try contradiction; discriminate.
Qed.

(** ** The statistics only grow *)

Lemma stats_le_refl t : stats_le t t.
Proof. unfold stats_le. lia. Qed.

Lemma stats_le_trans t1 t2 t3 : stats_le t1 t2 -> stats_le t2 t3 -> stats_le t1 t3.
Proof. unfold stats_le. lia. Qed.

Lemma count_result_le s belt qc :
  stats_le (statistics s) (statistics (count_result s belt qc)).
Proof.
  unfold count_result.
  repeat match goal with
         | |- context [if ?c then _ else _] => destruct c
         end;
    try apply stats_le_refl;
    destruct (JSMap.get (belts s) belt); unfold stats_le; cbn; lia.
Qed.

Lemma processItem_le now s item :
  stats_le (statistics s) (statistics (snd (processItem now s item))).
Proof.
  unfold processItem.
  destruct (negb _); [apply stats_le_refl|].
  destruct (forallb _ _); [|apply stats_le_refl]. cbn [snd].
  pose proof (count_result_le s (beltId item) (evaluateQC (profiles s) item))
    as H.
  destruct (negb (qc_status _ =? "OK"));
    unfold stats_le in *;
    cbn [statistics createAlarm with_alarms with_statistics stats_with_total
         totalItems okCount redCount greenCount yellowCount beltId
         item_with_qc];
    cbn [beltId item_with_qc] in H; lia.
Qed.

Lemma update_item_le now deltaTime s k :
  stats_le (statistics s) (statistics (update_item now deltaTime s k)).
Proof.
  destruct (JSMap.get (items s) k) as [item|] eqn:Hget.
  2:{ rewrite update_item_skip; [apply stats_le_refl | now rewrite Hget]. }
  destruct (status item =? "COMPLETED") eqn:Hst.
  { rewrite update_item_skip; [apply stats_le_refl | now rewrite Hget]. }
  rewrite (update_item_unfold now deltaTime s k item Hget Hst). cbv zeta.
  match goal with
  | |- context [checkSensorInteractions now s ?m] =>
      set (r1 := checkSensorInteractions now s m)
  end.
  set (r2 := processItem now (snd r1) (fst r1)).
  assert (H2 : stats_le (statistics s) (statistics (snd r2))).
  { unfold r2. rewrite <- (checkSensorInteractions_statistics now s
                             (item_with_position_x item
                                (vx (position item)
                                 + velocity item * deltaTime
                                   * simulationSpeed s)%float)) at 1.
    apply processItem_le. }
  repeat match goal with
         | |- context [if ?c then _ else _] => destruct c
         end;
    rewrite ?removeItem_statistics, ?moveItemToBin_statistics; exact H2.
Qed.

Lemma step_le B op s s' :
  step B op s = Some s' -> stats_le (statistics s) (statistics s').
Proof.
  destruct op; cbn [step]; try (intros [= <-]); try apply stats_le_refl.
  - unfold frame. destruct (isPaused s); [intros [= <-]; apply stats_le_refl|].
    destruct (spawnItems B now s) as [s1|] eqn:E; [|discriminate].
    intros [= <-]. rewrite <- (spawnItems_statistics _ _ _ _ E).
    unfold updateItems. generalize (JSMap.keys (items s1)) as l.
    intros l. generalize s1 as s0. clear.
    induction l as [|k l IH]; intros s0; simpl; [apply stats_le_refl|].
    eapply stats_le_trans; [apply update_item_le | apply IH].
  - unfold animateTobin_finish. break_matches; apply stats_le_refl.
  - rewrite toggleBelt_statistics. apply stats_le_refl.
  - unfold setBeltSpeed. break_matches; apply stats_le_refl.
  - unfold setBeltProfile. break_matches; apply stats_le_refl.
  - rewrite toggleEmergencyStop_statistics. apply stats_le_refl.
  - unfold toggleScenario. break_matches; apply stats_le_refl.
  - unfold saveProfileChanges. break_matches; apply stats_le_refl.
Qed.

(** X6. The statistics only grow: along every session, resets of the
    configuration included, none of the five counters of the statistics
    (total, OK, red, green, yellow) ever decreases; no handler clears
    them. *)
Theorem statistics_never_decrease (B : Builtins) (ops : list Op)
    (s s' : Sim) :
  run B ops s = Some s' ->
  stats_le (statistics s) (statistics s').
Proof.
  revert s. induction ops as [|op ops IH]; intros s; simpl.
  - intros [= <-]. apply stats_le_refl.
  - destruct (step B op s) as [s1|] eqn:E; [|discriminate].
    intros H. eapply stats_le_trans; [eapply step_le, E | apply IH, H].
Qed.

Lemma statistics_never_decrease_witness :
  stats_le (statistics sample_sim) (statistics sample_state).
Proof.
  apply (statistics_never_decrease sample_builtins sample_ops).
  vm_compute. reflexivity.
Defined.

Lemma alarms_report_failures_witness :
  alarm_ok sample_alarm /\ a_type sample_alarm <> "OK".
Proof.
  apply (alarms_report_failures sample_builtins (mkRng [] 0.5)
           ["B1"; "B2"; "B3"]
           (OpToggleScenario "wrongProduct" :: sample_ops)
           sample_state_wrongProduct sample_alarm).
  - vm_compute. reflexivity.
  - left. reflexivity.
Defined.

(** ** Items in [updateItems] *)

Lemma get_delete_same {V} (m : JSMap.t V) k :
  NoDup (JSMap.keys m) -> JSMap.get (JSMap.delete m k) k = None.
Proof.
  unfold JSMap.keys. induction m as [|[k0 v0] m IH]; simpl; intros Hnd;
    [reflexivity|].
  inversion Hnd as [|x l Hnin Hnd']; subst.
  destruct (String.eqb k0 k) eqn:E.
  - apply String.eqb_eq in E. subst k0.
    destruct (JSMap.get m k) as [v|] eqn:Hg; [|reflexivity].
    exfalso. apply Hnin.
    exact (JSMapFacts.In_keys _ _ _ (JSMapFacts.get_In _ _ _ Hg)).
  - simpl. rewrite E. auto.
Qed.

Lemma fold_update_item_completed now deltaTime l s k item :
  JSMap.get (items s) k = Some item ->
  (status item =? "COMPLETED") = true ->
  JSMap.get (items (fold_left (update_item now deltaTime) l s)) k = Some item.
Proof.
  revert s. induction l as [|k' l IH]; intros s Hget Hst; simpl; [exact Hget|].
  apply IH; [|exact Hst].
  destruct (String.eqb k' k) eqn:E.
  - apply String.eqb_eq in E. subst k'.
    rewrite update_item_skip; [exact Hget | now rewrite Hget].
  - apply String.eqb_neq in E. now rewrite update_item_get_other.
Qed.

(** X7. [updateItems] never touches a COMPLETED item: it is not moved, not
    seen by the sensors, and not removed, however far it is; a completed
    item stays in [this.items] through every turn of [updateItems]. *)
Theorem updateItems_keeps_completed (now deltaTime : float) (s : Sim)
    (k : string) (item : Item) :
  JSMap.get (items s) k = Some item ->
  status item = "COMPLETED" ->
  JSMap.get (items (updateItems now deltaTime s)) k = Some item.
Proof.
  intros Hget Hst. apply fold_update_item_completed; [exact Hget|].
  now rewrite Hst.
Qed.

Lemma updateItems_keeps_completed_witness :
  JSMap.get (items (updateItems 1000500 100 sample_state_completed))
            "item_1000000_500000000"
  = Some sample_item_completed.
Proof.
  apply (updateItems_keeps_completed 1000500 100 sample_state_completed
           "item_1000000_500000000" sample_item_completed);
    reflexivity.
Defined.

Lemma removeItem_get_self s k :
  NoDup (JSMap.keys (items s)) -> JSMap.get (items (removeItem s k)) k = None.
Proof.
  intros Hnd. unfold removeItem.
  destruct (JSMap.get (items s) k) as [item|] eqn:Hg; [|exact Hg].
  destruct (JSMap.get (belts s) (beltId item));
    cbn [items with_items with_belts]; now apply get_delete_same.
Qed.

Lemma fold_update_item_items_NoDup now deltaTime l s :
  NoDup (JSMap.keys (items s)) ->
  NoDup (JSMap.keys (items (fold_left (update_item now deltaTime) l s))).
Proof.
  revert s. induction l as [|k l IH]; intros s H; simpl; [exact H|].
  apply IH, update_item_items_NoDup, H.
Qed.

Lemma update_item_get_None now deltaTime s k k' :
  JSMap.get (items s) k' = None ->
  JSMap.get (items (update_item now deltaTime s k)) k' = None.
Proof.
  intros Hnone. destruct (String.eqb k k') eqn:E.
  - apply String.eqb_eq in E. subst k'.
    rewrite update_item_skip; [exact Hnone | now rewrite Hnone].
  - apply String.eqb_neq in E. now rewrite update_item_get_other.
Qed.

Lemma fold_update_item_get_None now deltaTime l s k' :
  JSMap.get (items s) k' = None ->
  JSMap.get (items (fold_left (update_item now deltaTime) l s)) k' = None.
Proof.
  revert s. induction l as [|k l IH]; intros s H; simpl; [exact H|].
  apply IH, update_item_get_None, H.
Qed.

(** X8. After a turn of [updateItems] no item that is still in transit is
    beyond the end of the line: every item left in [this.items] is either
    COMPLETED or at a position that is not greater than 4. *)
Theorem updateItems_transit_bound (now deltaTime : float) (s : Sim)
    (k : string) (item' : Item) :
  NoDup (JSMap.keys (items s)) ->
  JSMap.get (items (updateItems now deltaTime s)) k = Some item' ->
  status item' = "COMPLETED" \/ JS.gt (vx (position item')) 4 = false.
Proof.
  intros Hnd Hget'. unfold updateItems in Hget'.
  destruct (JSMap.get (items s) k) as [item|] eqn:Hget.
  2:{ rewrite fold_update_item_get_None in Hget' by exact Hget. discriminate. }
  assert (Hin : In k (JSMap.keys (items s)))
    by (eapply JSMapFacts.In_keys, JSMapFacts.get_In, Hget).
  apply in_split in Hin. destruct Hin as (l1 & l2 & Hl).
  rewrite Hl in Hget'. rewrite Hl in Hnd.
  pose proof (NoDup_remove_2 _ _ _ Hnd) as Hnin. rewrite in_app_iff in Hnin.
  rewrite fold_left_app in Hget'. simpl in Hget'.
  rewrite fold_update_item_get_notin in Hget' by tauto.
  set (s1 := fold_left (update_item now deltaTime) l1 s) in *.
  assert (Hget1 : JSMap.get (items s1) k = Some item).
  { unfold s1. rewrite fold_update_item_get_notin by tauto. exact Hget. }
  assert (Hnd1 : NoDup (JSMap.keys (items s1))).
  { unfold s1. apply fold_update_item_items_NoDup.
    rewrite <- Hl in Hnd. exact Hnd. }
  destruct (status item =? "COMPLETED") eqn:Hst.
  - rewrite update_item_skip in Hget' by now rewrite Hget1.
    rewrite Hget1 in Hget'. injection Hget' as <-.
    left. now apply String.eqb_eq.
  - destruct (JS.gt (vx (position item)
                     + velocity item * deltaTime * simulationSpeed s1)%float 4)
      eqn:Hx.
    + exfalso.
      rewrite (update_item_unfold now deltaTime s1 k item Hget1 Hst) in Hget'.
      cbv zeta in Hget'.
      rewrite processItem_position, checkSensorInteractions_position in Hget'.
      cbn [position item_with_position_x vx] in Hget'. rewrite Hx in Hget'.
      rewrite removeItem_get_self in Hget'; [discriminate|].
      destruct (_ && _); rewrite ?moveItemToBin_items; cbn [items with_items];
        apply JSMapFacts.NoDup_keys_set;
        now rewrite processItem_items, checkSensorInteractions_items.
    + destruct (update_item_get_self now deltaTime s1 k item Hget1 Hst Hx)
        as [Hg Hp].
      rewrite Hg in Hget'. injection Hget' as <-.
      right. now rewrite Hp.
Qed.

Lemma updateItems_transit_bound_witness :
  status sample_item = "COMPLETED"
  \/ JS.gt (vx (position sample_item)) 4 = false.
Proof.
  apply (updateItems_transit_bound 1000000 0 sample_state
           "item_1000000_500000000" sample_item).
  - vm_compute. repeat constructor. intros [].
  - vm_compute. reflexivity.
Defined.

(** ** [checkSensorInteractions] *)

Lemma check_sensor_cases now item sens sensorId sensor :
  check_sensor now (item, sens) (sensorId, sensor)
  = if sensor_sees item sensor then
      match find (fun r => r_sensorId r =? sensorId) (sensorReadings item) with
      | Some _ => (item, sens)
      | None =>
          (item_with_readings item
             (sensorReadings item
                ++ [mkReading sensorId now
                              (sensor_value (s_type sensor) item)
                              (s_type sensor)]),
           JSMap.set sens sensorId
             (sensor_with_lastReading sensor
                (sensor_value (s_type sensor) item)))
      end
    else (item, sens).
Proof.
  unfold check_sensor, sensor_sees.
  destruct (s_beltId sensor =? beltId item); cbn [negb andb]; reflexivity.
Qed.

Lemma item_with_readings_same item :
  item_with_readings item (sensorReadings item) = item.
Proof. now destruct item. Qed.

Lemma with_sensors_same s : with_sensors s (sensors s) = s.
Proof. now destruct s. Qed.

Lemma find_app_some {A} (f : A -> bool) l l' :
  find f l <> None -> find f (l ++ l') <> None.
Proof.
  induction l as [|a l IH]; simpl; [congruence|].
  destruct (f a); [discriminate | exact IH].
Qed.

Lemma find_app_last {A} (f : A -> bool) l a :
  f a = true -> find f (l ++ [a]) <> None.
Proof.
  intros Ha. induction l as [|b l IH]; simpl.
  - now rewrite Ha.
  - destruct (f b); [discriminate | exact IH].
Qed.

(** The readings after the sensors of [l] have been visited: the readings
    before, then the new ones; every sensor of [l] that sees the item has a
    reading. *)
Lemma fold_check_sensor_appends now item0 all_sens l readings sens :
  incl l all_sens ->
  exists added sens',
    fold_left (check_sensor now) l (item_with_readings item0 readings, sens)
    = (item_with_readings item0 (readings ++ added), sens')
    /\ Forall (reading_of now all_sens item0) added
    /\ all_read item0 (JSMap.view sensor_place l) (readings ++ added).
Proof.
  revert readings sens. induction l as [|[sensorId sensor] l IH];
    intros readings sens Hincl; cbn [fold_left].
  - exists [], sens. rewrite app_nil_r. repeat split; constructor.
  - assert (Hincl' : incl l all_sens) by (intros x Hx; apply Hincl; now right).
    rewrite check_sensor_cases.
    change (sensor_sees (item_with_readings item0 readings) sensor)
      with (sensor_sees item0 sensor).
    cbn [sensorReadings item_with_readings].
    assert (Hhead : forall rs added,
              (sensor_sees item0 sensor = true ->
               find (fun r => r_sensorId r =? sensorId) rs <> None) ->
              all_read item0 (JSMap.view sensor_place l) (rs ++ added) ->
              all_read item0
                (JSMap.view sensor_place ((sensorId, sensor) :: l))
                (rs ++ added)).
    { intros rs added Hfound Hall. constructor; [|exact Hall].
      cbn [fst snd sensor_place]. intros Hsees.
      apply find_app_some, Hfound. exact Hsees. }
    destruct (sensor_sees item0 sensor) eqn:Hsees.
    + destruct (find (fun r => r_sensorId r =? sensorId) readings) eqn:Hfind.
      * destruct (IH readings sens Hincl') as (added & sens' & Hf & Ha & Hr).
        exists added, sens'. repeat split; auto.
        apply Hhead; [|exact Hr]. intros _. rewrite Hfind. discriminate.
      * change (item_with_readings (item_with_readings item0 readings) ?r)
          with (item_with_readings item0 r).
        match goal with
        | |- context [fold_left _ l (item_with_readings item0 ?rs, ?sn)] =>
            destruct (IH rs sn Hincl') as (added & sens' & Hf & Ha & Hr)
        end.
        eexists (_ :: added), sens'. split; [|split].
        -- rewrite Hf. now rewrite <- app_assoc.
        -- constructor; [|exact Ha].
           split; [reflexivity|]. exists sensor. cbn.
           repeat split; auto. apply Hincl. now left.
        -- rewrite <- app_assoc in Hr. cbn [app] in Hr.
           constructor; [|exact Hr].
           cbn [fst snd sensor_place]. intros _.
           change (?r :: added) with ([r] ++ added). rewrite app_assoc.
           apply find_app_some, find_app_last. cbn. apply String.eqb_refl.
    + destruct (IH readings sens Hincl') as (added & sens' & Hf & Ha & Hr).
      exists added, sens'. repeat split; auto.
      apply Hhead; [|exact Hr]. discriminate.
Qed.


(** The sensors keep their keys, belts and positions. *)
Lemma fold_check_sensor_places now all_sens l item sens :
  NoDup (JSMap.keys all_sens) ->
  incl l all_sens ->
  JSMap.view sensor_place sens = JSMap.view sensor_place all_sens ->
  JSMap.view sensor_place (snd (fold_left (check_sensor now) l (item, sens)))
  = JSMap.view sensor_place all_sens.
Proof.
  intros Hnd. revert item sens.
  induction l as [|[sensorId sensor] l IH]; intros item sens Hincl Hview;
    cbn [fold_left]; [exact Hview|].
  assert (Hincl' : incl l all_sens) by (intros x Hx; apply Hincl; now right).
  rewrite check_sensor_cases.
  destruct (sensor_sees item sensor); [|now apply IH].
  destruct (find _ _); [now apply IH|].
  apply IH; [exact Hincl'|]. rewrite <- Hview.
  assert (Hin : In (sensorId, sensor) all_sens) by (apply Hincl; now left).
  assert (Hget : JSMap.get (JSMap.view sensor_place all_sens) sensorId
                 = Some (sensor_place sensor)).
  { clear - Hnd Hin. unfold JSMap.keys in Hnd.
    induction all_sens as [|[k0 v0] m IH]; simpl in *; [contradiction|].
    inversion Hnd as [|x l' Hnin Hnd']; subst.
    destruct Hin as [Heq|Hin].
    - injection Heq as -> ->. now rewrite String.eqb_refl.
    - destruct (String.eqb k0 sensorId) eqn:E; [|auto].
      apply String.eqb_eq in E. subst k0. exfalso. apply Hnin.
      change sensorId with (fst (sensorId, sensor)). now apply in_map. }
  rewrite <- Hview, JSMapFacts.get_view in Hget.
  destruct (JSMap.get sens sensorId) as [x|] eqn:Hx; [|discriminate].
  eapply JSMapFacts.view_set; [exact Hx|].
  unfold sensor_place in *. injection Hget as Hb Hp.
  destruct sensor; cbn in *. congruence.
Qed.

(** A pass over sensors that have all given their reading changes
    nothing. *)
Lemma fold_check_sensor_all_read now l item sens :
  all_read item (JSMap.view sensor_place l) (sensorReadings item) ->
  fold_left (check_sensor now) l (item, sens) = (item, sens).
Proof.
  induction l as [|[sensorId sensor] l IH]; intros Hall; cbn [fold_left];
    [reflexivity|].
  inversion Hall as [|x l' Hhead Htail]; subst.
  cbn [fst snd sensor_place] in Hhead.
  rewrite check_sensor_cases. unfold sensor_sees.
  destruct (_ && _) eqn:Hsees; [|now apply IH].
  destruct (find _ _) eqn:Hfind; [now apply IH|].
  now destruct (Hhead eq_refl).
Qed.

(** X10. Crossing a sensor is idempotent: a second pass of
    [checkSensorInteractions] over the result of a first one, at the same
    position and whatever the time, records nothing and leaves the item and
    the sensors as the first pass left them. *)
Theorem checkSensorInteractions_idempotent (now now' : float) (s : Sim)
    (item : Item) :
  NoDup (JSMap.keys (sensors s)) ->
  checkSensorInteractions now'
    (snd (checkSensorInteractions now s item))
    (fst (checkSensorInteractions now s item))
  = checkSensorInteractions now s item.
Proof.
  intros Hnd. unfold checkSensorInteractions at 2 3 4.
  pose proof (fold_check_sensor_places now (sensors s) (sensors s) item
                (sensors s) Hnd (incl_refl _) eq_refl) as Hplaces.
  destruct (fold_check_sensor_appends now item (sensors s) (sensors s)
              (sensorReadings item) (sensors s) (incl_refl _))
    as (added & sens' & Hf & _ & Hread).
  rewrite item_with_readings_same in Hf. rewrite Hf in *.
  cbn [fst snd] in *. unfold checkSensorInteractions.
  cbn [sensors with_sensors].
  rewrite fold_check_sensor_all_read.
  - now rewrite with_sensors_same.
  - rewrite Hplaces. exact Hread.
Qed.

Lemma checkSensorInteractions_idempotent_witness :
  checkSensorInteractions 1000500
    (snd (checkSensorInteractions 1000000 sample_state sample_item))
    (fst (checkSensorInteractions 1000000 sample_state sample_item))
  = checkSensorInteractions 1000000 sample_state sample_item.
Proof.
  apply (checkSensorInteractions_idempotent 1000000 1000500 sample_state
           sample_item).
  vm_compute. repeat constructor; simpl; intuition discriminate.
Defined.

(** ** What a turn does to an item in transit *)

Lemma processItem_sensors now s item :
  sensors (snd (processItem now s item)) = sensors s.
Proof.
  unfold processItem, count_result, createAlarm.
  break_matches; reflexivity.
Qed.

Lemma moveItemToBin_sensors s item :
  sensors (moveItemToBin s item) = sensors s.
Proof. unfold moveItemToBin. break_matches; reflexivity. Qed.

Lemma removeItem_sensors s k : sensors (removeItem s k) = sensors s.
Proof. unfold removeItem. break_matches; reflexivity. Qed.

(** A turn of an item leaves every sensor where it is. *)
Lemma update_item_sensor_places now deltaTime s k :
  NoDup (JSMap.keys (sensors s)) ->
  JSMap.view sensor_place (sensors (update_item now deltaTime s k))
  = JSMap.view sensor_place (sensors s).
Proof.
  intros Hnd.
  destruct (JSMap.get (items s) k) as [item|] eqn:Hget.
  2:{ rewrite update_item_skip; [reflexivity | now rewrite Hget]. }
  destruct (status item =? "COMPLETED") eqn:Hst.
  { rewrite update_item_skip; [reflexivity | now rewrite Hget, Hst]. }
  rewrite (update_item_unfold now deltaTime s k item Hget Hst). cbv zeta.
  set (r1 := checkSensorInteractions now s _).
  set (r2 := processItem now (snd r1) (fst r1)).
  assert (H2 : sensors (snd r2) = sensors (snd r1))
    by apply processItem_sensors.
  assert (H1 : JSMap.view sensor_place (sensors (snd r1))
               = JSMap.view sensor_place (sensors s)).
  { unfold r1, checkSensorInteractions.
    pose proof (fold_check_sensor_places now (sensors s) (sensors s)
                  (item_with_position_x item
                     (vx (position item)
                      + velocity item * deltaTime * simulationSpeed s))
                  (sensors s) Hnd (incl_refl _) eq_refl) as Hp.
    destruct (fold_left _ _ _) as [item' sens']. exact Hp. }
  repeat match goal with
         | |- context [if ?c then _ else _] => destruct c
         end;
    rewrite ?removeItem_sensors, ?moveItemToBin_sensors;
    cbn [sensors with_items]; now rewrite H2.
Qed.

Lemma fold_update_item_sensor_places now deltaTime l s :
  NoDup (JSMap.keys (sensors s)) ->
  JSMap.view sensor_place (sensors (fold_left (update_item now deltaTime) l s))
  = JSMap.view sensor_place (sensors s).
Proof.
  revert s. induction l as [|k l IH]; intros s Hnd; cbn [fold_left];
    [reflexivity|].
  pose proof (update_item_sensor_places now deltaTime s k Hnd) as H.
  rewrite IH, H; [reflexivity|].
  now rewrite <- (JSMapFacts.keys_view sensor_place), H, JSMapFacts.keys_view.
Qed.

Lemma processItem_readings now s item :
  sensorReadings (fst (processItem now s item)) = sensorReadings item.
Proof. unfold processItem. break_matches; reflexivity. Qed.

(** [processItem] on an item that is PROCESSING: classified when the
    readings of its three sensors are there, left as it is otherwise. *)
Lemma processItem_PROCESSING now s item :
  status item = "PROCESSING" ->
  fst (processItem now s item)
  = if forallb (fun r => existsb (String.eqb r)
                                 (map r_sensorId (sensorReadings item)))
               (requiredSensors (beltId item))
    then item_with_qc item (evaluateQC (profiles s) item)
    else item.
Proof.
  intros Hst. unfold processItem. rewrite Hst. cbn [String.eqb negb].
  change ("PROCESSING" =? "PROCESSING") with true. cbn [negb].
  destruct (forallb _ _); reflexivity.
Qed.

Lemma processItem_classified now s item :
  status item <> "PROCESSING" -> fst (processItem now s item) = item.
Proof.
  intros Hst. unfold processItem.
  destruct (status item =? "PROCESSING") eqn:E; [|reflexivity].
  apply String.eqb_eq in E. contradiction.
Qed.

Lemma all_read_In item (sens : JSMap.t Sensor) readings sid sensor :
  all_read item (JSMap.view sensor_place sens) readings ->
  In (sid, sensor_place sensor) (JSMap.view sensor_place sens) ->
  sensor_sees item sensor = true ->
  exists r, In r readings /\ r_sensorId r = sid.
Proof.
  unfold all_read. rewrite Forall_forall. intros Hall Hin Hsees.
  specialize (Hall _ Hin Hsees). cbn [fst] in Hall.
  destruct (find (fun r => r_sensorId r =? sid) readings) as [r|] eqn:E;
    [|congruence].
  apply find_some in E. destruct E as [Hr E]. apply String.eqb_eq in E.
  eauto.
Qed.

(** The turn of [updateItems] for the item [k]: where it moves, what is
    read and how it is classified. *)
Lemma updateItems_turn now deltaTime s k item :
  NoDup (JSMap.keys (items s)) ->
  NoDup (JSMap.keys (sensors s)) ->
  JSMap.get (items s) k = Some item ->
  (status item =? "COMPLETED") = false ->
  let x' := (vx (position item)
             + velocity item * deltaTime * simulationSpeed s)%float in
  let moved := item_with_position_x item x' in
  JS.gt x' 4 = false ->
  exists item' added,
    JSMap.get (items (updateItems now deltaTime s)) k = Some item'
    /\ vx (position item') = x'
    /\ sensorReadings item' = sensorReadings item ++ added
    /\ Forall (fun r => r_timestamp r = now
                        /\ r_value r = sensor_value (r_type r) item) added
    /\ (forall sid sensor,
           In (sid, sensor) (sensors s) -> sensor_sees moved sensor = true ->
           exists r, In r (sensorReadings item') /\ r_sensorId r = sid)
    /\ (status item = "PROCESSING" ->
        forallb (fun r => existsb (String.eqb r)
                                  (map r_sensorId (sensorReadings item')))
                (requiredSensors (beltId item)) = true ->
        status item' = qc_status (evaluateQC (profiles s) item)
        /\ bucket item' = Some (qc_bucket (evaluateQC (profiles s) item))
        /\ status item' <> "PROCESSING")
    /\ (status item = "PROCESSING" ->
        forallb (fun r => existsb (String.eqb r)
                                  (map r_sensorId (sensorReadings item')))
                (requiredSensors (beltId item)) = false ->
        status item' = "PROCESSING")
    /\ (status item <> "PROCESSING" -> status item' = status item).
Proof.
  intros Hnd Hnds Hget Hst x' moved Hx. unfold updateItems.
  assert (Hin : In k (JSMap.keys (items s)))
    by (eapply JSMapFacts.In_keys, JSMapFacts.get_In, Hget).
  apply in_split in Hin. destruct Hin as (l1 & l2 & Hl).
  rewrite Hl in *. apply NoDup_remove_2 in Hnd. rewrite in_app_iff in Hnd.
  rewrite fold_left_app. cbn [fold_left].
  set (s1 := fold_left (update_item now deltaTime) l1 s).
  assert (Hget1 : JSMap.get (items s1) k = Some item).
  { unfold s1. rewrite fold_update_item_get_notin by tauto. exact Hget. }
  assert (Hsc : same_controls s s1) by apply fold_update_item_controls.
  assert (Hplaces : JSMap.view sensor_place (sensors s1)
                    = JSMap.view sensor_place (sensors s))
    by (apply fold_update_item_sensor_places; exact Hnds).
  rewrite fold_update_item_get_notin by tauto.
  pose proof (update_item_get_self now deltaTime s1 k item Hget1 Hst) as H.
  cbv zeta in H. rewrite (sc_simulationSpeed _ _ Hsc) in H.
  fold x' in H. fold moved in H. destruct (H Hx) as [Hg Hp]. clear H.
  set (r1 := checkSensorInteractions now s1 moved) in *.
  destruct (fold_check_sensor_appends now moved (sensors s1) (sensors s1)
              (sensorReadings moved) (sensors s1) (incl_refl _))
    as (added & sens' & Hf & Hnew & Hread).
  rewrite item_with_readings_same in Hf.
  assert (Hr1 : fst r1 = item_with_readings moved (sensorReadings moved ++ added)).
  { unfold r1, checkSensorInteractions. now rewrite Hf. }
  assert (Hprof : profiles (snd r1) = profiles s).
  { rewrite <- (sc_profiles _ _ Hsc).
    apply sc_profiles, checkSensorInteractions_controls. }
  exists (fst (processItem now (snd r1) (fst r1))), added.
  split; [exact Hg|]. split; [exact Hp|].
  assert (Hrs : sensorReadings (fst (processItem now (snd r1) (fst r1)))
                = sensorReadings item ++ added).
  { rewrite processItem_readings, Hr1. reflexivity. }
  split; [exact Hrs|].
  split.
  { eapply Forall_impl; [|exact Hnew].
    intros r (Ht & sensor & _ & _ & Hty & Hv). split; [exact Ht|].
    rewrite Hv, Hty. now destruct (s_type sensor). }
  split.
  { intros sid sensor Hin Hsees. rewrite Hrs.
    apply (all_read_In moved (sensors s) _ sid sensor).
    - rewrite <- Hplaces. exact Hread.
    - unfold JSMap.view.
      change (sid, sensor_place sensor)
        with ((fun kv : string * Sensor => (fst kv, sensor_place (snd kv)))
                (sid, sensor)).
      now apply in_map.
    - exact Hsees. }
  assert (Hst1 : status (fst r1) = status item) by (rewrite Hr1; reflexivity).
  assert (Hb1 : beltId (fst r1) = beltId item) by (rewrite Hr1; reflexivity).
  assert (Hrd1 : sensorReadings (fst r1) = sensorReadings item ++ added)
    by (rewrite Hr1; reflexivity).
  assert (Hqc : evaluateQC (profiles (snd r1)) (fst r1)
                = evaluateQC (profiles s) item)
    by (rewrite Hprof, Hr1; reflexivity).
  split; [|split].
  - intros Hproc. rewrite Hrs. intros Hall.
    rewrite processItem_PROCESSING by congruence.
    rewrite Hrd1, Hb1, Hall, Hqc. cbn [status bucket item_with_qc].
    repeat split. intros Heq.
    pose proof (evaluateQC_status_not_PROCESSING (profiles s) item) as Hne.
    rewrite Heq in Hne. discriminate.
  - intros Hproc. rewrite Hrs. intros Hall.
    rewrite processItem_PROCESSING by congruence.
    rewrite Hrd1, Hb1, Hall. congruence.
  - intros Hproc. rewrite processItem_classified by congruence. exact Hst1.
Qed.

(** The keys of [this.sensors] are distinct at every moment of every
    session. *)

Lemma toggleBelt_sensors s belt : sensors (toggleBelt s belt) = sensors s.
Proof. untouched toggleBelt. Qed.

Lemma fold_estop_belt_sensors l s :
  sensors (fold_left estop_belt l s) = sensors s.
Proof.
  revert s. induction l as [|k l IH]; intros s; simpl; [reflexivity|].
  rewrite IH. unfold estop_belt. break_matches; try reflexivity.
  now rewrite toggleBelt_sensors.
Qed.

Lemma fold_restart_belt_sensors l s :
  sensors (fold_left restart_belt l s) = sensors s.
Proof.
  revert s. induction l as [|k l IH]; intros s; simpl; [reflexivity|].
  rewrite IH. unfold restart_belt. break_matches; cbn [sensors with_belts];
    try reflexivity; now rewrite toggleBelt_sensors.
Qed.

Lemma spawnItems_sensors B now s s' :
  spawnItems B now s = Some s' -> sensors s' = sensors s.
Proof.
  unfold spawnItems. generalize (JSMap.keys (belts s)) as l. intros l.
  revert s. induction l as [|k l IH]; intros s; simpl; [now intros [= <-]|].
  destruct (spawn_on_belt B now s k) as [s2|] eqn:E2;
    [|now rewrite fold_spawn_None].
  intros H. rewrite (IH _ H). apply spawn_on_belt_cases in E2.
  destruct E2 as [->|(b & prof & item & s3 & b1 & _ & _ & _ & _ & _
                      & Hc & _ & ->)]; [reflexivity|].
  apply createBrushItem_Some in Hc.
  destruct Hc as (b0 & g & _ & _ & _ & ->). reflexivity.
Qed.

Lemma step_sensors_NoDup B op s s' :
  step B op s = Some s' ->
  NoDup (JSMap.keys (sensors s)) -> NoDup (JSMap.keys (sensors s')).
Proof.
  destruct op; cbn [step]; try (intros [= <-]); intros Hnd; try exact Hnd.
  - unfold frame in *. destruct (isPaused s); [now injection Hnd as <-|].
    destruct (spawnItems B now s) as [s1|] eqn:E; [|discriminate].
    intros H. injection Hnd as <-.
    rewrite <- (spawnItems_sensors _ _ _ _ E) in H.
    unfold updateItems.
    now rewrite <- (JSMapFacts.keys_view sensor_place),
      fold_update_item_sensor_places, JSMapFacts.keys_view.
  - unfold animateTobin_finish. break_matches; exact Hnd.
  - now rewrite toggleBelt_sensors.
  - unfold setBeltSpeed. break_matches; exact Hnd.
  - unfold setBeltProfile. break_matches; exact Hnd.
  - unfold toggleEmergencyStop.
    destruct (emergencyStop (with_emergencyStop s _));
      [rewrite fold_estop_belt_sensors | rewrite fold_restart_belt_sensors];
      exact Hnd.
  - unfold toggleScenario. break_matches; exact Hnd.
  - unfold saveProfileChanges. break_matches; exact Hnd.
Qed.

Lemma run_sensors_NoDup B rng dom ops s :
  run B ops (new_QCLineSimulator rng dom) = Some s ->
  NoDup (JSMap.keys (sensors s)).
Proof.
  assert (H : forall s0, NoDup (JSMap.keys (sensors s0)) ->
                         run B ops s0 = Some s ->
                         NoDup (JSMap.keys (sensors s))).
  { induction ops as [|op ops IH]; intros s0 Hnd; simpl.
    - now intros [= <-].
    - destruct (step B op s0) as [s1|] eqn:E; [|discriminate].
      apply IH. eapply step_sensors_NoDup; eauto. }
  apply H. vm_compute. repeat constructor; simpl; intuition discriminate.
Qed.

(** C8. While the emergency stop is engaged no spawn attempt creates an
    item on any belt, and the items in transit are neither removed nor
    frozen: toggling the stop leaves the items as they are, a turn of the
    loop still runs [updateItems], which does exactly what it does when the
    stop is not engaged, and in that turn every item in transit is moved by
    [velocity * deltaTime * simulationSpeed] (and stays, unless it went
    beyond 4); it keeps its readings and gets one more, stamped with the
    time of the turn and holding its own measurement, from every sensor of
    its belt within 0.1 of its new position that it has no reading of; and
    an item that is PROCESSING and then holds the readings of the three
    sensors of its belt gets the status and the bin of [evaluateQC], which
    is never PROCESSING, while without them it stays PROCESSING.  (The keys
    of the items and of the sensors are distinct in every session:
    [run_items_NoDup], [run_sensors_NoDup].) *)
Theorem emergency_stop_suppresses_spawning_only (B : Builtins)
    (now deltaTime : float) (s : Sim) :
  emergencyStop s = true ->
  spawnItems B now s = Some s
  /\ items (toggleEmergencyStop s) = items s
  /\ (isPaused s = false ->
      frame B now deltaTime s = Some (updateItems now deltaTime s))
  /\ updateItems now deltaTime s
     = with_emergencyStop
         (updateItems now deltaTime (with_emergencyStop s false)) true
  /\ (forall k item,
        JSMap.get (items s) k = Some item ->
        (status item =? "COMPLETED") = false ->
        let x' := (vx (position item)
                   + velocity item * deltaTime * simulationSpeed s)%float in
        let r1 := checkSensorInteractions now s (item_with_position_x item x') in
        let r2 := processItem now (snd r1) (fst r1) in
        JS.gt x' 4 = false ->
        JSMap.get (items (update_item now deltaTime s k)) k = Some (fst r2)
        /\ vx (position (fst r2)) = x')
  /\ (NoDup (JSMap.keys (items s)) ->
      forall k item,
        JSMap.get (items s) k = Some item ->
        (status item =? "COMPLETED") = false ->
        let x' := (vx (position item)
                   + velocity item * deltaTime * simulationSpeed s)%float in
        JS.gt x' 4 = false ->
        exists item',
          JSMap.get (items (updateItems now deltaTime s)) k = Some item'
          /\ vx (position item') = x')
  /\ (NoDup (JSMap.keys (items s)) -> NoDup (JSMap.keys (sensors s)) ->
      forall k item,
        JSMap.get (items s) k = Some item ->
        (status item =? "COMPLETED") = false ->
        let x' := (vx (position item)
                   + velocity item * deltaTime * simulationSpeed s)%float in
        let moved := item_with_position_x item x' in
        JS.gt x' 4 = false ->
        exists item' added,
          JSMap.get (items (updateItems now deltaTime s)) k = Some item'
          /\ vx (position item') = x'
          (* the readings of the turn *)
          /\ sensorReadings item' = sensorReadings item ++ added
          /\ Forall (fun r => r_timestamp r = now
                              /\ r_value r = sensor_value (r_type r) item)
                    added
          /\ (forall sid sensor,
                 In (sid, sensor) (sensors s) ->
                 sensor_sees moved sensor = true ->
                 exists r, In r (sensorReadings item') /\ r_sensorId r = sid)
          (* the classification *)
          /\ (status item = "PROCESSING" ->
              forallb (fun r => existsb (String.eqb r)
                                        (map r_sensorId (sensorReadings item')))
                      (requiredSensors (beltId item)) = true ->
              status item' = qc_status (evaluateQC (profiles s) item)
              /\ bucket item' = Some (qc_bucket (evaluateQC (profiles s) item))
              /\ status item' <> "PROCESSING")
          /\ (status item = "PROCESSING" ->
              forallb (fun r => existsb (String.eqb r)
                                        (map r_sensorId (sensorReadings item')))
                      (requiredSensors (beltId item)) = false ->
              status item' = "PROCESSING")
          /\ (status item <> "PROCESSING" -> status item' = status item)).
Proof.
  intros Hes.
  split; [now apply spawnItems_estop|].
  split; [apply toggleEmergencyStop_items|].
  split.
  { intros Hp. unfold frame. now rewrite Hp, spawnItems_estop. }
  split.
  { rewrite <- updateItems_estop. f_equal.
    destruct s; cbn in *. now subst. }
  split.
  { intros k item. apply update_item_get_self. }
  split; [intros Hnd k item; now apply updateItems_advances|].
  intros Hnd Hnds k item. now apply updateItems_turn.
Qed.

Lemma emergency_stop_suppresses_spawning_only_witness :
  spawnItems sample_builtins 1000500 sample_state_stopped_in_transit
  = Some sample_state_stopped_in_transit
  /\ status sample_item_in_transit = "PROCESSING"
  /\ exists item',
       JSMap.get (items (updateItems 1000500 1.7
                                     sample_state_stopped_in_transit))
                 "item_1000000_500000000" = Some item'
       /\ vx (position item') = 1.02%float
       /\ (exists r, In r (sensorReadings item') /\ r_sensorId r = "S_SIZE_1")
       /\ status item' = "OK"
       /\ bucket item' = Some "OK_BIN".
Proof.
  pose proof (emergency_stop_suppresses_spawning_only sample_builtins
                1000500 1.7 sample_state_stopped_in_transit eq_refl)
    as (H1 & _ & _ & _ & _ & _ & H7).
  split; [exact H1|]. split; [reflexivity|].
  destruct (H7 ltac:(vm_compute; repeat constructor; simpl; intuition discriminate)
               ltac:(vm_compute; repeat constructor; simpl; intuition discriminate)
               "item_1000000_500000000" sample_item_in_transit
               eq_refl eq_refl ltac:(vm_compute; reflexivity))
    as (item' & added & Hget & Hx & _ & _ & Hsees & Hcls & _).
  exists item'. split; [exact Hget|].
  split; [rewrite Hx; vm_compute; reflexivity|].
  split.
  { apply (Hsees "S_SIZE_1"
                 (mkSensor "S_SIZE_1" size "B1" (mkVec3 1 0.5 (-1)) false 0)).
    - vm_compute. tauto.
    - vm_compute. reflexivity. }
  assert (Hall : forallb (fun r => existsb (String.eqb r)
                                     (map r_sensorId (sensorReadings item')))
                         (requiredSensors (beltId sample_item_in_transit))
                 = true).
  { vm_compute in Hget. injection Hget as <-. vm_compute. reflexivity. }
  destruct (Hcls eq_refl Hall) as (Hst & Hb & _).
  split; [rewrite Hst | rewrite Hb]; vm_compute; reflexivity.
Defined.

(** The stopped item is read by the size sensor and classified. *)
Example sample_item_classified_while_stopped :
  map (fun kv => (status (snd kv), map r_sensorId (sensorReadings (snd kv))))
      (items sample_state_stopped_in_transit)
  = [("PROCESSING", ["S_SOFT_1"; "S_HEIGHT_1"])]
  /\ map (fun kv => (status (snd kv),
                     map r_sensorId (sensorReadings (snd kv))))
         (items (updateItems 1000500 1.7 sample_state_stopped_in_transit))
     = [("OK", ["S_SOFT_1"; "S_HEIGHT_1"; "S_SIZE_1"])].
Proof. split; vm_compute; reflexivity. Qed.

(** ** A belt whose profile does not exist *)

(** A spawn attempt on any belt leaves a belt whose profile is not
    registered as it is and puts no item on it. *)
Lemma spawn_on_belt_unregistered B now s k' s' k b :
  spawn_on_belt B now s k' = Some s' ->
  JSMap.get (belts s) k = Some b ->
  JSMap.get (profiles s) (b_profile b) = None ->
  JSMap.get (belts s') k = Some b
  /\ profiles s' = profiles s
  /\ forall i it, JSMap.get (items s') i = Some it -> beltId it = k ->
                  JSMap.get (items s) i = Some it.
Proof.
  intros H Hb Hp. apply spawn_on_belt_cases in H.
  destruct H as [->|(b0 & prof & item & s1 & b1 & Hb0 & _ & _ & _ & Hp0
                     & Hc & Hb1 & ->)].
  - repeat split; auto.
  - assert (Hne : k' <> k) by (intros ->; congruence).
    apply createBrushItem_Some in Hc.
    destruct Hc as (b0' & g & Hb0' & _ & Hi & ->).
    apply brush_item_shape in Hi. destruct Hi as (Hbelt & _).
    cbn [belts items profiles with_belts with_items with_random].
    split; [|split; [reflexivity|]].
    + now rewrite !JSMapFacts.get_set_other.
    + intros i it. destruct (String.eqb (id item) i) eqn:E.
      * apply String.eqb_eq in E. subst i.
        rewrite JSMapFacts.get_set_same. intros [= <-] Hk. congruence.
      * apply String.eqb_neq in E. now rewrite JSMapFacts.get_set_other.
Qed.

Lemma fold_spawn_unregistered B now l s s' k b :
  fold_left
    (fun acc belt =>
       match acc with
       | Some s' => spawn_on_belt B now s' belt
       | None => None
       end) l (Some s) = Some s' ->
  JSMap.get (belts s) k = Some b ->
  JSMap.get (profiles s) (b_profile b) = None ->
  JSMap.get (belts s') k = Some b
  /\ forall i it, JSMap.get (items s') i = Some it -> beltId it = k ->
                  JSMap.get (items s) i = Some it.
Proof.
  revert s. induction l as [|k' l IH]; intros s; simpl.
  - intros [= <-]. auto.
  - destruct (spawn_on_belt B now s k') as [s1|] eqn:E;
      [|now rewrite fold_spawn_None].
    intros H Hb Hp.
    destruct (spawn_on_belt_unregistered _ _ _ _ _ _ _ E Hb Hp)
      as (Hb1 & Hp1 & Hitems).
    destruct (IH s1 H Hb1) as (Hb' & Hitems'); [now rewrite Hp1|].
    split; [exact Hb'|]. intros i it Hi Hk. auto.
Qed.

(** X11. [setBeltProfile] takes any name.  When the name is not that of
    a profile, the belt spawns nothing from then on: a spawn attempt, at
    whatever time and whether the belt is enabled or not, puts no item on
    the belt and leaves the belt, its [lastSpawn] included, as
    [setBeltProfile] left it. *)
Theorem unregistered_profile_stalls_belt (B : Builtins) (now : float)
    (s s' : Sim) (k p : string) (b : Belt) :
  JSMap.get (belts s) k = Some b ->
  JSMap.get (profiles s) p = None ->
  spawnItems B now (setBeltProfile s k p) = Some s' ->
  JSMap.get (belts s') k = Some (belt_with_profile b p)
  /\ forall i it, JSMap.get (items s') i = Some it -> beltId it = k ->
                  JSMap.get (items s) i = Some it.
Proof.
  intros Hb Hp H. unfold spawnItems in H.
  assert (Hs1 : setBeltProfile s k p
                = with_belts s (JSMap.set (belts s) k (belt_with_profile b p))).
  { unfold setBeltProfile. now rewrite Hb. }
  rewrite Hs1 in H.
  eapply fold_spawn_unregistered in H.
  - exact H.
  - cbn [belts with_belts]. apply JSMapFacts.get_set_same.
  - exact Hp.
Qed.

Lemma unregistered_profile_stalls_belt_witness :
  JSMap.get (belts sample_state_unregistered) "B1"
  = Some (belt_with_profile sample_belt "Brush-200").
Proof.
  refine (proj1 (unregistered_profile_stalls_belt sample_builtins 2000000
                   sample_state sample_state_unregistered "B1" "Brush-200"
                   sample_belt _ _ _)); vm_compute; reflexivity.
Defined.

(** ** The controls *)

Lemma belt_with_enabled_twice b :
  belt_with_enabled (belt_with_enabled b (negb (enabled b)))
                    (negb (enabled (belt_with_enabled b (negb (enabled b)))))
  = b.
Proof. destruct b; cbn. now rewrite negb_involutive. Qed.

(** X12. Toggling a belt twice gives the state back, whether the belt
    exists and has its controls in the page or not. *)
Theorem toggleBelt_involutive (s : Sim) (k : string) :
  toggleBelt (toggleBelt s k) k = s.
Proof.
  unfold toggleBelt at 2.
  destruct (JSMap.get (belts s) k) as [b|] eqn:Hb.
  2:{ unfold toggleBelt. now rewrite Hb. }
  destruct (existsb (String.eqb k) (dom_belts s)) eqn:Hdom.
  2:{ unfold toggleBelt. now rewrite Hb, Hdom. }
  unfold toggleBelt. cbn [belts dom_belts with_belts].
  rewrite JSMapFacts.get_set_same, Hdom, FoldFacts.set_set.
  rewrite belt_with_enabled_twice, (FoldFacts.set_get_same _ _ _ Hb).
  destruct s; reflexivity.
Qed.

(** X13. [setBeltSpeed], on a belt that has its controls in the page,
    sets the speed of the belt and the velocity of the items of that belt,
    and of no other item; nothing else of an item changes.  The items in
    transit of the belt then move at the new speed from the next turn on. *)
Theorem setBeltSpeed_reaches_items_in_transit (s : Sim) (k : string)
    (b : Belt) (speed : float) :
  JSMap.get (belts s) k = Some b ->
  existsb (String.eqb k) (dom_belts s) = true ->
  let s1 := setBeltSpeed s k speed in
  JSMap.get (belts s1) k = Some (belt_with_speed b speed)
  /\ JSMap.keys (items s1) = JSMap.keys (items s)
  /\ (forall i item, JSMap.get (items s) i = Some item ->
        JSMap.get (items s1) i
        = Some (if beltId item =? k then item_with_velocity item speed
                else item))
  /\ (NoDup (JSMap.keys (items s)) ->
      forall now deltaTime i item,
        JSMap.get (items s) i = Some item ->
        beltId item = k ->
        (status item =? "COMPLETED") = false ->
        let x' := (vx (position item)
                   + speed * deltaTime * simulationSpeed s)%float in
        JS.gt x' 4 = false ->
        exists item',
          JSMap.get (items (updateItems now deltaTime s1)) i = Some item'
          /\ vx (position item') = x').
Proof.
  intros Hb Hdom s1.
  assert (Hs1 : s1 = with_items
                       (with_belts s
                          (JSMap.set (belts s) k (belt_with_speed b speed)))
                       (JSMap.map_values
                          (fun _ item => if beltId item =? k
                                         then item_with_velocity item speed
                                         else item)
                          (items s))).
  { unfold s1, setBeltSpeed. now rewrite Hb, Hdom. }
  assert (Hget : forall i item, JSMap.get (items s) i = Some item ->
            JSMap.get (items s1) i
            = Some (if beltId item =? k then item_with_velocity item speed
                    else item)).
  { intros i item Hi. rewrite Hs1. cbn [items with_items with_belts].
    now rewrite JSMapFacts.get_map_values, Hi. }
  assert (Hkeys : JSMap.keys (items s1) = JSMap.keys (items s)).
  { rewrite Hs1. cbn [items with_items with_belts].
    apply JSMapFacts.keys_map_values. }
  split; [|split; [exact Hkeys|split; [exact Hget|]]].
  - rewrite Hs1. cbn [belts with_items with_belts].
    apply JSMapFacts.get_set_same.
  - intros Hnd now deltaTime i item Hi Hk Hst x' Hx.
    pose proof (Hget i item Hi) as Hi1.
    rewrite Hk, String.eqb_refl in Hi1.
    destruct (updateItems_advances now deltaTime s1 i
                (item_with_velocity item speed)) as (item' & Hg & Hp).
    + now rewrite Hkeys.
    + exact Hi1.
    + exact Hst.
    + replace (simulationSpeed s1) with (simulationSpeed s)
        by (rewrite Hs1; reflexivity).
      exact Hx.
    + exists item'. split; [exact Hg|]. rewrite Hp.
      replace (simulationSpeed s1) with (simulationSpeed s)
        by (rewrite Hs1; reflexivity).
      reflexivity.
Qed.

Lemma setBeltSpeed_reaches_items_in_transit_witness :
  JSMap.get (belts (setBeltSpeed sample_state "B1" 0.5)) "B1"
  = Some (belt_with_speed sample_belt 0.5).
Proof.
  refine (proj1 (setBeltSpeed_reaches_items_in_transit sample_state "B1"
                   sample_belt 0.5 _ _)); vm_compute; reflexivity.
Defined.

(** ** [resetConfiguration] *)

(** X14. [resetConfiguration], in any state, puts back the three
    profiles, the three belts and the four bins of [initData] (so every
    belt is disabled, with its first speed and profile, an empty list of
    items and counters at zero, and every bin is empty) and the three noise
    settings; it keeps the defect rates, the
    items in transit, the statistics, the alarms, the scenarios and the
    emergency stop. *)
Theorem resetConfiguration_restores (s : Sim) :
  let s' := resetConfiguration s in
  (forall p, In p profilesData ->
             JSMap.get (profiles s') (p_name p) = Some p)
  /\ (forall b, In b beltsData -> JSMap.get (belts s') (b_id b) = Some b)
  /\ (forall b, In b binsData -> JSMap.get (bins s') (bin_id b) = Some b)
  /\ height_sigma_mm (config s') = 0.2%float
  /\ softness_sigma_N (config s') = 0.1%float
  /\ sensorLatency (config s') = 50%float
  /\ rate_overHeight (config s') = rate_overHeight (config s)
  /\ rate_underHeight (config s') = rate_underHeight (config s)
  /\ rate_softnessNail (config s') = rate_softnessNail (config s)
  /\ items s' = items s
  /\ statistics s' = statistics s
  /\ alarms s' = alarms s
  /\ scenarios s' = scenarios s
  /\ emergencyStop s' = emergencyStop s.
Proof.
  cbv zeta. unfold resetConfiguration, initData.
  cbn [profiles belts bins config items statistics alarms scenarios
       emergencyStop
       with_config with_profiles with_belts with_bins with_animations
       height_sigma_mm softness_sigma_N sensorLatency rate_overHeight
       rate_underHeight rate_softnessNail].
  split; [|split; [|split; [|repeat split]]].
  - intros p Hp. unfold profilesData in *. cbn [fold_left p_name] in *.
    destruct Hp as [<-|[<-|[<-|[]]]]; cbn [p_name];
      rewrite ?JSMapFacts.get_set_same;
      repeat (rewrite JSMapFacts.get_set_other by discriminate);
      rewrite ?JSMapFacts.get_set_same; reflexivity.
  - intros b Hb. unfold beltsData in *. cbn [fold_left b_id] in *.
    destruct Hb as [<-|[<-|[<-|[]]]]; cbn [b_id];
      rewrite ?JSMapFacts.get_set_same;
      repeat (rewrite JSMapFacts.get_set_other by discriminate);
      rewrite ?JSMapFacts.get_set_same; reflexivity.
  - intros b Hb. unfold binsData in *. cbn [fold_left bin_id] in *.
    destruct Hb as [<-|[<-|[<-|[<-|[]]]]]; cbn [bin_id];
      rewrite ?JSMapFacts.get_set_same;
      repeat (rewrite JSMapFacts.get_set_other by discriminate);
      rewrite ?JSMapFacts.get_set_same; reflexivity.
Qed.

(** ** The emergency stop across a reset *)

Lemma resetConfiguration_belts s b :
  In b beltsData ->
  JSMap.get (belts (resetConfiguration s)) (b_id b) = Some b.
Proof.
  intros Hb. unfold resetConfiguration, initData.
  cbn [belts with_config with_profiles with_belts with_bins with_animations].
  unfold beltsData in *. cbn [fold_left b_id] in *.
  destruct Hb as [<-|[<-|[<-|[]]]]; cbn [b_id];
    rewrite ?JSMapFacts.get_set_same;
    repeat (rewrite JSMapFacts.get_set_other by discriminate);
    rewrite ?JSMapFacts.get_set_same; reflexivity.
Qed.

(** X15. A reset of the configuration while the emergency stop is
    engaged forgets which belts were running: when the stop is released
    afterwards no belt of [initData] restarts; the three belts are then
    exactly the stopped belts that [initData] creates. *)
Theorem reset_forgets_running_belts (s : Sim) :
  NoDup (JSMap.keys (belts s)) ->
  emergencyStop s = true ->
  let s' := toggleEmergencyStop (resetConfiguration s) in
  emergencyStop s' = false
  /\ forall b, In b beltsData ->
       JSMap.get (belts s') (b_id b) = Some b /\ enabled b = false.
Proof.
  intros Hnd Hes s'.
  assert (Hnd' : NoDup (JSMap.keys (belts (resetConfiguration s)))).
  { unfold resetConfiguration, initData.
    cbn [belts with_config with_profiles with_belts with_bins with_animations beltsData
         fold_left].
    now repeat apply JSMapFacts.NoDup_keys_set. }
  assert (Hes' : emergencyStop (resetConfiguration s) = true) by exact Hes.
  unfold s'. rewrite (toggleEmergencyStop_release _ Hnd' Hes').
  split; [reflexivity|]. intros b Hb.
  cbn [belts with_belts with_emergencyStop].
  rewrite JSMapFacts.get_map_values, (resetConfiguration_belts s b Hb).
  unfold beltsData in Hb.
  destruct Hb as [<-|[<-|[<-|[]]]]; split; reflexivity.
Qed.

Lemma reset_forgets_running_belts_witness :
  emergencyStop (toggleEmergencyStop (resetConfiguration sample_state_stopped))
  = false.
Proof.
  refine (proj1 (reset_forgets_running_belts sample_state_stopped _ _)).
  - vm_compute. repeat constructor; simpl; intuition discriminate.
  - reflexivity.
Defined.

(** In the sample session belt B1 runs when the stop is engaged; after a
    reset and the release of the stop it is stopped. *)
Example sample_belt_stays_stopped_after_reset :
  option_map enabled (JSMap.get (belts sample_state) "B1") = Some true
  /\ option_map enabled
       (JSMap.get (belts (toggleEmergencyStop sample_state_stopped)) "B1")
     = Some true
  /\ option_map enabled
       (JSMap.get
          (belts (toggleEmergencyStop
                    (resetConfiguration sample_state_stopped))) "B1")
     = Some false.
Proof. repeat split; vm_compute; reflexivity. Qed.

(** ** Every item has a profile and a belt *)

Lemma evaluateQC_registered profs item :
  JSMap.get profs (profile item) <> None ->
  qc_status (evaluateQC profs item) <> "ERROR".
Proof.
  unfold evaluateQC.
  destruct (JSMap.get profs (profile item)) as [prof|]; [|congruence].
  intros _. destruct (p_softness_range_N prof) as [lo hi].
  repeat match goal with
         | |- context [if ?c then _ else _] => destruct c
         end; cbn [qc_status]; discriminate.
Qed.

Lemma brush_item_origin B now cfg sc belt b prof g item g' :
  brush_item B now cfg sc belt b prof g = Some (item, g') ->
  profile item = p_name prof /\ beltId item = belt
  /\ status item = "PROCESSING".
Proof.
  unfold brush_item. intros H. gen_inv H. subst item. cbn. auto.
Qed.

Lemma checkSensorInteractions_fields now s item :
  exists rs,
    fst (checkSensorInteractions now s item) = item_with_readings item rs.
Proof.
  unfold checkSensorInteractions.
  destruct (fold_check_sensor_appends now item (sensors s) (sensors s)
              (sensorReadings item) (sensors s) (incl_refl _))
    as (added & sens' & Hf & _).
  rewrite item_with_readings_same in Hf. rewrite Hf. cbn [fst]. eauto.
Qed.

Lemma checkSensorInteractions_belts now s item :
  belts (snd (checkSensorInteractions now s item)) = belts s.
Proof. untouched checkSensorInteractions. Qed.

Lemma keys_set_incl {V} (m : JSMap.t V) k v :
  incl (JSMap.keys m) (JSMap.keys (JSMap.set m k v)).
Proof.
  destruct (JSMap.get m k) as [v0|] eqn:E.
  - rewrite (JSMapFacts.keys_set_present m k v v0 E). apply incl_refl.
  - rewrite (JSMapFacts.keys_set_absent m k v E). apply incl_appl, incl_refl.
Qed.

Lemma same_controls_keys s s' :
  same_controls s s' ->
  profiles s' = profiles s
  /\ JSMap.keys (belts s') = JSMap.keys (belts s).
Proof.
  intros [_ _ _ _ Hp _ _ Hb]. split; [exact Hp|].
  rewrite <- (JSMapFacts.keys_view belt_control (belts s')), Hb.
  apply JSMapFacts.keys_view.
Qed.

Lemma placed_incl PK BK PK' BK' item :
  incl PK PK' -> incl BK BK' -> placed PK BK item -> placed PK' BK' item.
Proof. intros HP HB (H1 & H2 & H3). repeat split; auto. Qed.

Lemma items_all_impl (P Q : Item -> Prop) s :
  (forall item, P item -> Q item) -> items_all P s -> items_all Q s.
Proof.
  unfold items_all. intros H Hall. eapply Forall_impl; [|exact Hall].
  intros [k v]. apply H.
Qed.

Lemma processItem_placed PK BK now s item :
  (forall n, In n PK -> JSMap.get (profiles s) n <> None) ->
  placed PK BK item -> placed PK BK (fst (processItem now s item)).
Proof.
  intros Hreg (H1 & H2 & H3). unfold processItem.
  destruct (negb _); [repeat split; assumption|].
  destruct (forallb _ _); [|repeat split; assumption].
  cbn [fst]. repeat split; cbn; auto.
  apply evaluateQC_registered. auto.
Qed.

Lemma update_item_placed PK BK now deltaTime s k :
  (forall n, In n PK -> JSMap.get (profiles s) n <> None) ->
  items_all (placed PK BK) s ->
  items_all (placed PK BK) (update_item now deltaTime s k).
Proof.
  intros Hreg Hall.
  destruct (JSMap.get (items s) k) as [item|] eqn:Hget.
  2:{ rewrite update_item_skip; [exact Hall | now rewrite Hget]. }
  destruct (status item =? "COMPLETED") eqn:Hst.
  { rewrite update_item_skip; [exact Hall | now rewrite Hget]. }
  rewrite (update_item_unfold now deltaTime s k item Hget Hst). cbv zeta.
  match goal with
  | |- context [checkSensorInteractions now s ?m] =>
      set (r1 := checkSensorInteractions now s m);
      assert (H1 : placed PK BK (fst r1))
  end.
  { destruct (checkSensorInteractions_fields now s
                (item_with_position_x item
                   (vx (position item)
                    + velocity item * deltaTime * simulationSpeed s)%float))
      as [rs Hrs].
    unfold r1. rewrite Hrs.
    exact (JSMapFacts.Forall_get (placed PK BK) _ _ _ Hall Hget). }
  set (r2 := processItem now (snd r1) (fst r1)).
  assert (H2 : placed PK BK (fst r2)).
  { apply processItem_placed; [|exact H1]. unfold r1.
    rewrite (sc_profiles _ _ (checkSensorInteractions_controls now s _)).
    exact Hreg. }
  assert (Hi2 : items (snd r2) = items s).
  { unfold r2. rewrite processItem_items. apply checkSensorInteractions_items. }
  match goal with
  | |- context [with_items ?a ?b] => set (s3 := with_items a b)
  end.
  assert (H3 : items_all (placed PK BK) s3).
  { unfold items_all, s3. cbn [items with_items]. rewrite Hi2.
    now apply JSMapFacts.Forall_set. }
  match goal with
  | |- context [if ?c then moveItemToBin ?a ?b else _] =>
      set (s4 := if c then moveItemToBin a b else s3)
  end.
  assert (H4 : items_all (placed PK BK) s4).
  { subst s4. destruct (_ && _); [|exact H3].
    unfold items_all. now rewrite moveItemToBin_items. }
  destruct (JS.gt _ 4); [|exact H4].
  unfold items_all, removeItem in *.
  destruct (JSMap.get (items s4) k) as [it|]; [|exact H4].
  destruct (JSMap.get (belts s4) (beltId it)); cbn;
    now apply JSMapFacts.Forall_delete.
Qed.

Lemma fold_update_item_placed PK BK now deltaTime l s :
  (forall n, In n PK -> JSMap.get (profiles s) n <> None) ->
  items_all (placed PK BK) s ->
  items_all (placed PK BK) (fold_left (update_item now deltaTime) l s).
Proof.
  revert s. induction l as [|k l IH]; intros s Hreg Hall; simpl; [exact Hall|].
  apply IH; [|now apply update_item_placed].
  now rewrite (sc_profiles _ _ (update_item_controls now deltaTime s k)).
Qed.

Lemma spawn_on_belt_placed B PK BK now s belt s' :
  spawn_on_belt B now s belt = Some s' ->
  profiles_named s ->
  incl (JSMap.keys (profiles s)) PK -> incl (JSMap.keys (belts s)) BK ->
  items_all (placed PK BK) s -> items_all (placed PK BK) s'.
Proof.
  intros H Hnamed HPK HBK Hall. apply spawn_on_belt_cases in H.
  destruct H as [->|(b & prof & item & s1 & b1 & Hb & _ & _ & _ & Hp & Hc
                     & _ & ->)]; [exact Hall|].
  apply createBrushItem_Some in Hc. destruct Hc as (b0 & g & _ & _ & Hi & ->).
  apply brush_item_origin in Hi. destruct Hi as (Hprof & Hbelt & Hst).
  unfold items_all. cbn. apply JSMapFacts.Forall_set; [exact Hall|].
  repeat split.
  - apply HPK. rewrite Hprof. apply JSMapFacts.get_In in Hp.
    unfold profiles_named in Hnamed. rewrite Forall_forall in Hnamed.
    pose proof (Hnamed _ Hp) as Hn. cbn [fst snd] in Hn. rewrite Hn.
    eapply JSMapFacts.In_keys, Hp.
  - apply HBK. rewrite Hbelt.
    eapply JSMapFacts.In_keys, JSMapFacts.get_In, Hb.
  - rewrite Hst. discriminate.
Qed.

Lemma spawnItems_placed B PK BK now s s' :
  spawnItems B now s = Some s' ->
  profiles_named s ->
  incl (JSMap.keys (profiles s)) PK -> incl (JSMap.keys (belts s)) BK ->
  items_all (placed PK BK) s -> items_all (placed PK BK) s'.
Proof.
  unfold spawnItems. generalize (JSMap.keys (belts s)) at 1 as l.
  intros l. revert s. induction l as [|k l IH]; intros s; simpl.
  - now intros [= <-].
  - destruct (spawn_on_belt B now s k) as [s1|] eqn:E;
      [|now rewrite fold_spawn_None].
    intros H Hnamed HPK HBK Hall.
    destruct (same_controls_keys _ _ (spawn_on_belt_controls _ _ _ _ _ E))
      as [Hp Hk].
    apply (IH s1 H).
    + unfold profiles_named. now rewrite Hp.
    + now rewrite Hp.
    + now rewrite Hk.
    + eapply spawn_on_belt_placed; eauto.
Qed.

Lemma named_set (m : JSMap.t Profile) k v :
  Forall (fun kv => p_name (snd kv) = fst kv) m -> p_name v = k ->
  Forall (fun kv => p_name (snd kv) = fst kv) (JSMap.set m k v).
Proof.
  intros Hm Hv. induction Hm as [|[k' v'] rest Hh Ht IH]; simpl.
  - constructor; [exact Hv | constructor].
  - destruct (String.eqb k' k) eqn:E.
    + apply String.eqb_eq in E. subst k'. constructor; [exact Hv | exact Ht].
    + constructor; [exact Hh | exact IH].
Qed.

Lemma view_update_key {V W} (f : V -> W) (g : string -> V -> V)
    (m : JSMap.t V) k :
  (forall k v, f (g k v) = f v) ->
  JSMap.view f (JSMap.update_key g m k) = JSMap.view f m.
Proof.
  intros Hg. unfold JSMap.update_key.
  destruct (JSMap.get m k) as [v|] eqn:E; [|reflexivity].
  eapply JSMapFacts.view_set; [exact E | apply Hg].
Qed.

Lemma view_fold_update_key {V W} (f : V -> W) (g : string -> V -> V) l
    (m : JSMap.t V) :
  (forall k v, f (g k v) = f v) ->
  JSMap.view f (fold_left (JSMap.update_key g) l m) = JSMap.view f m.
Proof.
  intros Hg. revert m. induction l as [|k l IH]; intros m; simpl;
    [reflexivity|].
  now rewrite IH, view_update_key.
Qed.

(** The emergency stop changes nothing of a belt but [enabled] and
    [wasRunning]. *)
Lemma toggleEmergencyStop_view {W} (f : Belt -> W) s :
  (forall b v, f (belt_with_enabled b v) = f b) ->
  (forall b v, f (belt_with_wasRunning b v) = f b) ->
  JSMap.view f (belts (toggleEmergencyStop s)) = JSMap.view f (belts s).
Proof.
  intros He Hw. unfold toggleEmergencyStop.
  destruct (emergencyStop (with_emergencyStop s _));
    [rewrite fold_estop_belt_spec | rewrite fold_restart_belt_spec];
    cbn [belts with_belts with_emergencyStop];
    apply view_fold_update_key; intros k b.
  - unfold engage_belt. destruct (enabled b); [|reflexivity].
    destruct (existsb _ _); now rewrite ?He, ?Hw.
  - unfold release_belt. destruct (JS.truthy _); [|reflexivity].
    rewrite Hw. destruct (existsb _ _); now rewrite ?He.
Qed.

Lemma keys_of_view {V W} (f : V -> W) (m m' : JSMap.t V) :
  JSMap.view f m' = JSMap.view f m -> JSMap.keys m' = JSMap.keys m.
Proof.
  intros H. rewrite <- (JSMapFacts.keys_view f m'), H.
  apply JSMapFacts.keys_view.
Qed.

Lemma step_well_placed B op s s' :
  step B op s = Some s' -> well_placed s -> well_placed s'.
Proof.
  intros Hstep [Hnamed Hall].
  assert (Hsame : forall s1, profiles s1 = profiles s ->
                    JSMap.keys (belts s1) = JSMap.keys (belts s) ->
                    items_all (placed (JSMap.keys (profiles s))
                                      (JSMap.keys (belts s))) s1 ->
                    well_placed s1).
  { intros s1 Hp Hk H1. unfold well_placed, profiles_named.
    rewrite Hp, Hk. auto. }
  destruct op; cbn [step] in Hstep; try (injection Hstep as <-).
  - (* OpFrame *)
    destruct (same_controls_keys _ _ (frame_controls _ _ _ _ _ Hstep))
      as [Hp Hk].
    apply Hsame; auto.
    unfold frame in Hstep. destruct (isPaused s); [now injection Hstep as <-|].
    destruct (spawnItems B now s) as [s1|] eqn:E; [|discriminate].
    injection Hstep as <-.
    destruct (same_controls_keys _ _ (spawnItems_controls _ _ _ _ E))
      as [Hp1 Hk1].
    apply fold_update_item_placed.
    + intros n Hn. rewrite Hp1.
      destruct (JSMapFacts.get_Some_of_keys _ _ Hn) as [v ->]. discriminate.
    + eapply spawnItems_placed; eauto; apply incl_refl.
  - (* OpAnimationEnd *)
    apply Hsame.
    + unfold animateTobin_finish. break_matches; reflexivity.
    + unfold animateTobin_finish. break_matches; reflexivity.
    + unfold animateTobin_finish, items_all in *.
      destruct (animations s) as [|[itemId [b|]] rest]; [exact Hall| |];
        try destruct (JSMap.get (bins _) b); cbn;
        (destruct (JSMap.get (items s) itemId) as [item|] eqn:Hg; cbn;
         [|exact Hall]);
        (apply JSMapFacts.Forall_set; [exact Hall|]);
        destruct (JSMapFacts.Forall_get _ _ _ _ Hall Hg) as (H1 & H2 & H3);
        repeat split; auto; cbn; discriminate.
  - (* OpToggleBelt *)
    apply Hsame.
    + untouched toggleBelt.
    + unfold toggleBelt.
      destruct (JSMap.get (belts s) belt) eqn:E; [|reflexivity].
      destruct (existsb _ _); [|reflexivity].
      cbn. eapply JSMapFacts.keys_set_present, E.
    + unfold items_all. now rewrite toggleBelt_items.
  - (* OpSetBeltSpeed *)
    apply Hsame.
    + untouched setBeltSpeed.
    + unfold setBeltSpeed.
      destruct (JSMap.get (belts s) belt) eqn:E; [|reflexivity].
      destruct (existsb _ _); [|reflexivity].
      cbn. eapply JSMapFacts.keys_set_present, E.
    + unfold setBeltSpeed, items_all in *.
      destruct (JSMap.get (belts s) belt); [|exact Hall].
      destruct (existsb _ _); [|exact Hall]. cbn [items with_items with_belts].
      apply JSMapFacts.Forall_map_values; [|exact Hall].
      intros k v Hv. destruct (beltId v =? belt); [|exact Hv]. exact Hv.
  - (* OpSetBeltProfile *)
    apply Hsame.
    + untouched setBeltProfile.
    + unfold setBeltProfile.
      destruct (JSMap.get (belts s) belt) eqn:E; [|reflexivity].
      cbn. eapply JSMapFacts.keys_set_present, E.
    + unfold items_all, setBeltProfile. now destruct (JSMap.get _ _).
  - (* OpToggleEmergencyStop *)
    apply Hsame.
    + unfold toggleEmergencyStop.
      destruct (emergencyStop (with_emergencyStop s _));
        [rewrite fold_estop_belt_spec | rewrite fold_restart_belt_spec];
        reflexivity.
    + apply (keys_of_view counters), toggleEmergencyStop_view;
        intros b v; reflexivity.
    + unfold items_all. now rewrite toggleEmergencyStop_items.
  - apply Hsame; auto.
  - apply Hsame; auto.
  - apply Hsame; try (unfold toggleScenario; break_matches; reflexivity).
    unfold items_all, toggleScenario. break_matches; exact Hall.
  - apply Hsame; auto.
  - apply Hsame; auto.
  - (* OpSaveProfileChanges *)
    unfold well_placed, profiles_named, saveProfileChanges in *.
    destruct (JSMap.get (profiles s) profileName) as [prof|] eqn:E;
      [|auto].
    cbn [profiles belts items with_profiles items_all].
    rewrite (JSMapFacts.keys_set_present _ _ _ _ E). split; [|exact Hall].
    apply named_set; [exact Hnamed|]. cbn [p_name].
    apply JSMapFacts.get_In in E. rewrite Forall_forall in Hnamed.
    exact (Hnamed _ E).
  - apply Hsame; auto.
  - (* OpResetConfiguration *)
    unfold well_placed, profiles_named, resetConfiguration, initData.
    cbn [profiles belts items with_config with_profiles with_belts with_bins with_animations
         items_all profilesData beltsData fold_left].
    split.
    + repeat apply named_set; auto.
    + eapply items_all_impl; [|exact Hall]. intros item.
      apply placed_incl;
        repeat (eapply incl_tran; [|apply keys_set_incl]); apply incl_refl.
Qed.

Lemma run_well_placed B ops s s' :
  run B ops s = Some s' -> well_placed s -> well_placed s'.
Proof.
  revert s. induction ops as [|op ops IH]; intros s; simpl.
  - now intros [= <-].
  - destruct (step B op s) as [s1|] eqn:E; [|discriminate].
    intros H Hw. eapply IH; [exact H|]. eapply step_well_placed; eauto.
Qed.

Lemma new_well_placed rng dom : well_placed (new_QCLineSimulator rng dom).
Proof.
  split.
  - unfold profiles_named. cbn. repeat constructor.
  - constructor.
Qed.

(** X16. The ERROR verdict is never given in a session: at every moment
    every item is of a profile that is registered, under its own name, and
    on a belt that exists, so [evaluateQC] does not answer ERROR for it, and
    no item has the status ERROR. *)
Theorem no_ERROR_verdict (B : Builtins) (rng : Rng) (dom : list string)
    (ops : list Op) (s : Sim) (k : string) (item : Item) :
  run B ops (new_QCLineSimulator rng dom) = Some s ->
  JSMap.get (items s) k = Some item ->
  status item <> "ERROR"
  /\ qc_status (evaluateQC (profiles s) item) <> "ERROR"
  /\ (exists prof, JSMap.get (profiles s) (profile item) = Some prof
                   /\ p_name prof = profile item)
  /\ exists b, JSMap.get (belts s) (beltId item) = Some b.
Proof.
  intros Hrun Hget.
  destruct (run_well_placed _ _ _ _ Hrun (new_well_placed rng dom))
    as [Hnamed Hall].
  destruct (JSMapFacts.Forall_get _ _ _ _ Hall Hget) as (Hp & Hb & Hst).
  destruct (JSMapFacts.get_Some_of_keys _ _ Hp) as [prof Hprof].
  split; [exact Hst|]. split; [|split].
  - apply evaluateQC_registered. now rewrite Hprof.
  - exists prof. split; [exact Hprof|].
    apply JSMapFacts.get_In in Hprof.
    unfold profiles_named in Hnamed. rewrite Forall_forall in Hnamed.
    exact (Hnamed _ Hprof).
  - exact (JSMapFacts.get_Some_of_keys _ _ Hb).
Qed.

Lemma no_ERROR_verdict_witness :
  qc_status (evaluateQC (profiles sample_state_wrongProduct)
               sample_item_wrongProduct) <> "ERROR".
Proof.
  refine (proj1 (proj2 (no_ERROR_verdict sample_builtins (mkRng [] 0.5)
                   ["B1"; "B2"; "B3"]
                   (OpToggleScenario "wrongProduct" :: sample_ops)
                   sample_state_wrongProduct (id sample_item_wrongProduct)
                   sample_item_wrongProduct _ _)));
    vm_compute; reflexivity.
Defined.

(** ** The global counters and the belts' counters *)

Lemma sum_counter_view f m m' :
  JSMap.view counters m' = JSMap.view counters m ->
  sum_counter f m' = sum_counter f m.
Proof.
  unfold sum_counter, JSMap.view. revert m'.
  induction m as [|[k v] m IH]; intros [|[k' v'] m']; simpl;
    try discriminate; [reflexivity|].
  intros [= _ Hc Hm]. now rewrite Hc, (IH _ Hm).
Qed.

Lemma same_counts_refl s : same_counts s s.
Proof. split; reflexivity. Qed.

Lemma same_counts_trans s1 s2 s3 :
  same_counts s1 s2 -> same_counts s2 s3 -> same_counts s1 s3.
Proof. intros [A1 A2] [C1 C2]. split; congruence. Qed.

Lemma same_counts_match s s' :
  same_counts s s' -> stats_match s -> stats_match s'.
Proof.
  intros [Hst Hv]. unfold stats_match, sum_belts.
  now rewrite Hst, !(sum_counter_view _ _ _ Hv).
Qed.

Ltac counts_solve :=
  try apply same_counts_refl;
  split; cbn; try reflexivity;
  try (eapply JSMapFacts.view_set; [eassumption | reflexivity]).

Lemma moveItemToBin_counts s item : same_counts s (moveItemToBin s item).
Proof.
  unfold moveItemToBin.
  destruct (bucket item); [|apply same_counts_refl].
  destruct (JSMap.get (bins s) _); [|apply same_counts_refl].
  destruct (Math_random (random s)). counts_solve.
Qed.

Lemma removeItem_counts s k : same_counts s (removeItem s k).
Proof.
  unfold removeItem.
  destruct (JSMap.get (items s) k) as [item|]; [|apply same_counts_refl].
  destruct (JSMap.get (belts s) (beltId item)) eqn:E; counts_solve.
Qed.

Lemma toggleBelt_counts s k : same_counts s (toggleBelt s k).
Proof.
  unfold toggleBelt.
  destruct (JSMap.get (belts s) k) eqn:E; [|apply same_counts_refl].
  destruct (existsb _ _); counts_solve.
Qed.

Lemma spawn_on_belt_counts B now s belt s' :
  spawn_on_belt B now s belt = Some s' -> same_counts s s'.
Proof.
  intros H. apply spawn_on_belt_cases in H.
  destruct H as [->|(b & prof & item & s1 & b1 & _ & _ & _ & _ & _ & Hc
                     & Hb1 & ->)]; [apply same_counts_refl|].
  apply createBrushItem_Some in Hc.
  destruct Hc as (b0 & g & Hb0 & _ & _ & Hs1).
  apply (same_counts_trans s s1).
  - rewrite Hs1. counts_solve.
  - split; [reflexivity|]. cbn [belts with_belts].
    eapply JSMapFacts.view_set; [exact Hb1 | reflexivity].
Qed.

Lemma spawnItems_counts B now s s' :
  spawnItems B now s = Some s' -> same_counts s s'.
Proof.
  unfold spawnItems. generalize (JSMap.keys (belts s)) as l.
  intros l. revert s. induction l as [|k l IH]; intros s; simpl.
  - intros [= <-]. apply same_counts_refl.
  - destruct (spawn_on_belt B now s k) as [s1|] eqn:E;
      [|now rewrite fold_spawn_None].
    intros H. eapply same_counts_trans;
      [eapply spawn_on_belt_counts, E | apply IH, H].
Qed.

(** A turn of [update_item] keeps the counters in step, for an item that is
    on a belt of the simulator. *)
Lemma update_item_match BK PK now deltaTime s k :
  JSMap.keys (belts s) = BK ->
  items_all (placed PK BK) s ->
  stats_match s -> stats_match (update_item now deltaTime s k).
Proof.
  intros HBK Hall Hm.
  destruct (JSMap.get (items s) k) as [item|] eqn:Hget.
  2:{ rewrite update_item_skip; [exact Hm | now rewrite Hget]. }
  destruct (status item =? "COMPLETED") eqn:Hst.
  { rewrite update_item_skip; [exact Hm | now rewrite Hget]. }
  rewrite (update_item_unfold now deltaTime s k item Hget Hst). cbv zeta.
  destruct (JSMapFacts.Forall_get _ _ _ _ Hall Hget) as (_ & Hb & _).
  rewrite <- HBK in Hb.
  destruct (JSMapFacts.get_Some_of_keys _ _ Hb) as [b Hbelt].
  match goal with
  | |- context [checkSensorInteractions now s ?m] =>
      set (r1 := checkSensorInteractions now s m);
      destruct (checkSensorInteractions_fields now s m) as [rs Hrs];
      fold r1 in Hrs
  end.
  assert (Hm1 : stats_match (snd r1)).
  { eapply same_counts_match; [|exact Hm]. unfold r1. split.
    - apply checkSensorInteractions_statistics.
    - now rewrite checkSensorInteractions_belts. }
  assert (Hb1 : JSMap.get (belts (snd r1)) (beltId (fst r1)) = Some b).
  { rewrite Hrs. unfold r1. rewrite checkSensorInteractions_belts.
    exact Hbelt. }
  set (r2 := processItem now (snd r1) (fst r1)).
  assert (H2 : stats_match (snd r2)).
  { exact (proj1 (processItem_counts now (snd r1) (fst r1) b Hb1 Hm1)). }
  match goal with
  | |- context [with_items ?a ?b] => set (s3 := with_items a b)
  end.
  assert (H3 : stats_match s3) by exact H2.
  match goal with
  | |- context [if ?c then moveItemToBin ?a ?b else _] =>
      set (s4 := if c then moveItemToBin a b else s3)
  end.
  assert (H4 : stats_match s4).
  { subst s4. destruct (_ && _); [|exact H3].
    eapply same_counts_match; [apply moveItemToBin_counts | exact H3]. }
  destruct (JS.gt _ 4); [|exact H4].
  eapply same_counts_match; [apply removeItem_counts | exact H4].
Qed.

Lemma fold_update_item_match BK PK now deltaTime l s :
  JSMap.keys (belts s) = BK ->
  (forall n, In n PK -> JSMap.get (profiles s) n <> None) ->
  items_all (placed PK BK) s ->
  stats_match s ->
  stats_match (fold_left (update_item now deltaTime) l s).
Proof.
  revert s. induction l as [|k l IH]; intros s HBK Hreg Hall Hm; simpl;
    [exact Hm|].
  destruct (same_controls_keys _ _ (update_item_controls now deltaTime s k))
    as [Hp Hk].
  apply IH.
  - now rewrite Hk.
  - now rewrite Hp.
  - now apply update_item_placed.
  - eapply update_item_match; eauto.
Qed.

Lemma step_stats_match B op s s' :
  is_reset op = false ->
  step B op s = Some s' ->
  well_placed s -> stats_match s -> stats_match s'.
Proof.
  intros Hop Hstep [Hnamed Hall] Hm.
  destruct op; cbn [step] in Hstep; try discriminate Hop;
    try (injection Hstep as <-); try exact Hm.
  - (* OpFrame *)
    unfold frame in Hstep. destruct (isPaused s); [now injection Hstep as <-|].
    destruct (spawnItems B now s) as [s1|] eqn:E; [|discriminate].
    injection Hstep as <-.
    destruct (same_controls_keys _ _ (spawnItems_controls _ _ _ _ E))
      as [Hp1 Hk1].
    eapply (fold_update_item_match (JSMap.keys (belts s))
              (JSMap.keys (profiles s))).
    + exact Hk1.
    + intros n Hn. rewrite Hp1.
      destruct (JSMapFacts.get_Some_of_keys _ _ Hn) as [v ->]. discriminate.
    + eapply spawnItems_placed; eauto; apply incl_refl.
    + eapply same_counts_match; [eapply spawnItems_counts, E | exact Hm].
  - (* OpAnimationEnd *)
    eapply same_counts_match; [|exact Hm].
    unfold animateTobin_finish. break_matches; counts_solve.
  - eapply same_counts_match; [apply toggleBelt_counts | exact Hm].
  - (* OpSetBeltSpeed *)
    eapply same_counts_match; [|exact Hm]. unfold setBeltSpeed.
    destruct (JSMap.get (belts s) belt) eqn:E; [|apply same_counts_refl].
    destruct (existsb _ _); counts_solve.
  - (* OpSetBeltProfile *)
    eapply same_counts_match; [|exact Hm]. unfold setBeltProfile.
    destruct (JSMap.get (belts s) belt) eqn:E; counts_solve.
  - (* OpToggleEmergencyStop *)
    eapply same_counts_match; [|exact Hm]. split.
    + unfold toggleEmergencyStop.
      destruct (emergencyStop (with_emergencyStop s _));
        [rewrite fold_estop_belt_spec | rewrite fold_restart_belt_spec];
        reflexivity.
    + apply toggleEmergencyStop_view; intros b v; reflexivity.
  - eapply same_counts_match; [|exact Hm].
    unfold toggleScenario. break_matches; counts_solve.
  - eapply same_counts_match; [|exact Hm].
    unfold saveProfileChanges. break_matches; counts_solve.
Qed.

Lemma run_stats_match B ops s s' :
  forallb (fun op => negb (is_reset op)) ops = true ->
  run B ops s = Some s' ->
  well_placed s -> stats_match s -> well_placed s' /\ stats_match s'.
Proof.
  revert s. induction ops as [|op ops IH]; intros s; simpl.
  - intros _ [= <-]. auto.
  - intros Hall. apply andb_prop in Hall. destruct Hall as [Hop Hops].
    apply negb_true_iff in Hop.
    destruct (step B op s) as [s1|] eqn:E; [|discriminate].
    intros H Hw Hm. apply (IH s1 Hops H).
    + eapply step_well_placed; eauto.
    + eapply step_stats_match; eauto.
Qed.

(** X17. As long as the configuration is not reset, the global counters
    and the belts' counters agree: at every moment of a session without
    [resetConfiguration], the global count of each class (OK, red, green,
    yellow) is the sum of the belts' counts of that class. *)
Theorem counters_agree_without_reset (B : Builtins) (rng : Rng)
    (dom : list string) (ops : list Op) (s : Sim) :
  forallb (fun op => negb (is_reset op)) ops = true ->
  run B ops (new_QCLineSimulator rng dom) = Some s ->
  stats_match s.
Proof.
  intros Hops Hrun.
  apply (run_stats_match B ops _ s Hops Hrun).
  - apply new_well_placed.
  - repeat split.
Qed.

Lemma counters_agree_without_reset_witness :
  stats_match sample_state_wrongProduct.
Proof.
  apply (counters_agree_without_reset sample_builtins (mkRng [] 0.5)
           ["B1"; "B2"; "B3"]
           (OpToggleScenario "wrongProduct" :: sample_ops)
           sample_state_wrongProduct);
    vm_compute; reflexivity.
Defined.

(** ** Moving a classified item to its bin *)

Lemma checkSensorInteractions_state now s item :
  exists sens',
    snd (checkSensorInteractions now s item) = with_sensors s sens'.
Proof.
  unfold checkSensorInteractions.
  destruct (fold_left _ _ _) as [i sens']. cbn [snd]. eauto.
Qed.

(** X18. A classified item is sent to its bin once per turn, not once.
    Every turn of [updateItems] in which an item that is classified and not
    yet COMPLETED is beyond x = 2 starts one more move-to-bin animation for
    it, whether or not one is running already; and every animation that
    ends, while the bin it holds is still the bin of [this.bins] (no
    [initData] since its start), adds the item's id to that bin and 1 to
    its fill level, whether or not the bin holds the id already.  After an
    [initData], which puts new bins in [this.bins], the animation that ends
    leaves the bins of [this.bins] as they are. *)
Theorem classified_item_is_binned_every_turn (now deltaTime : float)
    (s : Sim) (k b : string) (item : Item) (bin : Bin) :
  JSMap.get (items s) k = Some item ->
  (status item =? "PROCESSING") = false ->
  (status item =? "COMPLETED") = false ->
  bucket item = Some b ->
  JSMap.get (bins s) b = Some bin ->
  JS.gt (vx (position item)
         + velocity item * deltaTime * simulationSpeed s)%float 2 = true ->
  animations (update_item now deltaTime s k)
  = animations s ++ [(id item, Some b)]
  /\ (forall s1 rest bin1,
        animations s1 = (id item, Some b) :: rest ->
        JSMap.get (bins s1) b = Some bin1 ->
        JSMap.get (bins (animateTobin_finish s1)) b
        = Some (mkBin (bin_id bin1) (bin_name bin1) (bin_color bin1)
                      (bin_position bin1) (bin_items bin1 ++ [id item])
                      (fillLevel bin1 + 1)))
  /\ (forall s1 rest,
        animations s1 = (id item, None) :: rest ->
        bins (animateTobin_finish s1) = bins s1)
  /\ (forall s1 rest,
        animations s1 = (id item, Some b) :: rest ->
        existsb (String.eqb b) (map bin_id binsData) = true ->
        bins (animateTobin_finish (initData s1)) = bins (initData s1)).
Proof.
  intros Hget Hp Hc Hb Hbin Hx. split; [|split; [|split]].
  - rewrite (update_item_unfold now deltaTime s k item Hget Hc). cbv zeta.
    match goal with
    | |- context [checkSensorInteractions now s ?m] =>
        set (r1 := checkSensorInteractions now s m);
        destruct (checkSensorInteractions_fields now s m) as [rs Hrs];
        destruct (checkSensorInteractions_state now s m) as [sens' Hs1];
        fold r1 in Hrs, Hs1
    end.
    assert (Hr2 : processItem now (snd r1) (fst r1) = (fst r1, snd r1)).
    { unfold processItem. rewrite Hrs.
      cbn [status item_with_readings item_with_position_x].
      rewrite Hp. reflexivity. }
    rewrite Hr2. cbn [fst snd]. rewrite Hrs, Hs1.
    cbn [status position vx item_with_readings item_with_position_x].
    rewrite Hp, Hx. cbn [negb andb].
    unfold moveItemToBin.
    cbn [bucket item_with_readings item_with_position_x bins with_items
         with_sensors].
    rewrite Hb, Hbin.
    destruct (Math_random _) as [r g].
    destruct (JS.gt _ 4).
    + unfold removeItem. break_matches; reflexivity.
    + reflexivity.
  - intros s1 rest bin1 Ha Hbin1. unfold animateTobin_finish. rewrite Ha.
    cbn [bins with_animations]. rewrite Hbin1.
    cbn [bins items with_bins with_animations].
    destruct (JSMap.get (items s1) (id item));
      cbn [bins with_items with_bins]; apply JSMapFacts.get_set_same.
  - intros s1 rest Ha. unfold animateTobin_finish. rewrite Ha.
    cbn [items with_animations].
    destruct (JSMap.get (items s1) (id item)); reflexivity.
  - intros s1 rest Ha Hin. unfold animateTobin_finish, initData.
    cbn [animations with_animations with_bins with_belts with_profiles].
    rewrite Ha. cbn [map fst snd]. rewrite Hin.
    cbn [items bins with_animations with_bins with_belts with_profiles].
    destruct (JSMap.get (items s1) (id item)); reflexivity.
Qed.

Lemma classified_item_is_binned_every_turn_witness :
  let s1 := update_item 1000000 3.4 sample_state (id sample_item) in
  animations s1 = animations sample_state ++ [(id sample_item, Some "OK_BIN")]
  /\ JSMap.get (bins (animateTobin_finish s1)) "OK_BIN"
     = Some (mkBin "OK_BIN" "OK Bin" "#ffffff" (mkVec3 3 0 0)
                   [id sample_item] 1)
  /\ bins (animateTobin_finish (initData s1)) = bins (initData s1).
Proof.
  intros s1.
  pose proof (classified_item_is_binned_every_turn 1000000 3.4
                sample_state (id sample_item) "OK_BIN" sample_item
                (mkBin "OK_BIN" "OK Bin" "#ffffff" (mkVec3 3 0 0) [] 0)
                ltac:(vm_compute; reflexivity) ltac:(vm_compute; reflexivity)
                ltac:(vm_compute; reflexivity) ltac:(vm_compute; reflexivity)
                ltac:(vm_compute; reflexivity) ltac:(vm_compute; reflexivity))
    as (H1 & H2 & _ & H4).
  split; [exact H1|]. split.
  - exact (H2 s1 [] (mkBin "OK_BIN" "OK Bin" "#ffffff" (mkVec3 3 0 0) [] 0)
              ltac:(vm_compute; reflexivity) ltac:(vm_compute; reflexivity)).
  - exact (H4 s1 [] ltac:(vm_compute; reflexivity)
              ltac:(vm_compute; reflexivity)).
Defined.

(** In the sample session the item, once classified, is beyond x = 2 for
    two turns: the OK bin then holds its id twice, at fill level 2, while
    one item was counted. *)
Example sample_item_binned_twice :
  option_map (fun bin => (bin_items bin, fillLevel bin))
    (JSMap.get (bins sample_state_binned) "OK_BIN")
  = Some ([id sample_item; id sample_item], 2%Z)
  /\ totalItems (statistics sample_state_binned) = 1%Z
  /\ item_count sample_state_binned = 1%nat.
Proof. repeat split; vm_compute; reflexivity. Qed.

(** A reset of the configuration while the animation runs puts a new OK
    bin in [this.bins]; the animation that ends fills the bin it started
    with, and the bin of [this.bins] stays empty. *)
Example sample_bin_stays_empty_after_reset :
  option_map
    (fun s' => option_map (fun bin => (bin_items bin, fillLevel bin))
                          (JSMap.get (bins s') "OK_BIN"))
    (run sample_builtins [OpFrame 1000000 3.4; OpAnimationEnd] sample_state)
  = Some (Some ([id sample_item], 1%Z))
  /\ option_map
       (fun s' => option_map (fun bin => (bin_items bin, fillLevel bin))
                             (JSMap.get (bins s') "OK_BIN"))
       (run sample_builtins
            [OpFrame 1000000 3.4; OpResetConfiguration; OpAnimationEnd]
            sample_state)
     = Some (Some ([], 0%Z)).
Proof. split; vm_compute; reflexivity. Qed.

(** ** An item that misses a sensor *)

Lemma checkSensorInteractions_unseen now s item :
  (forall k sensor, In (k, sensor) (sensors s) ->
                    sensor_sees item sensor = false) ->
  checkSensorInteractions now s item = (item, s).
Proof.
  intros Hnone. unfold checkSensorInteractions.
  rewrite fold_check_sensor_all_read; [now rewrite with_sensors_same|].
  unfold all_read, JSMap.view. rewrite Forall_map, Forall_forall.
  intros [k sensor] Hin. cbn [fst snd sensor_place]. intros Hsees.
  pose proof (Hnone k sensor Hin) as H. unfold sensor_sees in H.
  rewrite H in Hsees. discriminate.
Qed.

(** X19. An item is classified only with the readings of the three
    sensors of its belt.  A turn of [updateItems] in which no sensor sees
    an item that lacks one of them only moves the item: nothing is counted,
    no alarm is raised and no bin is filled; and once the item is beyond the
    end of the line (x > 4) it is removed, never having been classified. *)
Theorem unread_item_is_dropped_uncounted (now deltaTime : float) (s : Sim)
    (k : string) (item : Item) :
  JSMap.get (items s) k = Some item ->
  status item = "PROCESSING" ->
  let x' := (vx (position item)
             + velocity item * deltaTime * simulationSpeed s)%float in
  let moved := item_with_position_x item x' in
  let s' := update_item now deltaTime s k in
  (forall i sensor, In (i, sensor) (sensors s) ->
                    sensor_sees moved sensor = false) ->
  forallb (fun r => existsb (String.eqb r)
                      (map r_sensorId (sensorReadings item)))
          (requiredSensors (beltId item)) = false ->
  statistics s' = statistics s
  /\ JSMap.view counters (belts s') = JSMap.view counters (belts s)
  /\ alarms s' = alarms s
  /\ bins s' = bins s
  /\ animations s' = animations s
  /\ (JS.gt x' 4 = false -> JSMap.get (items s') k = Some moved)
  /\ (JS.gt x' 4 = true -> NoDup (JSMap.keys (items s)) ->
      JSMap.get (items s') k = None).
Proof.
  intros Hget Hst x' moved s' Hnone Hreq.
  assert (Hc : (status item =? "COMPLETED") = false) by now rewrite Hst.
  assert (Hs' : s' = if JS.gt x' 4
                     then removeItem
                            (with_items s (JSMap.set (items s) k moved)) k
                     else with_items s (JSMap.set (items s) k moved)).
  { unfold s'. rewrite (update_item_unfold now deltaTime s k item Hget Hc).
    cbv zeta. fold x'. fold moved.
    rewrite (checkSensorInteractions_unseen now s moved Hnone).
    cbn [fst snd].
    assert (Hp : processItem now s moved = (moved, s)).
    { unfold processItem, moved.
      cbn [status sensorReadings beltId item_with_position_x].
      rewrite Hst, String.eqb_refl. cbn [negb]. now rewrite Hreq. }
    rewrite Hp. unfold moved.
    cbn [fst snd status position vx item_with_position_x].
    rewrite Hst, String.eqb_refl. reflexivity. }
  rewrite Hs'. destruct (JS.gt x' 4) eqn:Hx.
  - repeat split; try discriminate.
    + now rewrite removeItem_statistics.
    + now rewrite (proj2 (removeItem_counts _ k)).
    + unfold removeItem. break_matches; reflexivity.
    + unfold removeItem. break_matches; reflexivity.
    + unfold removeItem. break_matches; reflexivity.
    + intros _ Hnd. apply removeItem_get_self.
      cbn [items with_items]. now apply JSMapFacts.NoDup_keys_set.
  - repeat split; try discriminate.
    intros _. cbn [items with_items]. apply JSMapFacts.get_set_same.
Qed.

Lemma unread_item_is_dropped_uncounted_witness :
  statistics
    (update_item 1020005 10 (sim sample_page_resumed)
       (id (sample_page_item sample_page_resumed)))
  = statistics (sim sample_page_resumed).
Proof.
  refine (proj1 (unread_item_is_dropped_uncounted 1020005 10
                   (sim sample_page_resumed)
                   (id (sample_page_item sample_page_resumed))
                   (sample_page_item sample_page_resumed) _ _ _ _)).
  - vm_compute. reflexivity.
  - vm_compute. reflexivity.
  - intros i sensor Hin. vm_compute in Hin.
    repeat (destruct Hin as [Hin|Hin];
            [injection Hin as <- <-; vm_compute; reflexivity|]).
    contradiction.
  - vm_compute. reflexivity.
Defined.

(** ** The loop and the trends *)

Lemma updateTrends_ok label s t : trends_ok t -> trends_ok (updateTrends label s t).
Proof.
  intros (Hh & Hs & Hl). unfold updateTrends, trends_ok. cbv zeta.
  destruct (50 <? List.length (labels t ++ [label]))%nat eqn:E;
    cbn [labels heightData softnessData].
  - apply Nat.ltb_lt in E.
    assert (Hlen : forall A (l : list A) a,
               List.length (List.tl (l ++ [a])) = List.length l).
    { intros A l a. destruct l; simpl; [reflexivity|].
      rewrite length_app. simpl. lia. }
    rewrite !Hlen. repeat split; auto.
  - apply Nat.ltb_ge in E. rewrite !length_app in *. simpl in *.
    repeat split; lia.
Qed.

Lemma page_step_trends B lab pop p p' :
  page_step B lab pop p = Some p' ->
  trends_ok (trendsData p) -> trends_ok (trendsData p').
Proof.
  destruct pop as [t|op]; cbn [page_step].
  - unfold animate. destruct (negb _); [|now intros [= <-]].
    destruct (spawnItems _ _ _) as [s|]; [|discriminate].
    intros [= <-] Hok. cbn [trendsData].
    destruct (_ <? _)%Z; [now apply updateTrends_ok | exact Hok].
  - destruct (is_frame op); [now intros [= <-]|].
    destruct (step B op (sim p)); [|discriminate].
    now intros [= <-].
Qed.

(** X20. The three series of the trends stay aligned and bounded: at
    every moment of every session in the page, the labels, the average
    heights and the average softnesses are lists of the same length, which
    is at most 50. *)
Theorem trends_aligned_and_bounded (B : Builtins)
    (toLocaleTimeString : Z -> string) (rng : Rng) (dom : list string)
    (startTime : Z) (pops : list PageOp) (p : Page) :
  page_run B toLocaleTimeString pops (new_Page rng dom startTime) = Some p ->
  List.length (heightData (trendsData p)) = List.length (labels (trendsData p))
  /\ List.length (softnessData (trendsData p))
     = List.length (labels (trendsData p))
  /\ (List.length (labels (trendsData p)) <= 50)%nat.
Proof.
  assert (H : forall p0, trends_ok (trendsData p0) ->
                page_run B toLocaleTimeString pops p0 = Some p ->
                trends_ok (trendsData p)).
  { induction pops as [|pop pops IH]; intros p0 Hok; simpl.
    - now intros [= <-].
    - destruct (page_step B toLocaleTimeString pop p0) as [p1|] eqn:E;
        [|discriminate].
      apply IH. eapply page_step_trends; eauto. }
  intros Hrun. apply (H (new_Page rng dom startTime)); [|exact Hrun].
  unfold trends_ok. cbn. repeat split. lia.
Qed.

Lemma trends_aligned_and_bounded_witness :
  (List.length (labels (trendsData sample_page_resumed)) <= 50)%nat.
Proof.
  refine (proj2 (proj2 (trends_aligned_and_bounded sample_builtins
                   sample_toLocaleTimeString (mkRng [] 0.5)
                   ["B1"; "B2"; "B3"] 1000000
                   (sample_page_ops ++ sample_resume_ops)
                   sample_page_resumed _))).
  vm_compute. reflexivity.
Defined.

(** X21. A pause does not stop the clock of the loop.  While the
    simulator is paused the turns of the loop change nothing, and [lastTime]
    stays at the time of the last turn before the pause; the first turn
    after the pause is therefore a turn of the simulation with the whole
    time since then as its [deltaTime], however long the pause was. *)
Theorem pause_does_not_stop_the_clock (B : Builtins)
    (toLocaleTimeString : Z -> string) (p : Page) (times : list Z)
    (currentTime : Z) :
  isPaused (sim p) = true ->
  page_run B toLocaleTimeString (map PTurn times) p = Some p
  /\ page_run B toLocaleTimeString
       (map PTurn times ++ [PHandler OpTogglePause; PTurn currentTime]) p
     = match frame B (float_of_Z currentTime)
               ((float_of_Z currentTime - float_of_Z (lastTime p)) / 1000)
               (togglePause (sim p)) with
       | Some s =>
           Some (mkPage s
                   (if (Z.rem currentTime 10000 <? 16)%Z
                    then updateTrends (toLocaleTimeString currentTime) s
                           (trendsData p)
                    else trendsData p)
                   currentTime)
       | None => None
       end.
Proof.
  intros Hp.
  assert (Hrun : forall pops,
             page_run B toLocaleTimeString (map PTurn times ++ pops) p
             = page_run B toLocaleTimeString pops p).
  { intros pops. induction times as [|t times IH]; simpl; [reflexivity|].
    unfold animate. rewrite Hp. cbn [negb]. exact IH. }
  split.
  - rewrite <- (app_nil_r (map PTurn times)). now rewrite Hrun.
  - rewrite Hrun. cbn [page_run page_step is_frame step option_map].
    unfold animate, frame, togglePause.
    cbn [sim with_sim isPaused with_isPaused lastTime trendsData].
    rewrite Hp. cbn [negb].
    destruct (spawnItems _ _ _) as [s|]; reflexivity.
Qed.

Lemma pause_does_not_stop_the_clock_witness :
  page_run sample_builtins sample_toLocaleTimeString [PTurn 1018000]
    sample_page_paused
  = Some sample_page_paused.
Proof.
  refine (proj1 (pause_does_not_stop_the_clock sample_builtins
                   sample_toLocaleTimeString sample_page_paused [1018000%Z]
                   1020005 _)).
  reflexivity.
Defined.

(** The sample page was paused at the time 1015000; at the turn of the
    time 1020005 its item is 5.005 s of belt further at once, beyond the
    height and the size sensors, which never see it. *)
Example sample_item_jumps_after_pause :
  vx (position (sample_page_item sample_page_paused)) = 0%float
  /\ vx (position (sample_page_item sample_page_resumed))
     = (0.3 * 5.005 * 1)%float
  /\ map r_sensorId (sensorReadings (sample_page_item sample_page_resumed))
     = ["S_SOFT_1"].
Proof. repeat split; vm_compute; reflexivity. Qed.

(** * The filament line *)

(** ** The process log *)

Lemma trim_log_skipn fuel children :
  (List.length children - 100 <= fuel)%nat ->
  Filament.trim_log fuel children
  = skipn (List.length children - 100) children.
Proof.
  revert children. induction fuel as [|fuel IH]; intros children Hf; simpl.
  - replace (List.length children - 100)%nat with 0%nat by lia. reflexivity.
  - destruct (100 <? List.length children)%nat eqn:E.
    + apply Nat.ltb_lt in E. destruct children as [|e children];
        [simpl in E; lia|].
      cbn [List.length] in E, Hf.
      cbn [List.tl]. rewrite IH by lia.
      cbn [List.length].
      replace (S (List.length children) - 100)%nat
        with (S (List.length children - 100)) by lia.
      reflexivity.
    + apply Nat.ltb_ge in E.
      replace (List.length children - 100)%nat with 0%nat by lia. reflexivity.
Qed.

(** X22. [addLogEntry] keeps the last hundred entries: in a page that has
    the process log, the log afterwards is the log before with the new
    entry at its end, cut down from the front to 100 entries, whatever its
    length was; in a page without the log nothing happens; and after
    [clearLog] the log holds one entry. *)
Theorem addLogEntry_keeps_last_100 (f : Filament.Line) (type : string)
    (message : Filament.Message) :
  match Filament.log f with
  | Some children =>
      let appended := children ++ [(type, message)] in
      Filament.log (Filament.addLogEntry f type message)
      = Some (skipn (List.length appended - 100) appended)
      /\ (List.length (skipn (List.length appended - 100) appended) <= 100)%nat
      /\ last (skipn (List.length appended - 100) appended) (type, message)
         = (type, message)
      /\ option_map (@List.length _) (Filament.log (Filament.clearLog f))
         = Some 1%nat
  | None =>
      Filament.addLogEntry f type message = f /\ Filament.clearLog f = f
  end.
Proof.
  unfold Filament.addLogEntry, Filament.clearLog.
  destruct (Filament.log f) as [children|] eqn:Hlog; [|split; reflexivity].
  cbv zeta. cbn [Filament.log Filament.with_log].
  rewrite trim_log_skipn by lia.
  split; [reflexivity|]. split; [rewrite length_skipn; lia|]. split.
  - set (appended := children ++ [(type, message)]).
    assert (Hlast : last appended (type, message) = (type, message))
      by (unfold appended; apply last_last).
    assert (Hn : (List.length appended - 100 < List.length appended)%nat).
    { unfold appended. rewrite length_app. simpl. lia. }
    revert Hlast Hn. generalize (List.length appended - 100)%nat as n.
    generalize appended as l. clear.
    induction l as [|a l IH]; intros n Hlast Hn; [simpl in Hn; lia|].
    destruct n as [|n]; [exact Hlast|]. cbn [skipn].
    apply IH; [|simpl in Hn; lia].
    destruct l as [|b l]; [simpl in Hn; lia | exact Hlast].
  - reflexivity.
Qed.

(** ** The sequencer *)

Lemma station_at_Some i :
  (0 <= i <= 9)%Z -> exists st, Filament.station_at i = Some st.
Proof.
  intros Hi.
  assert (H : (i = 0 \/ i = 1 \/ i = 2 \/ i = 3 \/ i = 4 \/ i = 5 \/ i = 6
               \/ i = 7 \/ i = 8 \/ i = 9)%Z) by lia.
  repeat destruct H as [->|H]; try subst i; eexists; reflexivity.
Qed.

Lemma addLogEntry_line_ok f type message :
  Filament.line_ok f ->
  Filament.line_ok (Filament.addLogEntry f type message).
Proof.
  unfold Filament.addLogEntry. now destruct (Filament.log f).
Qed.

(** What [addLogEntry] leaves alone: everything but the log. *)
Lemma addLogEntry_fields f type message :
  Filament.with_log (Filament.addLogEntry f type message) (Filament.log f)
  = f.
Proof.
  unfold Filament.addLogEntry. destruct f as [? ? ? ? ? ? ? ? ? ? ? ? ? l].
  now destruct l.
Qed.

Lemma advanceToNextStation_ok f :
  Filament.line_ok f ->
  exists f',
    Filament.advanceToNextStation f = Some f'
    /\ Filament.line_ok f'
    /\ Filament.manualMode f' = Filament.manualMode f
    /\ Filament.animationSpeed f' = Filament.animationSpeed f
    /\ Filament.isPaused f' = Filament.isPaused f
    /\ ((Filament.currentStationIndex f < 9)%Z ->
        Filament.currentStationIndex f'
        = (Filament.currentStationIndex f + 1)%Z
        /\ Filament.isMovingBetweenStations f' = true
        /\ Filament.isRunning f' = Filament.isRunning f)
    /\ ((9 <= Filament.currentStationIndex f)%Z ->
        Filament.currentStationIndex f' = Filament.currentStationIndex f
        /\ Filament.isRunning f' = false
        /\ Filament.isMovingBetweenStations f'
           = Filament.isMovingBetweenStations f).
Proof.
  intros (Hi & Hmove & Hstand).
  destruct f as [run pau man spd tot sst idx tray mov sp tp prog ms lg].
  cbn [Filament.currentStationIndex Filament.isMovingBetweenStations
       Filament.isRunning Filament.movementTargetPos Filament.trayPosition
       Filament.manualMode Filament.animationSpeed] in *.
  unfold Filament.advanceToNextStation, Filament.completeStation,
    Filament.moveToStation, Filament.setActiveStation.
  change Filament.stationData_length with 10%Z.
  cbn [Filament.currentStationIndex].
  destruct (station_at_Some idx Hi) as [st Hst]. rewrite Hst.
  unfold Filament.addLogEntry.
  destruct (idx <? 10 - 1)%Z eqn:E.
  - apply Z.ltb_lt in E.
    destruct (station_at_Some (idx + 1)) as [st' Hst']; [lia|].
    destruct lg as [l|];
      cbn -[Filament.station_at Filament.trim_log List.length app Z.add];
      rewrite Hst';
      cbn -[Filament.station_at Filament.trim_log List.length app Z.add];
      rewrite Hst';
      (eexists; split; [reflexivity|]);
      unfold Filament.line_ok, Filament.station_place;
      cbn -[Filament.station_at Filament.trim_log List.length app Z.add];
      rewrite Hst'; cbn [option_map];
      (split; [split; [lia|split; [reflexivity|discriminate]]|]);
      repeat split; try reflexivity; lia.
  - apply Z.ltb_ge in E.
    destruct lg as [l|];
      cbn -[Filament.station_at Filament.trim_log List.length app Z.add];
      (eexists; split; [reflexivity|]);
      unfold Filament.line_ok;
      cbn -[Filament.station_at Filament.trim_log List.length app Z.add];
      (split; [split; [lia|split; [exact Hmove|discriminate]]|]);
      repeat split; try reflexivity; lia.
Qed.

Lemma move_tray_ok lerpVectors delta f :
  Filament.line_ok f ->
  exists f1,
    Filament.move_tray lerpVectors delta f = Some f1
    /\ Filament.line_ok f1
    /\ Filament.same_station f f1.
Proof.
  intros (Hi & Hmove & Hstand). unfold Filament.move_tray.
  destruct f as [run pau man spd tot sst idx tray mov sp tp prog ms lg].
  cbn [Filament.currentStationIndex Filament.isMovingBetweenStations
       Filament.isRunning Filament.movementTargetPos Filament.trayPosition
       Filament.manualMode Filament.animationSpeed] in *.
  destruct mov.
  - cbv zeta.
    cbn [Filament.movementProgress Filament.with_movementProgress
         Filament.animationSpeed Filament.movementSpeed].
    destruct (JS.ge _ 1).
    + cbn [Filament.currentStationIndex Filament.with_stationStartTime
           Filament.with_trayPosition Filament.with_isMovingBetweenStations
           Filament.with_movementProgress Filament.movementTargetPos
           Filament.totalProcessTime].
      destruct (station_at_Some idx Hi) as [st ->].
      eexists. split; [reflexivity|]. split.
      * apply addLogEntry_line_ok. unfold Filament.line_ok.
        cbn [Filament.currentStationIndex Filament.isMovingBetweenStations
             Filament.isRunning Filament.movementTargetPos
             Filament.trayPosition].
        split; [exact Hi|]. split; [discriminate|]. intros _ _. now apply Hmove.
      * unfold Filament.addLogEntry, Filament.same_station.
        destruct lg; cbn; repeat split.
    + eexists. split; [reflexivity|]. split.
      * unfold Filament.line_ok.
        cbn [Filament.currentStationIndex Filament.isMovingBetweenStations
             Filament.isRunning Filament.movementTargetPos
             Filament.trayPosition Filament.with_trayPosition].
        split; [exact Hi|]. split; [exact Hmove|]. discriminate.
      * repeat split.
  - eexists. split; [reflexivity|]. split; [|repeat split].
    unfold Filament.line_ok.
    cbn [Filament.currentStationIndex Filament.isMovingBetweenStations
         Filament.isRunning Filament.movementTargetPos
         Filament.trayPosition].
    split; [exact Hi|]. split; [exact Hmove | exact Hstand].
Qed.

Lemma updateSimulation_ok lerpVectors delta f :
  Filament.line_ok f ->
  exists f',
    Filament.updateSimulation lerpVectors delta f = Some f'
    /\ Filament.line_ok f'
    /\ Filament.turn_effect f f'.
Proof.
  intros Hok. unfold Filament.updateSimulation.
  destruct (move_tray_ok lerpVectors delta f Hok)
    as (f1 & -> & Hok1 & Hi1 & Hman1 & Hspd1 & Hrun1 & Hpau1).
  unfold Filament.auto_advance.
  assert (Hsame : Filament.line_ok f1 /\ Filament.turn_effect f f1).
  { split; [exact Hok1|]. unfold Filament.turn_effect. auto 10. }
  destruct (negb (Filament.manualMode f1)) eqn:Hman; cbn [andb];
    [|eauto].
  destruct (negb (Filament.isMovingBetweenStations f1)); cbn [andb];
    [|eauto].
  destruct (Filament.isRunning f1) eqn:Hr1; [|eauto].
  destruct (Filament.station_at _) as [cs|]; [|eauto].
  destruct (JS.ge _ _); [|eauto].
  apply negb_true_iff in Hman.
  destruct (advanceToNextStation_ok f1 Hok1)
    as (f' & -> & Hok' & Hman' & Hspd' & Hpau' & Hlt & Hge).
  exists f'. split; [reflexivity|]. split; [exact Hok'|].
  unfold Filament.turn_effect.
  split; [congruence|]. split; [congruence|]. split; [congruence|].
  right. destruct Hok1 as (Hb & _).
  destruct (Z.ltb_spec (Filament.currentStationIndex f1) 9) as [Hlt9|Hge9].
  - left. destruct (Hlt Hlt9) as (Hi' & Hmov' & Hrun').
    repeat split; congruence.
  - right. destruct (Hge Hge9) as (Hi' & Hrun' & _).
    assert (Filament.currentStationIndex f1 = 9%Z) by lia.
    repeat split; congruence.
Qed.

Lemma moveToStation_ok f i :
  (0 <= i <= 9)%Z ->
  Filament.currentStationIndex f = i ->
  exists f',
    Filament.moveToStation f i = Some f'
    /\ Filament.line_ok f'
    /\ Filament.currentStationIndex f' = i.
Proof.
  intros Hi Hidx. unfold Filament.moveToStation, Filament.setActiveStation.
  destruct (station_at_Some i Hi) as [st Hst]. rewrite Hst.
  eexists. split; [reflexivity|].
  destruct f as [run pau man spd tot sst idx tray mov sp tp prog ms lg].
  cbn in Hidx. subst idx.
  unfold Filament.line_ok, Filament.station_place. cbn. rewrite Hst. cbn.
  repeat split; try lia; discriminate.
Qed.

Lemma step_line_ok lerpVectors op f :
  Filament.line_ok f ->
  exists f', Filament.step lerpVectors op f = Some f' /\ Filament.line_ok f'.
Proof.
  intros Hok. pose proof Hok as (Hi & Hmove & Hstand).
  destruct op; cbn [Filament.step].
  - (* OpInitialized *)
    eexists. split; [reflexivity|].
    unfold Filament.initialized. now repeat apply addLogEntry_line_ok.
  - (* OpStartProcess *)
    unfold Filament.startProcess.
    destruct (Filament.isRunning f); [eauto|].
    change (Filament.station_at 0) with (nth_error Filament.stationData 0).
    cbn [nth_error Filament.stationData].
    eexists. split; [reflexivity|].
    unfold Filament.setActiveStation.
    destruct f as [run pau man spd tot sst idx tray mov sp tp prog ms lg].
    unfold Filament.addLogEntry, Filament.line_ok, Filament.station_place.
    destruct lg; cbn; repeat split; try lia; discriminate.
  - (* OpPauseProcess *)
    eexists. split; [reflexivity|]. unfold Filament.pauseProcess.
    destruct (negb _); [exact Hok|]. apply addLogEntry_line_ok. exact Hok.
  - (* OpStopProcess *)
    eexists. split; [reflexivity|]. unfold Filament.stopProcess.
    apply addLogEntry_line_ok. unfold Filament.line_ok. cbn.
    repeat split; try lia; discriminate.
  - (* OpResetProcess *)
    eexists. split; [reflexivity|].
    unfold Filament.resetProcess, Filament.stopProcess.
    apply addLogEntry_line_ok.
    destruct f as [run pau man spd tot sst idx tray mov sp tp prog ms lg].
    unfold Filament.addLogEntry, Filament.line_ok.
    destruct lg; cbn; repeat split; try lia; discriminate.
  - (* OpManualMode *)
    eexists. split; [reflexivity|]. unfold Filament.setManualMode.
    apply addLogEntry_line_ok. exact Hok.
  - (* OpPreviousStation *)
    unfold Filament.previousStation.
    destruct (0 <? Filament.currentStationIndex f)%Z eqn:E; cbn [andb];
      [|eauto].
    apply Z.ltb_lt in E.
    destruct (Filament.manualMode f); cbn [andb]; [|eauto].
    destruct (negb _); [|eauto]. cbv zeta.
    destruct (moveToStation_ok
                (Filament.with_currentStationIndex f
                   (Filament.currentStationIndex f - 1))
                (Filament.currentStationIndex f - 1))
      as (f' & Hm & Hok' & _); [lia | reflexivity|].
    cbn [Filament.currentStationIndex Filament.with_currentStationIndex].
    cbn [Filament.currentStationIndex Filament.with_currentStationIndex] in Hm.
    rewrite Hm. eexists. split; [reflexivity|].
    now apply addLogEntry_line_ok.
  - (* OpNextStation *)
    unfold Filament.nextStation.
    destruct (_ && _); [|eauto].
    destruct (advanceToNextStation_ok f Hok) as (f' & H & Hok' & _). eauto.
  - (* OpCompleteCurrentStation *)
    unfold Filament.completeCurrentStation.
    destruct (_ && _); [|eauto].
    destruct (advanceToNextStation_ok f Hok) as (f' & H & Hok' & _). eauto.
  - (* OpAnimationSpeed *)
    eexists. split; [reflexivity|]. unfold Filament.setAnimationSpeed.
    apply addLogEntry_line_ok. exact Hok.
  - (* OpClearLog *)
    eexists. split; [reflexivity|]. unfold Filament.clearLog.
    destruct (Filament.log f); [|exact Hok].
    apply addLogEntry_line_ok. exact Hok.
  - (* OpAnimate *)
    unfold Filament.animate. destruct (_ && _); [|eauto].
    destruct (updateSimulation_ok lerpVectors delta
                (Filament.with_totalProcessTime f
                   (Filament.totalProcessTime f + delta)%float))
      as (f' & H & Hok' & _); [exact Hok|eauto].
Qed.

Lemma run_line_ok lerpVectors ops f :
  Filament.line_ok f ->
  exists f', Filament.run lerpVectors ops f = Some f' /\ Filament.line_ok f'.
Proof.
  revert f. induction ops as [|op ops IH]; intros f Hok; simpl; [eauto|].
  destruct (step_line_ok lerpVectors op f Hok) as (f1 & -> & Hok1).
  now apply IH.
Qed.

Lemma new_line_ok page_log :
  Filament.line_ok (Filament.new_LinearFilamentSimulator page_log).
Proof.
  unfold Filament.line_ok. cbn. repeat split; try lia; discriminate.
Qed.

(** X23. The sequencer never fails and never leaves the line: after any
    sequence of process controls, step controls, changes of mode and of
    speed, and turns of the animation loop, no handler has read a station
    that does not exist, the index of the current station is between 0 and
    9, a tray that is moving moves to the place of the current station, and
    while the process runs a tray that is not moving stands exactly at the
    place of the current station. *)
Theorem filament_line_stays_on_stations
    (lerpVectors : Vec3 -> Vec3 -> float -> Vec3)
    (page_log : option (list Filament.LogEntry)) (ops : list Filament.Op) :
  exists f,
    Filament.run lerpVectors ops (Filament.new_LinearFilamentSimulator page_log)
    = Some f
    /\ (0 <= Filament.currentStationIndex f <= 9)%Z
    /\ (Filament.isMovingBetweenStations f = true ->
        Some (Filament.movementTargetPos f)
        = Filament.station_place (Filament.currentStationIndex f))
    /\ (Filament.isRunning f = true ->
        Filament.isMovingBetweenStations f = false ->
        Some (Filament.trayPosition f)
        = Filament.station_place (Filament.currentStationIndex f)).
Proof.
  destruct (run_line_ok lerpVectors ops _ (new_line_ok page_log))
    as (f & Hrun & Hok).
  exists f. split; [exact Hrun | exact Hok].
Qed.

Lemma progress_below_100 f :
  (0 <= Filament.currentStationIndex f <= 9)%Z ->
  (Filament.progress f <=? 90)%float = true.
Proof.
  intros Hi. unfold Filament.progress.
  assert (H : (Filament.currentStationIndex f = 0
               \/ Filament.currentStationIndex f = 1
               \/ Filament.currentStationIndex f = 2
               \/ Filament.currentStationIndex f = 3
               \/ Filament.currentStationIndex f = 4
               \/ Filament.currentStationIndex f = 5
               \/ Filament.currentStationIndex f = 6
               \/ Filament.currentStationIndex f = 7
               \/ Filament.currentStationIndex f = 8
               \/ Filament.currentStationIndex f = 9)%Z) by lia.
  repeat destruct H as [H|H]; rewrite H; vm_compute; reflexivity.
Qed.

(** X24. What a turn of the animation loop does to the sequencer, in a
    state that satisfies [line_ok] (as every state of a session does).  It
    never fails.  When the process is not running or is paused the turn
    changes nothing.  It never changes the mode, the speed or the pause.
    The station changes in automatic mode only, and then by one step
    forward with the tray set moving; the process ends in automatic mode
    only, at the last station, whose index stays 9. *)
Theorem animate_turn_effect (lerpVectors : Vec3 -> Vec3 -> float -> Vec3)
    (delta : float) (f : Filament.Line) :
  Filament.line_ok f ->
  exists f',
    Filament.animate lerpVectors delta f = Some f'
    /\ Filament.line_ok f'
    /\ (Filament.isRunning f = false \/ Filament.isPaused f = true -> f' = f)
    /\ Filament.manualMode f' = Filament.manualMode f
    /\ Filament.animationSpeed f' = Filament.animationSpeed f
    /\ Filament.isPaused f' = Filament.isPaused f
    /\ ((Filament.currentStationIndex f' = Filament.currentStationIndex f
         /\ Filament.isRunning f' = Filament.isRunning f)
        \/ (Filament.manualMode f = false
            /\ Filament.currentStationIndex f'
               = (Filament.currentStationIndex f + 1)%Z
            /\ Filament.isMovingBetweenStations f' = true
            /\ Filament.isRunning f' = Filament.isRunning f)
        \/ (Filament.manualMode f = false
            /\ Filament.currentStationIndex f = 9%Z
            /\ Filament.currentStationIndex f' = 9%Z
            /\ Filament.isRunning f' = false)).
Proof.
  intros Hok. unfold Filament.animate.
  destruct (Filament.isRunning f) eqn:Hrun; cbn [andb].
  2:{ exists f. repeat split; auto; apply Hok. }
  destruct (Filament.isPaused f) eqn:Hpau; cbn [negb].
  { exists f. rewrite Hrun. repeat split; auto; apply Hok. }
  destruct (updateSimulation_ok lerpVectors delta
              (Filament.with_totalProcessTime f
                 (Filament.totalProcessTime f + delta)%float))
    as (f' & H & Hok' & Hman & Hspd & Hp & Heff); [exact Hok|].
  exists f'. split; [exact H|]. split; [exact Hok'|].
  cbn [Filament.manualMode Filament.animationSpeed Filament.isPaused
       Filament.currentStationIndex Filament.isRunning
       Filament.with_totalProcessTime] in *.
  rewrite Hrun, Hpau in *.
  split; [intros [?|?]; discriminate|].
  repeat split; assumption.
Qed.

Lemma animate_turn_effect_witness :
  exists f',
    Filament.animate Filament.sample_lerpVectors 10
      Filament.sample_line_started = Some f'
    /\ Filament.currentStationIndex f' = 1%Z.
Proof.
  destruct (animate_turn_effect Filament.sample_lerpVectors 10
              Filament.sample_line_started) as (f' & H & _).
  - unfold Filament.line_ok. vm_compute.
    repeat split; try discriminate; reflexivity.
  - exists f'. split; [exact H|].
    vm_compute in H. injection H as <-. reflexivity.
Defined.

(** X25. The progress shown never reaches 100: at every moment of every
    session the number that [updateProgress] computes is at most 90 and the
    station counter at most 10; and once the process is not running, the
    end of a whole cycle included, the counter shows at most 9. *)
Theorem progress_never_reaches_100
    (lerpVectors : Vec3 -> Vec3 -> float -> Vec3)
    (page_log : option (list Filament.LogEntry)) (ops : list Filament.Op)
    (f : Filament.Line) :
  Filament.run lerpVectors ops (Filament.new_LinearFilamentSimulator page_log)
  = Some f ->
  (Filament.progress f <=? 90)%float = true
  /\ (Filament.stationCounter f <= 10)%Z
  /\ (Filament.isRunning f = false -> (Filament.stationCounter f <= 9)%Z).
Proof.
  intros Hrun.
  destruct (run_line_ok lerpVectors ops _ (new_line_ok page_log))
    as (f0 & Hrun0 & (Hi & _)).
  rewrite Hrun in Hrun0. injection Hrun0 as <-.
  split; [now apply progress_below_100|].
  unfold Filament.stationCounter.
  split; [destruct (Filament.isRunning f); lia|].
  intros ->. lia.
Qed.

Lemma progress_never_reaches_100_witness :
  (Filament.progress Filament.sample_line <=? 90)%float = true.
Proof.
  refine (proj1 (progress_never_reaches_100 Filament.sample_lerpVectors
                   (Some []) Filament.sample_cycle Filament.sample_line _)).
  vm_compute. reflexivity.
Defined.

(** The sample cycle goes through the ten stations and ends: the process
    is complete, the tray stands at the output station, and the progress
    shown is 90 with the counter at 9. *)
Example sample_cycle_completes :
  Filament.run Filament.sample_lerpVectors Filament.sample_cycle
    (Filament.new_LinearFilamentSimulator (Some []))
  = Some Filament.sample_line
  /\ Filament.isRunning Filament.sample_line = false
  /\ Filament.currentStationIndex Filament.sample_line = 9%Z
  /\ Filament.trayPosition Filament.sample_line = mkVec3 55 1.5 0
  /\ Filament.progress Filament.sample_line = 90%float
  /\ Filament.stationCounter Filament.sample_line = 9%Z
  /\ option_map (fun l => last l ("", Filament.MsgReady))
       (Filament.log Filament.sample_line)
     = Some ("success", Filament.MsgBundlesProcessed).
Proof. repeat split; vm_compute; reflexivity. Qed.
